(** * Photoshare API: a shallow embedding of the two server variants

    The repository holds one Express application in two persistence
    variants: [src/server.js] (Mongoose / MongoDB, module [Mongo] below)
    and [src/unnamed/part_000] (mysql2 / MySQL, module [MySQL] below).
    Every route handler is embedded as a pure function from the request
    and the store to a response and the next store.  What a handler
    obtains from outside the process while it serves one request (the
    clock, a fresh ObjectId, the bcrypt salt, the choices the database
    makes where the query leaves the order open) is an explicit input,
    the request environment.  The libraries are interfaces: bcrypt and
    jsonwebtoken ([Externals]), the casts of Mongoose ([Mongo.Mongoose]),
    its cursor ([Mongo.Cursor]), the column collation and the parameter
    escaping of mysql2 ([MySQL.Collation], [MySQL.Parameters]).

    Strings are the UTF-8 bytes of the JavaScript string. *)

From Stdlib Require Import List String Ascii ZArith Bool Lia Arith.
From Stdlib Require Import Sorting.Sorted Sorting.Permutation.
From Stdlib Require Import Decimal DecimalString DecimalN.
From Stdlib Require Import SpecFloat.
Import ListNotations.
Local Open Scope string_scope.
Local Open Scope Z_scope.

Set Implicit Arguments.

(** ** JavaScript values the handlers rely on *)

Module JS.

(** A header of [req.headers] or a text part of a multipart body:
    [None] is [undefined] (the field is missing), [Some s] a string. *)
Definition field := option string.

(** [!x] for such a field: [undefined] and the empty string are falsy. *)
Definition falsy (x : field) : bool :=
  match x with
  | None => true
  | Some s => match s with EmptyString => true | String _ _ => false end
  end.

(** The string of a truthy field. *)
Definition present (x : field) : option string :=
  match x with
  | Some (String c r) => Some (String c r)
  | _ => None
  end.

(** A parameter of [req.query].  The query parser of Express gives a
    string for a name that occurs once, and an array or an object of
    such values for a name that occurs several times or carries
    brackets ([page=1&page=2], [page[]=1], [page[a]=1]). *)
#[local] Unset Elimination Schemes.
Inductive query :=
| QStr (s : string)
| QArr (items : list query)
| QObj (members : list (string * query)).
#[local] Set Elimination Schemes.

(** [None] is [undefined]: the parameter is missing. *)
Definition param := option query.

(** [Array.prototype.join(",")] on strings. *)
Fixpoint join (l : list string) : string :=
  match l with
  | [] => ""
  | s :: r => match r with [] => s | _ :: _ => s ++ "," ++ join r end
  end.

(** ToString of a parameter: a string is itself, an array is the
    strings of its elements joined by commas, and an object is
    "[object Object]". *)
Fixpoint to_string (q : query) : string :=
  match q with
  | QStr s => s
  | QArr items => join (map to_string items)
  | QObj _ => "[object Object]"
  end.

(** [x || d] with a string default, converted to the string [parseInt]
    reads: [undefined] and the empty string are falsy and give the
    default; every other string, every array and every object is
    truthy. *)
Definition or_default (x : param) (d : string) : string :=
  match x with
  | None => d
  | Some (QStr EmptyString) => d
  | Some q => to_string q
  end.

(** A member of [req.body] as [express.json()] leaves it: any JSON
    value, or [undefined] for a missing member.  A number is the double
    it was parsed to. *)
#[local] Unset Elimination Schemes.
Inductive value :=
| Undefined
| Null
| Bool (b : bool)
| Num (n : spec_float)
| Str (s : string)
| Arr (items : list value)
| Obj (members : list (string * value)).
#[local] Set Elimination Schemes.

(** [!v]: [undefined], [null], [false], [0], [NaN] and [""] are falsy;
    every array and object is truthy. *)
Definition falsy_value (v : value) : bool :=
  match v with
  | Undefined | Null => true
  | Bool b => negb b
  | Num (S754_zero _) | Num S754_nan => true
  | Num _ => false
  | Str EmptyString => true
  | Str (String _ _) => false
  | Arr _ | Obj _ => false
  end.

(** What an awaited call gives inside the [try] of a handler: a value,
    or an exception, which the [catch] turns into a 500 response. *)
Inductive outcome (A : Type) :=
| Throws
| Returns (a : A).
Arguments Throws {A}.
Arguments Returns {A} a.

(** The numbers [parseInt] and the page arithmetic produce: doubles
    that are integers, the two infinities and [NaN].  ([-0] is not kept
    apart from [0]: both are written "0" in JSON and in a statement.) *)
Inductive number :=
| Int (z : Z)
| Infinity (negative : bool)
| NaN.

(** 2^53: up to here every integer is a double. *)
Definition max_safe : Z := 9007199254740992.

(** The magnitude of the double nearest to the non-negative integer
    [a], ties to even: the leading 53 bits, rounded. *)
Definition round_magnitude (a : Z) : Z :=
  let e := Z.log2 a in
  if e <? 53 then a
  else
    let sh := e - 52 in
    let q := Z.shiftr a sh in
    let r := a - Z.shiftl q sh in
    let half := Z.shiftl 1 (sh - 1) in
    let q' := if (half <? r) || ((r =? half) && Z.odd q) then q + 1 else q in
    Z.shiftl q' sh.

(** The Number value for a mathematical integer; 2^1024 after rounding
    is out of range. *)
Definition to_double (z : Z) : number :=
  let m := round_magnitude (Z.abs z) in
  if Z.shiftl 1 1024 <=? m then Infinity (z <? 0) else Int (Z.sgn z * m).

(** [a - b] and [a * b] on such numbers. *)
Definition sub (a b : number) : number :=
  match a, b with
  | Int x, Int y => to_double (x - y)
  | Infinity n, Int _ => Infinity n
  | Int _, Infinity n => Infinity (negb n)
  | Infinity n, Infinity m => if Bool.eqb n m then NaN else Infinity n
  | _, _ => NaN
  end.

Definition mul (a b : number) : number :=
  match a, b with
  | Int x, Int y => to_double (x * y)
  | Infinity n, Int y | Int y, Infinity n =>
      if y =? 0 then NaN else Infinity (xorb n (y <? 0))
  | Infinity n, Infinity m => Infinity (xorb n m)
  | _, _ => NaN
  end.

Definition is_space (c : ascii) : bool := Ascii.eqb c " "%char.

(** White space and line terminators (StrWhiteSpaceChar), which
    [parseInt] skips at the start, by the bytes of their UTF-8 form.
    One byte: TAB, LF, VT, FF, CR, SP. *)
Definition is_white1 (c : ascii) : bool :=
  let n := nat_of_ascii c in
  (Nat.eqb n 32 || (Nat.leb 9 n && Nat.leb n 13))%bool.

(** Two bytes: U+00A0. *)
Definition is_white2 (c1 c2 : ascii) : bool :=
  (Nat.eqb (nat_of_ascii c1) 194 && Nat.eqb (nat_of_ascii c2) 160)%bool.

(** Three bytes: U+1680, U+2000 to U+200A, U+2028, U+2029, U+202F,
    U+205F, U+3000, U+FEFF. *)
Definition is_white3 (c1 c2 c3 : ascii) : bool :=
  let a := nat_of_ascii c1 in
  let b := nat_of_ascii c2 in
  let c := nat_of_ascii c3 in
  ((Nat.eqb a 225 && Nat.eqb b 154 && Nat.eqb c 128)
   || (Nat.eqb a 226 && Nat.eqb b 128
       && ((Nat.leb 128 c && Nat.leb c 138)
           || Nat.eqb c 168 || Nat.eqb c 169 || Nat.eqb c 175))
   || (Nat.eqb a 226 && Nat.eqb b 129 && Nat.eqb c 159)
   || (Nat.eqb a 227 && Nat.eqb b 128 && Nat.eqb c 128)
   || (Nat.eqb a 239 && Nat.eqb b 187 && Nat.eqb c 191))%bool.

Definition digit_of (c : ascii) : option Z :=
  let n := Z.of_nat (nat_of_ascii c) in
  if (48 <=? n) && (n <=? 57) then Some (n - 48) else None.

Fixpoint skip_white (s : string) : string :=
  match s with
  | EmptyString => s
  | String c1 r1 =>
      if is_white1 c1 then skip_white r1
      else
        match r1 with
        | EmptyString => s
        | String c2 r2 =>
            if is_white2 c1 c2 then skip_white r2
            else
              match r2 with
              | EmptyString => s
              | String c3 r3 =>
                  if is_white3 c1 c2 c3 then skip_white r3 else s
              end
        end
  end.

(** The longest prefix of decimal digits, folded left to right:
    [None] when there is no digit at all. *)
Fixpoint digits (acc : option Z) (s : string) : option Z :=
  match s with
  | String c r =>
      match digit_of c with
      | Some d => digits (Some (match acc with Some a => 10 * a + d | None => d end)) r
      | None => acc
      end
  | EmptyString => acc
  end.

(** [parseInt(s, 10)]: leading white space, a sign, then the digits;
    the integer they denote is rounded to a double. *)
Definition parseInt (s : string) : number :=
  let t := skip_white s in
  let '(neg, u) :=
    match t with
    | String "-"%char r => (true, r)
    | String "+"%char r => (false, r)
    | _ => (false, t)
    end in
  match digits None u with
  | Some n => to_double (if neg then - n else n)
  | None => NaN
  end.

(** [s.split(" ")]: cut at every single space character; empty pieces
    are kept, and the result always has at least one piece. *)
Fixpoint split_space_aux (cur : string) (s : string) : list string :=
  match s with
  | EmptyString => [cur]
  | String c r =>
      if is_space c then cur :: split_space_aux EmptyString r
      else split_space_aux (cur ++ String c EmptyString) r
  end.

Definition split_space (s : string) : list string := split_space_aux EmptyString s.

End JS.

(** ** What the queries leave to the database *)

Section Ordering.
Variable A : Type.
Variable before : A -> A -> bool.

(** Insertion: [x] is placed in front of the first element it comes
    before. *)
Fixpoint insert_sorted (x : A) (l : list A) : list A :=
  match l with
  | [] => [x]
  | h :: t => if before x h then x :: h :: t else h :: insert_sorted x t
  end.

Definition sort_by (l : list A) : list A := fold_right insert_sorted [] l.
End Ordering.

(** [sort({createdAt: -1})] and [ORDER BY created_at DESC]: newest
    first.  The query gives no order to documents with the same time
    stamp; the database's order among them in this one result is
    [tie]. *)
Definition newest_first (A : Type) (tie : A -> A -> bool) (createdAt : A -> Z)
    (l : list A) : list A :=
  sort_by (fun x h => (createdAt h <? createdAt x)
                      || ((createdAt h =? createdAt x) && tie x h)) l.

(** [sort({createdAt: 1})] and [ORDER BY created_at ASC]. *)
Definition oldest_first (A : Type) (tie : A -> A -> bool) (createdAt : A -> Z)
    (l : list A) : list A :=
  sort_by (fun x h => (createdAt x <? createdAt h)
                      || ((createdAt x =? createdAt h) && tie x h)) l.

(** [findOne] and [LIMIT 1] without a sort: the database returns one of
    the matching documents, the one at position [pick] (counted round
    the matches) in their stored order, or nothing when none matches. *)
Definition one_of (A : Type) (pick : nat) (matches : list A) : option A :=
  nth_error matches (pick mod List.length matches).

(** ** External collaborators: bcrypt and jsonwebtoken

    [bcrypt_hash password rounds salt] is [bcrypt.hash] of a string
    with the salt it draws made explicit, and [bcrypt_compare] is
    [bcrypt.compare] of a string with a hash (data that is not a string
    is rejected by both, see the handlers); [jwt_sign userId now] is
    [jwt.sign] of the payload [{userId}] under the process secret with
    [expiresIn: "7d"]; [jwt_verify token now] is [jwt.verify] under the
    same secret at time [now], giving the payload's [userId] or [None]
    for the error. *)
Class Externals (UserId : Type) := {
  bcrypt_hash : string -> nat -> string -> string;
  bcrypt_compare : string -> string -> bool;
  jwt_sign : UserId -> Z -> string;
  jwt_verify : string -> Z -> option UserId
}.

(** ** The authentication middleware (identical in both variants) *)

Definition msg_no_header := "Hiányzó Authorization header".
Definition msg_no_token := "Hiányzó token".
Definition msg_bad_token := "Érvénytelen token".
Definition msg_server := "Szerver hiba".
Definition msg_register_required := "username, email, password kötelező".
Definition msg_user_exists := "A felhasználó már létezik (email vagy username foglalt)".
Definition msg_login_required := "emailOrUsername és password kötelező".
Definition msg_bad_credentials := "Hibás belépési adatok".
Definition msg_no_file := "Hiányzó image fájl".
Definition msg_no_photo := "Fotó nem található".
Definition msg_text_required := "text kötelező".

(** The outcome of [authRequired]: either it answers the request itself
    (status and [error] message) or it sets [req.userId] and calls
    [next()]. *)
Inductive auth_result (UserId : Type) :=
| Rejected (status : Z) (error : string)
| Next (userId : UserId).
Arguments Rejected {UserId} status error.
Arguments Next {UserId} userId.

Definition authRequired {UserId : Type} {ext : Externals UserId}
    (now : Z) (authorization : JS.field) : auth_result UserId :=
  match JS.present authorization with
  | None => Rejected 401 msg_no_header
  | Some authHeader =>
      match JS.present (nth_error (JS.split_space authHeader) 1) with
      | None => Rejected 401 msg_no_token
      | Some token =>
          match jwt_verify token now with
          | None => Rejected 401 msg_bad_token
          | Some userId => Next userId
          end
      end
  end.

(** ** Variant 1: [src/server.js] (Mongoose) *)

Module Mongo.

(** An ObjectId is carried as what [toString()], the JSON of a document
    and the JWT payload hold: its 24 hexadecimal digits in lower case.
    A route parameter is not an ObjectId but any string; Mongoose casts
    it ([castObjectId] below). *)
Definition ObjectId := string.

(** [userSchema], [photoSchema], [commentSchema], each with
    [timestamps: true] and Mongoose's version key.  A user and a
    comment are created and never saved again: their [updatedAt] stays
    equal to [createdAt] and their [__v] stays 0, so the two are not
    stored apart from [createdAt] here.  A photo is saved again by the
    like handlers. *)
Record User := mkUser {
  user_id : ObjectId;
  user_username : string;
  user_email : string;
  user_passwordHash : string;
  user_createdAt : Z
}.

Record Photo := mkPhoto {
  photo_id : ObjectId;
  photo_owner : ObjectId;
  photo_url : string;
  photo_caption : option string;
  photo_likes : list ObjectId;
  photo_createdAt : Z;
  photo_updatedAt : Z;
  photo_v : Z
}.

Record Comment := mkComment {
  comment_id : ObjectId;
  comment_photo : ObjectId;
  comment_author : ObjectId;
  comment_text : string;
  comment_createdAt : Z
}.

(** The three collections, in insertion order. *)
Record Store := mkStore {
  users : list User;
  photos : list Photo;
  comments : list Comment
}.

Definition empty : Store := mkStore [] [] [].

(** What a request takes from outside the store: the clock, the
    ObjectId Mongoose generates for a new document, the salt bcrypt
    draws, and the two choices MongoDB makes for the request's query:
    which match [findOne] returns ([pick]) and how documents with the
    same [createdAt] follow each other in a sorted result ([tie], on
    their ids). *)
Record Env := mkEnv {
  now : Z;
  fresh : ObjectId;
  salt : string;
  pick : nat;
  tie : ObjectId -> ObjectId -> bool
}.

(** A reference field in the JSON of a document: the bare id, or after
    [populate(path, "username email")] the selected fields of the user
    found ([null] when there is none). *)
Inductive ref :=
| Unpopulated (id : ObjectId)
| Populated (id : ObjectId) (username email : string)
| Null.

Record PhotoJson := mkPhotoJson {
  pj_id : ObjectId;
  pj_owner : ref;
  pj_url : string;
  pj_caption : option string;
  pj_likes : list ObjectId;
  pj_createdAt : Z;
  pj_updatedAt : Z;
  pj_v : Z
}.

Record CommentJson := mkCommentJson {
  cj_id : ObjectId;
  cj_photo : ObjectId;
  cj_author : ref;
  cj_text : string;
  cj_createdAt : Z;
  cj_updatedAt : Z;
  cj_v : Z
}.

Inductive body :=
| Error (error : string)
| UserSummary (id : ObjectId) (username email : string) (createdAt : Z)
| Session (token : string) (id : ObjectId) (username email : string)
| PhotoDoc (photo : PhotoJson)
| Page (page limit : JS.number) (total : nat) (items : list PhotoJson)
| Likes (likesCount : nat)
| CommentDoc (comment : CommentJson)
| CommentList (comments : list CommentJson).

Record response := mkResponse { status : Z; json : body }.

(** The cursor of [Photo.find({}).sort(..).skip(skip).limit(limit)]
    applied to the sorted documents; [None] is a rejected query.  Only
    the window of a skip from 0 and a limit from 1, both up to 2^53, is
    fixed here; what Mongoose and the server do with other numbers is
    left to the instance. *)
Class Cursor := {
  window : JS.number -> JS.number -> list Photo -> option (list Photo);
  window_range :
    forall skip limit docs,
      0 <= skip <= JS.max_safe -> 0 < limit <= JS.max_safe ->
      window (JS.Int skip) (JS.Int limit) docs
      = Some (firstn (Z.to_nat limit) (skipn (Z.to_nat skip) docs))
}.

(** What Mongoose does with the values the handlers hand to it.

    [castObjectId] is the cast of a string to an ObjectId in
    [findById(id)] and in the filter [{photo: id}]; [None] is the
    CastError a malformed id raises.

    [castFilter] is the cast of a value in a filter on a String path
    ([{email: v}]) to the condition on the stored string; [None] is a
    CastError.  A string stands for itself; a number, an array or an
    object (an operator object such as [{"$ne": ..}] among them) is
    Mongoose's business.

    [castString] is the cast of a value to a String path of a new
    document; [None] makes the document fail validation.

    [stamp now photo likes] is what [save()] leaves in [updatedAt] and
    [__v] of a loaded [photo] whose [likes] were set to the given
    array; a document whose array equals the stored one is not
    modified, and [save()] then writes nothing. *)
Class Mongoose := {
  castObjectId : string -> option ObjectId;
  castFilter : JS.value -> option (string -> bool);
  castFilter_string : forall s, castFilter (JS.Str s) = Some (String.eqb s);
  castString : JS.value -> option string;
  castString_string : forall s, castString (JS.Str s) = Some s;
  stamp : Z -> Photo -> list ObjectId -> Z * Z;
  stamp_unmodified :
    forall now photo,
      stamp now photo (photo_likes photo) = (photo_updatedAt photo, photo_v photo)
}.

Section Handlers.
Context {ext : Externals ObjectId} {cur : Cursor} {mg : Mongoose}.

(** The answer of every [catch]. *)
Definition server_error (s : Store) : response * Store :=
  (mkResponse 500 (Error msg_server), s).

(** [User.findOne({ $or: [{ email }, { username }] })] *)
Definition findUser (e : Env) (email username : JS.value) (s : Store)
    : JS.outcome (option User) :=
  match castFilter email, castFilter username with
  | Some is_email, Some is_username =>
      JS.Returns
        (one_of (pick e)
           (filter (fun u => is_email (user_email u) || is_username (user_username u))
                   (users s)))
  | _, _ => JS.Throws
  end.

(** The photo with a given [_id]. *)
Definition photoOf (id : ObjectId) (s : Store) : option Photo :=
  find (fun p => String.eqb (photo_id p) id) (photos s).

(** [Photo.findById(req.params.id)] *)
Definition findById (id : string) (s : Store) : JS.outcome (option Photo) :=
  match castObjectId id with
  | None => JS.Throws
  | Some _id => JS.Returns (photoOf _id s)
  end.

Definition findUserById (id : ObjectId) (s : Store) : option User :=
  find (fun u => String.eqb (user_id u) id) (users s).

(** [populate(path, "username email")] of one reference. *)
Definition populate (s : Store) (id : ObjectId) : ref :=
  match findUserById id s with
  | Some u => Populated (user_id u) (user_username u) (user_email u)
  | None => Null
  end.

Definition photo_json (owner : ref) (p : Photo) : PhotoJson :=
  mkPhotoJson (photo_id p) owner (photo_url p) (photo_caption p)
              (photo_likes p) (photo_createdAt p) (photo_updatedAt p) (photo_v p).

Definition comment_json (author : ref) (c : Comment) : CommentJson :=
  mkCommentJson (comment_id c) (comment_photo c) author (comment_text c)
                (comment_createdAt c) (comment_createdAt c) 0.

(** The loaded [photo] with its [likes] set, as [save()] stores it. *)
Definition with_likes (e : Env) (photo : Photo) (likes : list ObjectId) : Photo :=
  mkPhoto (photo_id photo) (photo_owner photo) (photo_url photo)
          (photo_caption photo) likes (photo_createdAt photo)
          (fst (stamp (now e) photo likes)) (snd (stamp (now e) photo likes)).

(** [photo.save()]: the stored document with this [_id] is replaced. *)
Fixpoint save_photo (p : Photo) (l : list Photo) : list Photo :=
  match l with
  | [] => []
  | q :: r => if String.eqb (photo_id q) (photo_id p) then p :: r
              else q :: save_photo p r
  end.

Definition set_photos (s : Store) (l : list Photo) : Store :=
  mkStore (users s) l (comments s).

(** [required: true] on a String path: the empty string fails. *)
Definition required (s : string) : bool :=
  match s with EmptyString => false | String _ _ => true end.

(** [User.create({ username, email, passwordHash })]: the values are
    cast and validated ([required]), and the insert is refused by the
    unique index on [username] or on [email] when a stored user has the
    same one. *)
Definition createUser (e : Env) (username email : JS.value) (passwordHash : string)
    (s : Store) : JS.outcome User :=
  match castString username, castString email with
  | Some username, Some email =>
      if required username && required email && required passwordHash
         && negb (existsb (fun u => String.eqb (user_username u) username
                                    || String.eqb (user_email u) email)
                          (users s))
      then JS.Returns (mkUser (fresh e) username email passwordHash (now e))
      else JS.Throws
  | _, _ => JS.Throws
  end.

(** POST /auth/register *)
Definition register (e : Env) (username email password : JS.value)
    (s : Store) : response * Store :=
  if JS.falsy_value username || JS.falsy_value email || JS.falsy_value password
  then (mkResponse 400 (Error msg_register_required), s)
  else
    match findUser e email username s with
    | JS.Throws => server_error s
    | JS.Returns (Some existingUser) => (mkResponse 409 (Error msg_user_exists), s)
    | JS.Returns None =>
        match password with
        | JS.Str password =>
            let passwordHash := bcrypt_hash password 10 (salt e) in
            match createUser e username email passwordHash s with
            | JS.Throws => server_error s
            | JS.Returns user =>
                (mkResponse 201 (UserSummary (user_id user) (user_username user)
                                             (user_email user) (user_createdAt user)),
                 mkStore (users s ++ [user]) (photos s) (comments s))
            end
        | _ => server_error s
        end
    end.

(** POST /auth/login *)
Definition login (e : Env) (emailOrUsername password : JS.value)
    (s : Store) : response * Store :=
  if JS.falsy_value emailOrUsername || JS.falsy_value password
  then (mkResponse 400 (Error msg_login_required), s)
  else
    match findUser e emailOrUsername emailOrUsername s with
    | JS.Throws => server_error s
    | JS.Returns None => (mkResponse 401 (Error msg_bad_credentials), s)
    | JS.Returns (Some user) =>
        match password with
        | JS.Str password =>
            if bcrypt_compare password (user_passwordHash user) then
              let token := jwt_sign (user_id user) (now e) in
              (mkResponse 200 (Session token (user_id user) (user_username user)
                                       (user_email user)), s)
            else (mkResponse 401 (Error msg_bad_credentials), s)
        | _ => server_error s
        end
    end.

(** POST /photos, after [authRequired] and [upload.single("image")];
    [file] is [req.file.filename], absent when no image was sent. *)
Definition uploadPhoto (e : Env) (userId : ObjectId) (file : option string)
    (caption : JS.field) (s : Store) : response * Store :=
  match file with
  | None => (mkResponse 400 (Error msg_no_file), s)
  | Some filename =>
      let fileUrl := "/uploads/" ++ filename in
      let photo := mkPhoto (fresh e) userId fileUrl caption [] (now e) (now e) 0 in
      (mkResponse 201 (PhotoDoc (photo_json (Unpopulated userId) photo)),
       set_photos s (photos s ++ [photo]))
  end.

(** [Photo.find({}).sort({ createdAt: -1 })] *)
Definition sortedPhotos (e : Env) (s : Store) : list Photo :=
  newest_first (fun a b => tie e (photo_id a) (photo_id b)) photo_createdAt (photos s).

(** GET /photos *)
Definition listPhotos (e : Env) (page limit : JS.param) (s : Store)
    : response * Store :=
  let page := JS.parseInt (JS.or_default page "1") in
  let limit := JS.parseInt (JS.or_default limit "10") in
  let skip := JS.mul (JS.sub page (JS.Int 1)) limit in
  let total := List.length (photos s) in
  match window skip limit (sortedPhotos e s) with
  | Some docs =>
      let items := map (fun p => photo_json (populate s (photo_owner p)) p) docs in
      (mkResponse 200 (Page page limit total items), s)
  | None => server_error s
  end.

(** GET /photos/:id *)
Definition getPhoto (id : string) (s : Store) : response * Store :=
  match findById id s with
  | JS.Throws => server_error s
  | JS.Returns None => (mkResponse 404 (Error msg_no_photo), s)
  | JS.Returns (Some photo) =>
      (mkResponse 200 (PhotoDoc (photo_json (populate s (photo_owner photo)) photo)), s)
  end.

(** POST /photos/:id/like, after [authRequired] *)
Definition likePhoto (e : Env) (id : string) (userId : ObjectId) (s : Store)
    : response * Store :=
  match findById id s with
  | JS.Throws => server_error s
  | JS.Returns None => (mkResponse 404 (Error msg_no_photo), s)
  | JS.Returns (Some photo) =>
      let hasLiked := existsb (fun u => String.eqb u userId) (photo_likes photo) in
      if hasLiked then
        (mkResponse 200 (Likes (List.length (photo_likes photo))), s)
      else
        let photo' := with_likes e photo (photo_likes photo ++ [userId]) in
        (mkResponse 200 (Likes (List.length (photo_likes photo'))),
         set_photos s (save_photo photo' (photos s)))
  end.

(** DELETE /photos/:id/like, after [authRequired] *)
Definition unlikePhoto (e : Env) (id : string) (userId : ObjectId) (s : Store)
    : response * Store :=
  match findById id s with
  | JS.Throws => server_error s
  | JS.Returns None => (mkResponse 404 (Error msg_no_photo), s)
  | JS.Returns (Some photo) =>
      let likes := filter (fun u => negb (String.eqb u userId)) (photo_likes photo) in
      let photo' := with_likes e photo likes in
      (mkResponse 200 (Likes (List.length (photo_likes photo'))),
       set_photos s (save_photo photo' (photos s)))
  end.

(** [Comment.create({ photo: photo._id, author: req.userId, text })] *)
Definition createCommentDoc (e : Env) (photo : Photo) (userId : ObjectId)
    (text : JS.value) : JS.outcome Comment :=
  match castString text with
  | Some text =>
      if required text
      then JS.Returns (mkComment (fresh e) (photo_id photo) userId text (now e))
      else JS.Throws
  | None => JS.Throws
  end.

(** POST /photos/:id/comments, after [authRequired] *)
Definition createComment (e : Env) (id : string) (userId : ObjectId)
    (text : JS.value) (s : Store) : response * Store :=
  if JS.falsy_value text then (mkResponse 400 (Error msg_text_required), s)
  else
    match findById id s with
    | JS.Throws => server_error s
    | JS.Returns None => (mkResponse 404 (Error msg_no_photo), s)
    | JS.Returns (Some photo) =>
        match createCommentDoc e photo userId text with
        | JS.Throws => server_error s
        | JS.Returns comment =>
            (mkResponse 201 (CommentDoc (comment_json (Unpopulated userId) comment)),
             mkStore (users s) (photos s) (comments s ++ [comment]))
        end
    end.

(** GET /photos/:id/comments *)
Definition listComments (e : Env) (id : string) (s : Store) : response * Store :=
  match castObjectId id with
  | None => server_error s
  | Some photo =>
      let found := filter (fun c => String.eqb (comment_photo c) photo) (comments s) in
      let sorted := oldest_first (fun a b => tie e (comment_id a) (comment_id b))
                                 comment_createdAt found in
      (mkResponse 200
         (CommentList (map (fun c => comment_json (populate s (comment_author c)) c)
                           sorted)),
       s)
  end.

(** A protected route: the middleware first, then the handler. *)
Definition protected (e : Env) (authorization : JS.field)
    (handler : ObjectId -> Store -> response * Store) (s : Store)
    : response * Store :=
  match authRequired (now e) authorization with
  | Rejected st msg => (mkResponse st (Error msg), s)
  | Next userId => handler userId s
  end.

(** The requests the application routes. *)
Inductive request :=
| PostRegister (username email password : JS.value)
| PostLogin (emailOrUsername password : JS.value)
| PostPhoto (authorization : JS.field) (file : option string) (caption : JS.field)
| GetPhotos (page limit : JS.param)
| GetPhoto (id : string)
| PostLike (authorization : JS.field) (id : string)
| DeleteLike (authorization : JS.field) (id : string)
| PostComment (authorization : JS.field) (id : string) (text : JS.value)
| GetComments (id : string).

Definition handle (e : Env) (r : request) (s : Store) : response * Store :=
  match r with
  | PostRegister username email password => register e username email password s
  | PostLogin emailOrUsername password => login e emailOrUsername password s
  | PostPhoto a file caption =>
      protected e a (fun userId => uploadPhoto e userId file caption) s
  | GetPhotos page limit => listPhotos e page limit s
  | GetPhoto id => getPhoto id s
  | PostLike a id => protected e a (likePhoto e id) s
  | DeleteLike a id => protected e a (unlikePhoto e id) s
  | PostComment a id text =>
      protected e a (fun userId => createComment e id userId text) s
  | GetComments id => listComments e id s
  end.

(** The stores the application can be in: it starts on empty
    collections and serves one request after the other. *)
Inductive reachable : Store -> Prop :=
| reachable_empty : reachable empty
| reachable_handle : forall s e r,
    reachable s -> reachable (snd (handle e r s)).

(** A request run on a store, and a sequence of them. *)
Definition run (rs : list (Env * request)) (s : Store) : Store :=
  fold_left (fun s er => snd (handle (fst er) (snd er) s)) rs s.

End Handlers.

End Mongo.

(** ** Variant 2: [src/unnamed/part_000] (mysql2) *)

Module MySQL.

(** Modelled from the spec: the table declarations are not part of the
    sources.  The statements of the handlers fix the columns; each of
    [users], [photos] and [comments] has an AUTO_INCREMENT key [id]
    (read back as [insertId]) and a [created_at] filled in on insertion;
    [photo_likes] holds at most one row per (photo_id, user_id), the
    uniqueness constraint of the spec's Like relation and the unique
    key that the like handler's comment names; no foreign key and no
    other unique key is assumed.  A route parameter is carried as the
    number MySQL converts it to. *)
Record UserRow := mkUserRow {
  u_id : Z;
  u_username : string;
  u_email : string;
  u_password_hash : string;
  u_created_at : Z
}.

Record PhotoRow := mkPhotoRow {
  p_id : Z;
  p_owner_id : Z;
  p_url : string;
  p_caption : option string;
  p_created_at : Z
}.

Record LikeRow := mkLikeRow {
  l_photo_id : Z;
  l_user_id : Z
}.

Record CommentRow := mkCommentRow {
  c_id : Z;
  c_photo_id : Z;
  c_author_id : Z;
  c_text : string;
  c_created_at : Z
}.

Record Store := mkStore {
  users : list UserRow;
  photos : list PhotoRow;
  photo_likes : list LikeRow;
  comments : list CommentRow;
  next_user_id : Z;
  next_photo_id : Z;
  next_comment_id : Z
}.

Definition empty : Store := mkStore [] [] [] [] 1 1 1.

(** What a request takes from outside the store: the clock, the salt
    bcrypt draws, and the two choices MySQL makes for the request's
    statement: which matching row [LIMIT 1] returns ([pick]) and how
    rows with the same [created_at] follow each other under
    [ORDER BY created_at] ([tie], on their keys). *)
Record Env := mkEnv {
  now : Z;
  salt : string;
  pick : nat;
  tie : Z -> Z -> bool
}.

(** The comparison of the [email] and [username] columns with a
    string.  It is fixed by the collation of the missing table
    declaration; only that a string matches itself is relied on. *)
Class Collation := {
  sql_eq : string -> string -> bool;
  sql_eq_refl : forall x, sql_eq x x = true
}.

Inductive user_column := col_email | col_username.

Definition column_text (c : user_column) (u : UserRow) : string :=
  match c with
  | col_email => u_email u
  | col_username => u_username u
  end.

(** What [pool.query] makes of a [?] whose parameter comes from the
    JSON body.  mysql2 writes the escaped parameter into the statement:
    a string as a quoted literal, and a number, an array or an object
    as the text its escaping gives them, which MySQL then reads as part
    of the statement.

    [where_eq c v] is the condition [c = ?] becomes on the rows of
    [users]; [None] is a statement MySQL rejects.

    [insert_text v] is the string [VALUES (.., ?, ..)] stores in a text
    column; [None] is a statement MySQL rejects. *)
Class Parameters {col : Collation} := {
  where_eq : user_column -> JS.value -> option (UserRow -> bool);
  where_eq_string :
    forall c s, where_eq c (JS.Str s) = Some (fun u => sql_eq (column_text c u) s);
  insert_text : JS.value -> option string;
  insert_text_string : forall s, insert_text (JS.Str s) = Some s
}.

(** The rows the SELECT statements of the handlers return. *)
Record PhotoItem := mkPhotoItem {
  pi_id : Z;
  pi_url : string;
  pi_caption : option string;
  pi_createdAt : Z;
  pi_ownerId : Z;
  pi_ownerUsername : string;
  pi_ownerEmail : string;
  pi_likesCount : nat
}.

Record PhotoPlain := mkPhotoPlain {
  pp_id : Z;
  pp_ownerId : Z;
  pp_url : string;
  pp_caption : option string;
  pp_createdAt : Z
}.

Record PhotoJoined := mkPhotoJoined {
  pd_id : Z;
  pd_url : string;
  pd_caption : option string;
  pd_createdAt : Z;
  pd_ownerId : Z;
  pd_ownerUsername : string;
  pd_ownerEmail : string
}.

Record CommentItem := mkCommentItem {
  ci_id : Z;
  ci_text : string;
  ci_createdAt : Z;
  ci_authorId : Z;
  ci_authorUsername : string;
  ci_authorEmail : string
}.

(** [rows[0]] is [undefined] on an empty result, hence the options.
    The summary of a registration echoes [username] and [email] as the
    request had them. *)
Inductive body :=
| Error (error : string)
| UserSummary (id : Z) (username email : JS.value) (createdAt : Z)
| Session (token : string) (id : Z) (username email : string)
| PhotoCreated (row : option PhotoPlain)
| PhotoDoc (row : PhotoJoined)
| Page (page limit : JS.number) (total : nat) (items : list PhotoItem)
| Likes (likesCount : nat)
| CommentDoc (row : option CommentItem)
| CommentList (rows : list CommentItem).

Record response := mkResponse { status : Z; json : body }.

(** The largest BIGINT UNSIGNED, 2^64 - 1. *)
Definition max_unsigned : Z := 18446744073709551615.

(** [LIMIT ? OFFSET ?] under [pool.query]: mysql2 writes both numbers
    into the statement as text, and MySQL takes unsigned integer
    literals only; a sign, a literal beyond BIGINT UNSIGNED, "Infinity"
    or "NaN" there is an error, which the handler turns into 500. *)
Definition limit_offset (A : Type) (limit offset : JS.number) (rows : list A)
    : option (list A) :=
  match limit, offset with
  | JS.Int l, JS.Int o =>
      if (0 <=? l) && (l <=? max_unsigned) && (0 <=? o) && (o <=? max_unsigned)
      then Some (firstn (Z.to_nat l) (skipn (Z.to_nat o) rows))
      else None
  | _, _ => None
  end.

Section Handlers.
Context {ext : Externals Z} {col : Collation} {par : Parameters}.

(** The answer of every [catch]. *)
Definition server_error (s : Store) : response * Store :=
  (mkResponse 500 (Error msg_server), s).

(** [FROM users WHERE email = ? OR username = ?] *)
Definition selectUsers (email username : JS.value) (s : Store)
    : JS.outcome (list UserRow) :=
  match where_eq col_email email, where_eq col_username username with
  | Some is_email, Some is_username =>
      JS.Returns (filter (fun u => is_email u || is_username u) (users s))
  | _, _ => JS.Throws
  end.

(** [FROM photos WHERE id = ?] *)
Definition selectPhoto (photoId : Z) (s : Store) : list PhotoRow :=
  filter (fun p => p_id p =? photoId) (photos s).

(** [JOIN users u ON u.id = ?] *)
Definition joinUser (id : Z) (s : Store) : list UserRow :=
  filter (fun u => u_id u =? id) (users s).

(** [SELECT COUNT( * ) FROM photo_likes WHERE photo_id = ?] *)
Definition countLikes (photoId : Z) (s : Store) : nat :=
  List.length (filter (fun l => l_photo_id l =? photoId) (photo_likes s)).

Definition same_like (photoId userId : Z) (l : LikeRow) : bool :=
  (l_photo_id l =? photoId) && (l_user_id l =? userId).

Definition set_likes (s : Store) (l : list LikeRow) : Store :=
  mkStore (users s) (photos s) l (comments s)
          (next_user_id s) (next_photo_id s) (next_comment_id s).

(** [INSERT IGNORE INTO photo_likes (photo_id, user_id)]: a row that
    would repeat the unique key is dropped without an error. *)
Definition insertIgnoreLike (photoId userId : Z) (s : Store) : Store :=
  if existsb (same_like photoId userId) (photo_likes s) then s
  else set_likes s (photo_likes s ++ [mkLikeRow photoId userId]).

(** [DELETE FROM photo_likes WHERE photo_id = ? AND user_id = ?] *)
Definition deleteLike (photoId userId : Z) (s : Store) : Store :=
  set_likes s (filter (fun l => negb (same_like photoId userId l)) (photo_likes s)).

(** [INSERT INTO users (username, email, password_hash)] *)
Definition insertUser (e : Env) (username email : JS.value) (passwordHash : string)
    (s : Store) : JS.outcome Store :=
  match insert_text username, insert_text email with
  | Some username, Some email =>
      JS.Returns
        (mkStore (users s ++ [mkUserRow (next_user_id s) username email
                                        passwordHash (now e)])
                 (photos s) (photo_likes s) (comments s)
                 (next_user_id s + 1) (next_photo_id s) (next_comment_id s))
  | _, _ => JS.Throws
  end.

(** POST /auth/register *)
Definition register (e : Env) (username email password : JS.value)
    (s : Store) : response * Store :=
  if JS.falsy_value username || JS.falsy_value email || JS.falsy_value password
  then (mkResponse 400 (Error msg_register_required), s)
  else
    match selectUsers email username s with
    | JS.Throws => server_error s
    | JS.Returns (_ :: _) => (mkResponse 409 (Error msg_user_exists), s)
    | JS.Returns [] =>
        match password with
        | JS.Str password =>
            let passwordHash := bcrypt_hash password 10 (salt e) in
            match insertUser e username email passwordHash s with
            | JS.Throws => server_error s
            | JS.Returns s' =>
                let userId := next_user_id s in
                (mkResponse 201 (UserSummary userId username email (now e)), s')
            end
        | _ => server_error s
        end
    end.

(** POST /auth/login *)
Definition login (e : Env) (emailOrUsername password : JS.value)
    (s : Store) : response * Store :=
  if JS.falsy_value emailOrUsername || JS.falsy_value password
  then (mkResponse 400 (Error msg_login_required), s)
  else
    match selectUsers emailOrUsername emailOrUsername s with
    | JS.Throws => server_error s
    | JS.Returns matches =>
        match one_of (pick e) matches with
        | None => (mkResponse 401 (Error msg_bad_credentials), s)
        | Some user =>
            match password with
            | JS.Str password =>
                if bcrypt_compare password (u_password_hash user) then
                  let token := jwt_sign (u_id user) (now e) in
                  (mkResponse 200 (Session token (u_id user) (u_username user)
                                           (u_email user)), s)
                else (mkResponse 401 (Error msg_bad_credentials), s)
            | _ => server_error s
            end
        end
    end.

(** POST /photos, after [authRequired] and [upload.single("image")] *)
Definition uploadPhoto (e : Env) (userId : Z) (file : option string)
    (caption : JS.field) (s : Store) : response * Store :=
  match file with
  | None => (mkResponse 400 (Error msg_no_file), s)
  | Some filename =>
      let fileUrl := "/uploads/" ++ filename in
      let photoId := next_photo_id s in
      let s' := mkStore (users s)
                        (photos s ++ [mkPhotoRow photoId userId fileUrl
                                                 (JS.present caption) (now e)])
                        (photo_likes s) (comments s)
                        (next_user_id s) (photoId + 1) (next_comment_id s) in
      let rows := map (fun p => mkPhotoPlain (p_id p) (p_owner_id p) (p_url p)
                                             (p_caption p) (p_created_at p))
                      (selectPhoto photoId s') in
      (mkResponse 201 (PhotoCreated (hd_error rows)), s')
  end.

Definition photo_item (s : Store) (p : PhotoRow) (u : UserRow) : PhotoItem :=
  mkPhotoItem (p_id p) (p_url p) (p_caption p) (p_created_at p)
              (u_id u) (u_username u) (u_email u) (countLikes (p_id p) s).

(** [FROM photos p ORDER BY p.created_at DESC] *)
Definition sortedPhotos (e : Env) (s : Store) : list PhotoRow :=
  newest_first (fun a b => tie e (p_id a) (p_id b)) p_created_at (photos s).

(** [FROM photos p JOIN users u ON u.id = p.owner_id
     ORDER BY p.created_at DESC] with the like count of each photo. *)
Definition photoItems (e : Env) (s : Store) : list PhotoItem :=
  flat_map (fun p => map (photo_item s p) (joinUser (p_owner_id p) s))
           (sortedPhotos e s).

(** GET /photos *)
Definition listPhotos (e : Env) (page limit : JS.param) (s : Store)
    : response * Store :=
  let page := JS.parseInt (JS.or_default page "1") in
  let limit := JS.parseInt (JS.or_default limit "10") in
  let offset := JS.mul (JS.sub page (JS.Int 1)) limit in
  match limit_offset limit offset (photoItems e s) with
  | Some items =>
      let total := List.length (photos s) in
      (mkResponse 200 (Page page limit total items), s)
  | None => server_error s
  end.

Definition photo_joined (p : PhotoRow) (u : UserRow) : PhotoJoined :=
  mkPhotoJoined (p_id p) (p_url p) (p_caption p) (p_created_at p)
                (u_id u) (u_username u) (u_email u).

(** GET /photos/:id *)
Definition getPhoto (photoId : Z) (s : Store) : response * Store :=
  let rows := flat_map (fun p => map (photo_joined p) (joinUser (p_owner_id p) s))
                       (selectPhoto photoId s) in
  match rows with
  | [] => (mkResponse 404 (Error msg_no_photo), s)
  | row :: _ => (mkResponse 200 (PhotoDoc row), s)
  end.

(** POST /photos/:id/like, after [authRequired] *)
Definition likePhoto (photoId : Z) (userId : Z) (s : Store) : response * Store :=
  match selectPhoto photoId s with
  | [] => (mkResponse 404 (Error msg_no_photo), s)
  | _ :: _ =>
      let s' := insertIgnoreLike photoId userId s in
      (mkResponse 200 (Likes (countLikes photoId s')), s')
  end.

(** DELETE /photos/:id/like, after [authRequired] *)
Definition unlikePhoto (photoId : Z) (userId : Z) (s : Store) : response * Store :=
  let s' := deleteLike photoId userId s in
  (mkResponse 200 (Likes (countLikes photoId s')), s').

Definition comment_item (c : CommentRow) (u : UserRow) : CommentItem :=
  mkCommentItem (c_id c) (c_text c) (c_created_at c)
                (u_id u) (u_username u) (u_email u).

(** [FROM comments c JOIN users u ON u.id = c.author_id] over the
    given comment rows. *)
Definition commentItems (s : Store) (rows : list CommentRow) : list CommentItem :=
  flat_map (fun c => map (comment_item c) (joinUser (c_author_id c) s)) rows.

(** POST /photos/:id/comments, after [authRequired] *)
Definition createComment (e : Env) (photoId : Z) (userId : Z)
    (text : JS.value) (s : Store) : response * Store :=
  if JS.falsy_value text then (mkResponse 400 (Error msg_text_required), s)
  else
    match selectPhoto photoId s with
    | [] => (mkResponse 404 (Error msg_no_photo), s)
    | _ :: _ =>
        match insert_text text with
        | None => server_error s
        | Some text =>
            let commentId := next_comment_id s in
            let s' := mkStore (users s) (photos s) (photo_likes s)
                              (comments s ++ [mkCommentRow commentId photoId userId
                                                           text (now e)])
                              (next_user_id s) (next_photo_id s) (commentId + 1) in
            let rows := commentItems s'
                          (filter (fun c => c_id c =? commentId) (comments s')) in
            (mkResponse 201 (CommentDoc (hd_error rows)), s')
        end
    end.

(** GET /photos/:id/comments *)
Definition listComments (e : Env) (photoId : Z) (s : Store) : response * Store :=
  let found := filter (fun c => c_photo_id c =? photoId) (comments s) in
  let sorted := oldest_first (fun a b => tie e (c_id a) (c_id b)) c_created_at found in
  (mkResponse 200 (CommentList (commentItems s sorted)), s).

Definition protected (e : Env) (authorization : JS.field)
    (handler : Z -> Store -> response * Store) (s : Store) : response * Store :=
  match authRequired (now e) authorization with
  | Rejected st msg => (mkResponse st (Error msg), s)
  | Next userId => handler userId s
  end.

Inductive request :=
| PostRegister (username email password : JS.value)
| PostLogin (emailOrUsername password : JS.value)
| PostPhoto (authorization : JS.field) (file : option string) (caption : JS.field)
| GetPhotos (page limit : JS.param)
| GetPhoto (photoId : Z)
| PostLike (authorization : JS.field) (photoId : Z)
| DeleteLike (authorization : JS.field) (photoId : Z)
| PostComment (authorization : JS.field) (photoId : Z) (text : JS.value)
| GetComments (photoId : Z).

Definition handle (e : Env) (r : request) (s : Store) : response * Store :=
  match r with
  | PostRegister username email password => register e username email password s
  | PostLogin emailOrUsername password => login e emailOrUsername password s
  | PostPhoto a file caption =>
      protected e a (fun userId => uploadPhoto e userId file caption) s
  | GetPhotos page limit => listPhotos e page limit s
  | GetPhoto photoId => getPhoto photoId s
  | PostLike a photoId => protected e a (likePhoto photoId) s
  | DeleteLike a photoId => protected e a (unlikePhoto photoId) s
  | PostComment a photoId text =>
      protected e a (fun userId => createComment e photoId userId text) s
  | GetComments photoId => listComments e photoId s
  end.

Inductive reachable : Store -> Prop :=
| reachable_empty : reachable empty
| reachable_handle : forall s e r,
    reachable s -> reachable (snd (handle e r s)).

Definition run (rs : list (Env * request)) (s : Store) : Store :=
  fold_left (fun s er => snd (handle (fst er) (snd er) s)) rs s.

End Handlers.

End MySQL.

(** ** The name of a stored upload (multer [diskStorage], both variants) *)

(** A non-negative integer written by JavaScript's number-to-string
    conversion: its decimal digits, "0" for zero. *)
Definition decimal (n : N) : string := NilEmpty.string_of_uint (N.to_uint n).

(** [filename]: [file.fieldname + "-" + uniqueSuffix + ext] with
    [uniqueSuffix = Date.now() + "-" + Math.round(Math.random() * 1e9)]
    and [ext = path.extname(file.originalname)].  The clock, the random
    number drawn and the extension [path.extname] found are inputs. *)
Definition filename (fieldname : string) (now random : N) (ext : string) : string :=
  let uniqueSuffix := decimal now ++ "-" ++ decimal random in
  fieldname ++ "-" ++ uniqueSuffix ++ ext.

(** The field [upload.single("image")] reads the file from. *)
Definition upload_field : string := "image".

(** The public url the upload handler stores for a file name. *)
Definition fileUrl (name : string) : string := "/uploads/" ++ name.

Definition is_digit (c : ascii) : bool :=
  let n := nat_of_ascii c in (Nat.leb 48 n && Nat.leb n 57)%bool.

Fixpoint all_digits (s : string) : bool :=
  match s with
  | EmptyString => true
  | String c r => is_digit c && all_digits r
  end.

(** A string that is empty or begins with something else than a digit,
    as every result of [path.extname] ("" or "." and what follows). *)
Definition no_leading_digit (s : string) : bool :=
  match s with
  | EmptyString => true
  | String c _ => negb (is_digit c)
  end.

(** ** Test doubles and sample runs

    Stand-ins for the collaborators, used to run the handlers on
    concrete requests: an unsalted marker in place of bcrypt, a token
    that is its user id behind a prefix and never expires, a cursor, a
    binary collation, and casts that take strings and well-formed ids
    and reject everything else. *)

Module Sample.

Definition hash_marker : string := "$2b$10$".

Definition strip_prefix (p s : string) : option string :=
  if String.prefix p s
  then Some (String.substring (String.length p) (String.length s - String.length p) s)
  else None.

Definition mongo_ext : Externals Mongo.ObjectId := {|
  bcrypt_hash := fun password _ _ => hash_marker ++ password;
  bcrypt_compare := fun password h => String.eqb h (hash_marker ++ password);
  jwt_sign := fun userId _ => "jwt." ++ userId;
  jwt_verify := fun token _ => strip_prefix "jwt." token
|}.

Definition sql_ext : Externals Z := {|
  bcrypt_hash := fun password _ _ => hash_marker ++ password;
  bcrypt_compare := fun password h => String.eqb h (hash_marker ++ password);
  jwt_sign := fun userId _ =>
    if userId =? 1 then "jwt.1" else if userId =? 2 then "jwt.2" else "jwt.0";
  jwt_verify := fun token _ =>
    if String.eqb token "jwt.1" then Some 1
    else if String.eqb token "jwt.2" then Some 2 else None
|}.

Definition window_sample (skip limit : JS.number) (docs : list Mongo.Photo)
    : option (list Mongo.Photo) :=
  match skip, limit with
  | JS.Int k, JS.Int l =>
      if (0 <=? k) && (0 <? l)
      then Some (firstn (Z.to_nat l) (skipn (Z.to_nat k) docs))
      else None
  | _, _ => None
  end.

Definition cursor : Mongo.Cursor.
Proof.
  refine {| Mongo.window := window_sample |}.
  intros skip limit docs Hs Hl; unfold window_sample.
  destruct (Z.leb_spec 0 skip); [|lia].
  destruct (Z.ltb_spec 0 limit); [|lia].
  reflexivity.
Defined.

(** A hexadecimal digit, and its lower-case form. *)
Definition is_hex (c : ascii) : bool :=
  let n := nat_of_ascii c in
  ((Nat.leb 48 n && Nat.leb n 57) || (Nat.leb 97 n && Nat.leb n 102)
   || (Nat.leb 65 n && Nat.leb n 70))%bool.

Definition lower (c : ascii) : ascii :=
  let n := nat_of_ascii c in
  if (Nat.leb 65 n && Nat.leb n 70)%bool then ascii_of_nat (n + 32) else c.

Fixpoint all_hex (s : string) : bool :=
  match s with
  | EmptyString => true
  | String c r => is_hex c && all_hex r
  end.

Fixpoint lower_hex (s : string) : string :=
  match s with
  | EmptyString => EmptyString
  | String c r => String (lower c) (lower_hex r)
  end.

(** 24 hexadecimal digits are an ObjectId, in either case; any other
    string is a CastError. *)
Definition castObjectId_sample (id : string) : option Mongo.ObjectId :=
  if (Nat.eqb (String.length id) 24 && all_hex id)%bool
  then Some (lower_hex id) else None.

Definition mongoose : Mongo.Mongoose.
Proof.
  refine {|
    Mongo.castObjectId := castObjectId_sample;
    Mongo.castFilter := fun v =>
      match v with JS.Str s => Some (String.eqb s) | _ => None end;
    Mongo.castString := fun v =>
      match v with JS.Str s => Some s | _ => None end;
    Mongo.stamp := fun now photo likes =>
      if list_eq_dec string_dec likes (Mongo.photo_likes photo)
      then (Mongo.photo_updatedAt photo, Mongo.photo_v photo)
      else (now, Mongo.photo_v photo + 1)
  |}.
  - reflexivity.
  - reflexivity.
  - intros now photo.
    destruct (list_eq_dec string_dec (Mongo.photo_likes photo) (Mongo.photo_likes photo));
      [reflexivity | congruence].
Defined.

Definition binary : MySQL.Collation :=
  {| MySQL.sql_eq := String.eqb; MySQL.sql_eq_refl := String.eqb_refl |}.

Definition parameters : MySQL.Parameters (col := binary).
Proof.
  refine {|
    MySQL.where_eq := fun c v =>
      match v with
      | JS.Str s => Some (fun u => String.eqb (MySQL.column_text c u) s)
      | _ => None
      end;
    MySQL.insert_text := fun v =>
      match v with JS.Str s => Some s | _ => None end
  |}.
  - reflexivity.
  - reflexivity.
Defined.

(** A request environment in which the database returns the first
    match and keeps documents with equal time stamps in the order of
    the insertion sort. *)
Definition menv (now : Z) (fresh : Mongo.ObjectId) (salt : string) : Mongo.Env :=
  Mongo.mkEnv now fresh salt 0 (fun _ _ => true).

Definition senv (now : Z) (salt : string) : MySQL.Env :=
  MySQL.mkEnv now salt 0 (fun _ _ => true).

Definition alice : Mongo.ObjectId := "65a1f0000000000000000001".
Definition bob : Mongo.ObjectId := "65a1f0000000000000000002".
Definition sunset : Mongo.ObjectId := "65a1f00000000000000000a1".
Definition nowhere : Mongo.ObjectId := "65a1f00000000000000000ff".

(** alice and bob register, alice uploads one photo. *)
Definition mongo_requests : list (Mongo.Env * Mongo.request) :=
  [ (menv 1000 alice "s1",
     Mongo.PostRegister (JS.Str "alice") (JS.Str "a@x.com") (JS.Str "pw123"));
    (menv 2000 bob "s2",
     Mongo.PostRegister (JS.Str "bob") (JS.Str "b@x.com") (JS.Str "pw456"));
    (menv 3000 sunset "",
     Mongo.PostPhoto (Some ("Bearer jwt." ++ alice)) (Some "image-3000-17.png")
                     (Some "sunset")) ].

Definition mongo_store : Mongo.Store :=
  Eval vm_compute in
    Mongo.run (ext := mongo_ext) (cur := cursor) (mg := mongoose)
              mongo_requests Mongo.empty.

(** alice likes her photo, bob likes it, alice likes it again. *)
Definition mongo_like_requests : list (Mongo.Env * Mongo.request) :=
  [ (menv 4000 "" "", Mongo.PostLike (Some ("Bearer jwt." ++ alice)) sunset);
    (menv 5000 "" "", Mongo.PostLike (Some ("Bearer jwt." ++ bob)) sunset);
    (menv 6000 "" "", Mongo.PostLike (Some ("Bearer jwt." ++ alice)) sunset) ].

Definition mongo_liked : Mongo.Store :=
  Eval vm_compute in
    Mongo.run (ext := mongo_ext) (cur := cursor) (mg := mongoose)
              mongo_like_requests mongo_store.

Definition sql_requests : list (MySQL.Env * MySQL.request) :=
  [ (senv 1000 "s1",
     MySQL.PostRegister (JS.Str "alice") (JS.Str "a@x.com") (JS.Str "pw123"));
    (senv 2000 "s2",
     MySQL.PostRegister (JS.Str "bob") (JS.Str "b@x.com") (JS.Str "pw456"));
    (senv 3000 "",
     MySQL.PostPhoto (Some "Bearer jwt.1") (Some "image-3000-17.png")
                     (Some "sunset")) ].

Definition sql_store : MySQL.Store :=
  Eval vm_compute in
    MySQL.run (ext := sql_ext) (par := parameters) sql_requests MySQL.empty.

Definition sql_like_requests : list (MySQL.Env * MySQL.request) :=
  [ (senv 4000 "", MySQL.PostLike (Some "Bearer jwt.1") 1);
    (senv 5000 "", MySQL.PostLike (Some "Bearer jwt.2") 1);
    (senv 6000 "", MySQL.PostLike (Some "Bearer jwt.1") 1) ].

Definition sql_liked : MySQL.Store :=
  Eval vm_compute in
    MySQL.run (ext := sql_ext) (par := parameters) sql_like_requests sql_store.



(** Twelve more uploads by alice, not in the order of their time
    stamps. *)
Definition gallery_times : list Z :=
  [3100; 3050; 3900; 3300; 3200; 3800; 3700; 3600; 3500; 3400; 3950; 3001].

Definition gallery_ids : list Mongo.ObjectId :=
  [ "65a1f00000000000000000b1"; "65a1f00000000000000000b2";
    "65a1f00000000000000000b3"; "65a1f00000000000000000b4";
    "65a1f00000000000000000b5"; "65a1f00000000000000000b6";
    "65a1f00000000000000000b7"; "65a1f00000000000000000b8";
    "65a1f00000000000000000b9"; "65a1f00000000000000000ba";
    "65a1f00000000000000000bb"; "65a1f00000000000000000bc" ].

Definition mongo_gallery_requests : list (Mongo.Env * Mongo.request) :=
  map (fun it : Mongo.ObjectId * Z =>
         (menv (snd it) (fst it) "",
          Mongo.PostPhoto (Some ("Bearer jwt." ++ alice)) (Some "image.png") None))
      (combine gallery_ids gallery_times).

Definition mongo_gallery : Mongo.Store :=
  Eval vm_compute in
    Mongo.run (ext := mongo_ext) (cur := cursor) (mg := mongoose)
              mongo_gallery_requests mongo_store.

Definition sql_gallery_requests : list (MySQL.Env * MySQL.request) :=
  map (fun t : Z =>
         (senv t "",
          MySQL.PostPhoto (Some "Bearer jwt.1") (Some "image.png") None))
      gallery_times.

Definition sql_gallery : MySQL.Store :=
  Eval vm_compute in
    MySQL.run (ext := sql_ext) (par := parameters) sql_gallery_requests sql_store.

(** bob comments on the photo. *)
Definition mongo_comment_requests : list (Mongo.Env * Mongo.request) :=
  [ (menv 7000 "65a1f00000000000000000c1" "",
     Mongo.PostComment (Some ("Bearer jwt." ++ bob)) sunset (JS.Str "nice")) ].

Definition mongo_commented : Mongo.Store :=
  Eval vm_compute in
    Mongo.run (ext := mongo_ext) (cur := cursor) (mg := mongoose)
              mongo_comment_requests mongo_liked.

Definition sql_comment_requests : list (MySQL.Env * MySQL.request) :=
  [ (senv 7000 "", MySQL.PostComment (Some "Bearer jwt.2") 1 (JS.Str "nice")) ].

Definition sql_commented : MySQL.Store :=
  Eval vm_compute in
    MySQL.run (ext := sql_ext) (par := parameters) sql_comment_requests sql_liked.

End Sample.
(** ** Invariants of the stores *)

(** No photo of the Mongo variant lists a user twice among its likes. *)
Definition likes_distinct (s : Mongo.Store) : Prop :=
  Forall (fun p => NoDup (Mongo.photo_likes p)) (Mongo.photos s).

(** An AUTO_INCREMENT key: the keys of the rows are distinct and below
    the next key to be handed out. *)
Definition keyed (A : Type) (key : A -> Z) (next : Z) (rows : list A) : Prop :=
  NoDup (map key rows) /\ Forall (fun r => key r < next) rows.

Definition primary_keys (s : MySQL.Store) : Prop :=
  keyed MySQL.u_id (MySQL.next_user_id s) (MySQL.users s)
  /\ keyed MySQL.p_id (MySQL.next_photo_id s) (MySQL.photos s)
  /\ keyed MySQL.c_id (MySQL.next_comment_id s) (MySQL.comments s).


(** The Authorization header of a request to a protected route. *)
Definition authorization (r : MySQL.request) : JS.field :=
  match r with
  | MySQL.PostPhoto a _ _ | MySQL.PostLike a _ | MySQL.DeleteLike a _
  | MySQL.PostComment a _ _ => a
  | _ => None
  end.

(** The middleware accepts the request as this user. *)
Definition accepted {ext : Externals Z} (e : MySQL.Env) (r : MySQL.request)
    (userId : Z) : Prop :=
  authRequired (MySQL.now e) (authorization r) = Next userId.





(** A registration whose [username] and [email] are strings or falsy
    (any other request passes). *)
Definition textual (v : JS.value) : bool :=
  match v with
  | JS.Str _ => true
  | _ => JS.falsy_value v
  end.

Definition register_textual (r : MySQL.request) : bool :=
  match r with
  | MySQL.PostRegister username email _ => textual username && textual email
  | _ => true
  end.



(** The author identity a response to POST /photos/:id/comments
    carries: the user name and e-mail address of the author, when the
    body has them. *)
Definition mongo_author_identity (b : Mongo.body) : option (string * string) :=
  match b with
  | Mongo.CommentDoc c =>
      match Mongo.cj_author c with
      | Mongo.Populated _ username email => Some (username, email)
      | _ => None
      end
  | _ => None
  end.

Definition sql_author_identity (b : MySQL.body) : option (string * string) :=
  match b with
  | MySQL.CommentDoc (Some row) =>
      Some (MySQL.ci_authorUsername row, MySQL.ci_authorEmail row)
  | _ => None
  end.

(** The parts of a header value separated by white space, as the words
    are commonly read: the maximal runs of characters other than space
    and horizontal tab. *)
Definition is_blank (c : ascii) : bool :=
  (Ascii.eqb c " "%char || Ascii.eqb c (ascii_of_nat 9))%bool.

Fixpoint ws_parts_aux (cur : string) (s : string) : list string :=
  match s with
  | EmptyString => match cur with EmptyString => [] | _ => [cur] end
  | String c r =>
      if is_blank c
      then match cur with
           | EmptyString => ws_parts_aux EmptyString r
           | _ => cur :: ws_parts_aux EmptyString r
           end
      else ws_parts_aux (cur ++ String c EmptyString) r
  end.

Definition ws_parts (s : string) : list string := ws_parts_aux EmptyString s.

(** A string without a space character. *)
Fixpoint no_space (s : string) : bool :=
  match s with
  | EmptyString => true
  | String c r => negb (JS.is_space c) && no_space r
  end.

(** The routes that only read: the three GET routes and the login. *)
Definition mongo_reads (r : Mongo.request) : bool :=
  match r with
  | Mongo.PostLogin _ _ | Mongo.GetPhotos _ _ | Mongo.GetPhoto _
  | Mongo.GetComments _ => true
  | _ => false
  end.

Definition sql_reads (r : MySQL.request) : bool :=
  match r with
  | MySQL.PostLogin _ _ | MySQL.GetPhotos _ _ | MySQL.GetPhoto _
  | MySQL.GetComments _ => true
  | _ => false
  end.

(** What a photo document keeps for life: everything but its likes and
    what [save()] maintains ([updatedAt], [__v]). *)
Definition photo_fixed (p : Mongo.Photo)
    : Mongo.ObjectId * Mongo.ObjectId * string * option string * Z :=
  (Mongo.photo_id p, Mongo.photo_owner p, Mongo.photo_url p,
   Mongo.photo_caption p, Mongo.photo_createdAt p).

(** ** What a request can do to a store

    Every change a handler makes is one of these: a user, a photo or a
    comment is appended, or the likes of one stored photo are saved. *)
Inductive mongo_effect {mg : Mongo.Mongoose} (s : Mongo.Store) : Mongo.Store -> Prop :=
| effect_none : mongo_effect s s
| effect_user : forall u,
    Mongo.user_username u <> "" -> Mongo.user_email u <> "" ->
    (forall v, In v (Mongo.users s) ->
       Mongo.user_username v <> Mongo.user_username u
       /\ Mongo.user_email v <> Mongo.user_email u) ->
    mongo_effect s (Mongo.mkStore (Mongo.users s ++ [u]) (Mongo.photos s)
                                  (Mongo.comments s))
| effect_photo : forall p,
    Mongo.photo_likes p = [] ->
    mongo_effect s (Mongo.set_photos s (Mongo.photos s ++ [p]))
| effect_like : forall e photo userId,
    Mongo.photoOf (Mongo.photo_id photo) s = Some photo ->
    ~ In userId (Mongo.photo_likes photo) ->
    mongo_effect s
      (Mongo.set_photos s
         (Mongo.save_photo
            (Mongo.with_likes e photo (Mongo.photo_likes photo ++ [userId]))
            (Mongo.photos s)))
| effect_unlike : forall e photo userId,
    Mongo.photoOf (Mongo.photo_id photo) s = Some photo ->
    mongo_effect s
      (Mongo.set_photos s
         (Mongo.save_photo
            (Mongo.with_likes e photo
               (filter (fun u => negb (String.eqb u userId)) (Mongo.photo_likes photo)))
            (Mongo.photos s)))
| effect_comment : forall c photo,
    Mongo.photoOf (Mongo.comment_photo c) s = Some photo ->
    mongo_effect s (Mongo.mkStore (Mongo.users s) (Mongo.photos s)
                                  (Mongo.comments s ++ [c])).

(** In the relational variant the owner of an appended photo is the
    user the middleware accepted ([owner_ok]). *)
Inductive sql_effect (owner_ok : Z -> Prop) (s : MySQL.Store) : MySQL.Store -> Prop :=
| sql_effect_none : sql_effect owner_ok s s
| sql_effect_user : forall username email hash t,
    sql_effect owner_ok s
      (MySQL.mkStore
         (MySQL.users s ++ [MySQL.mkUserRow (MySQL.next_user_id s) username email hash t])
         (MySQL.photos s) (MySQL.photo_likes s) (MySQL.comments s)
         (MySQL.next_user_id s + 1) (MySQL.next_photo_id s) (MySQL.next_comment_id s))
| sql_effect_photo : forall owner url caption t,
    owner_ok owner ->
    sql_effect owner_ok s
      (MySQL.mkStore (MySQL.users s)
         (MySQL.photos s ++ [MySQL.mkPhotoRow (MySQL.next_photo_id s) owner url caption t])
         (MySQL.photo_likes s) (MySQL.comments s)
         (MySQL.next_user_id s) (MySQL.next_photo_id s + 1) (MySQL.next_comment_id s))
| sql_effect_like : forall photoId userId,
    MySQL.selectPhoto photoId s <> [] ->
    sql_effect owner_ok s (MySQL.insertIgnoreLike photoId userId s)
| sql_effect_unlike : forall photoId userId,
    sql_effect owner_ok s (MySQL.deleteLike photoId userId s)
| sql_effect_comment : forall photoId author text t,
    MySQL.selectPhoto photoId s <> [] ->
    sql_effect owner_ok s
      (MySQL.mkStore (MySQL.users s) (MySQL.photos s) (MySQL.photo_likes s)
         (MySQL.comments s
          ++ [MySQL.mkCommentRow (MySQL.next_comment_id s) photoId author text t])
         (MySQL.next_user_id s) (MySQL.next_photo_id s) (MySQL.next_comment_id s + 1)).

(** [s'] holds the users and comments of [s] unchanged and in place,
    and the photos of [s] in place with their fixed fields, followed by
    what was added. *)
Definition extends (s s' : Mongo.Store) : Prop :=
  exists us ps cs,
    Mongo.users s' = (Mongo.users s ++ us)%list
    /\ map photo_fixed (Mongo.photos s') = (map photo_fixed (Mongo.photos s) ++ ps)%list
    /\ Mongo.comments s' = (Mongo.comments s ++ cs)%list.

Definition extends_sql (s s' : MySQL.Store) : Prop :=
  exists us ps cs,
    MySQL.users s' = (MySQL.users s ++ us)%list
    /\ MySQL.photos s' = (MySQL.photos s ++ ps)%list
    /\ MySQL.comments s' = (MySQL.comments s ++ cs)%list.

(** User names are distinct, e-mail addresses are distinct, and none
    is empty. *)
Definition identities_unique (A : Type) (username email : A -> string)
    (l : list A) : Prop :=
  NoDup (map username l) /\ NoDup (map email l)
  /\ Forall (fun u => username u <> "" /\ email u <> "") l.

(** Every comment of the Mongo store names a stored photo. *)
Definition comments_refer (s : Mongo.Store) : Prop :=
  Forall (fun c => In (Mongo.comment_photo c) (map Mongo.photo_id (Mongo.photos s)))
         (Mongo.comments s).

(** Every comment row and every like row names a stored photo. *)
Definition rows_refer (s : MySQL.Store) : Prop :=
  Forall (fun c => In (MySQL.c_photo_id c) (map MySQL.p_id (MySQL.photos s)))
         (MySQL.comments s)
  /\ Forall (fun l => In (MySQL.l_photo_id l) (map MySQL.p_id (MySQL.photos s)))
            (MySQL.photo_likes s).

(** The request environment with another choice of the database among
    the matches of [findOne] or [LIMIT 1]. *)
Definition mongo_with_pick (e : Mongo.Env) (pick : nat) : Mongo.Env :=
  Mongo.mkEnv (Mongo.now e) (Mongo.fresh e) (Mongo.salt e) pick (Mongo.tie e).

Definition sql_with_pick (e : MySQL.Env) (pick : nat) : MySQL.Env :=
  MySQL.mkEnv (MySQL.now e) (MySQL.salt e) pick (MySQL.tie e).

(** * Properties *)

(** ** The JavaScript helpers on small inputs *)

Example parseInt_digits : JS.parseInt "2" = JS.Int 2.
Proof. reflexivity. Qed.

Example parseInt_white_space : JS.parseInt "  42" = JS.Int 42.
Proof. reflexivity. Qed.

Example parseInt_sign : JS.parseInt "-3" = JS.Int (-3).
Proof. reflexivity. Qed.

Example parseInt_prefix : JS.parseInt "10abc" = JS.Int 10.
Proof. reflexivity. Qed.

Example parseInt_letters : JS.parseInt "abc" = JS.NaN.
Proof. reflexivity. Qed.

(** A no-break space (U+00A0, bytes C2 A0) in front is skipped. *)
Example parseInt_no_break_space :
  JS.parseInt (String (ascii_of_nat 194) (String (ascii_of_nat 160) "2")) = JS.Int 2.
Proof. reflexivity. Qed.

(** Above 2^53 the result is the nearest double. *)
Example parseInt_rounds :
  JS.parseInt "9007199254740993" = JS.Int 9007199254740992.
Proof. vm_compute; reflexivity. Qed.

Example split_space_two : JS.split_space "Bearer abc" = ["Bearer"; "abc"].
Proof. reflexivity. Qed.

Example split_space_double : JS.split_space "Bearer  abc" = ["Bearer"; ""; "abc"].
Proof. reflexivity. Qed.

Example split_space_one : JS.split_space "Bearer" = ["Bearer"].
Proof. reflexivity. Qed.

Example or_default_absent : JS.or_default None "1" = "1".
Proof. reflexivity. Qed.

(** [?page=2&page=3] reads as "2,3", which [parseInt] takes as 2;
    [?page[]=] is a truthy array whose string is empty. *)
Example or_default_repeated :
  JS.parseInt (JS.or_default (Some (JS.QArr [JS.QStr "2"; JS.QStr "3"])) "1") = JS.Int 2.
Proof. reflexivity. Qed.

Example or_default_empty_array :
  JS.parseInt (JS.or_default (Some (JS.QArr [JS.QStr ""])) "1") = JS.NaN.
Proof. reflexivity. Qed.

Example newest_first_small :
  newest_first (fun _ _ => true) (fun x : Z => x) [3; 9; 1; 9; 5] = [9; 9; 5; 3; 1].
Proof. reflexivity. Qed.

(** ** Doubles *)




(** ** The database's choice among matches *)


Lemma one_of_in (A : Type) (pick : nat) (l : list A) (x : A) :
  one_of pick l = Some x -> In x l.
Proof. unfold one_of; apply nth_error_In. Qed.

Lemma one_of_some (A : Type) (pick : nat) (l : list A) :
  l <> [] -> exists x, one_of pick l = Some x.
Proof.
  intros Hl; unfold one_of.
  destruct (nth_error l (pick mod List.length l)) as [x|] eqn:E; [eauto|].
  apply nth_error_None in E.
  assert (List.length l <> 0%nat) by (destruct l; simpl; congruence).
  pose proof (Nat.mod_upper_bound pick (List.length l)); lia.
Qed.

Lemma one_of_single (A : Type) (pick : nat) (x : A) : one_of pick [x] = Some x.
Proof. unfold one_of; cbn [List.length]. now rewrite Nat.mod_1_r. Qed.

Lemma one_of_none (A : Type) (pick : nat) (l : list A) :
  one_of pick l = None -> l = [].
Proof.
  intros H; destruct l as [|x r]; [reflexivity|].
  destruct (@one_of_some A pick (x :: r)) as [y Hy]; congruence.
Qed.

(** ** Likes *)

Section MongoLikes.
Import Mongo.
Context {mg : Mongoose}.

Lemma photoOf_id (id : ObjectId) (s : Store) (p : Photo) :
  photoOf id s = Some p -> photo_id p = id.
Proof.
  unfold photoOf; intros H.
  apply find_some in H as [_ H].
  now apply String.eqb_eq in H.
Qed.

Lemma photoOf_in (id : ObjectId) (s : Store) (p : Photo) :
  photoOf id s = Some p -> In p (photos s).
Proof. unfold photoOf; intros H. now apply find_some in H as [H _]. Qed.

(** [findById] finds a photo exactly when the parameter casts to the
    id of a stored photo. *)
Lemma findById_found (id : string) (s : Store) (p : Photo) :
  findById id s = JS.Returns (Some p) <->
  exists _id, castObjectId id = Some _id /\ photoOf _id s = Some p.
Proof.
  unfold findById; destruct (castObjectId id) as [_id|]; split.
  - intros H; injection H as H; eauto.
  - intros [i [Hi Hp]]; injection Hi as <-; now rewrite Hp.
  - discriminate.
  - intros [i [Hi _]]; discriminate.
Qed.


(** After [save()], the lookup gives the saved document. *)
Lemma find_save_photo (id : ObjectId) (p p' : Photo) (l : list Photo) :
  find (fun q => String.eqb (photo_id q) id) l = Some p ->
  photo_id p' = id ->
  find (fun q => String.eqb (photo_id q) id) (save_photo p' l) = Some p'.
Proof.
  intros Hf Hid; induction l as [|q r IH]; simpl in *; [discriminate|].
  rewrite Hid.
  destruct (String.eqb (photo_id q) id) eqn:E; simpl.
  - now rewrite Hid, String.eqb_refl.
  - rewrite E; auto.
Qed.

(** Saving a document as it is stored changes nothing. *)
Lemma save_photo_same (id : ObjectId) (p : Photo) (l : list Photo) :
  find (fun q => String.eqb (photo_id q) id) l = Some p ->
  save_photo p l = l.
Proof.
  induction l as [|q r IH]; simpl; intros Hf; [reflexivity|].
  destruct (String.eqb (photo_id q) id) eqn:E.
  - injection Hf as ->. now rewrite String.eqb_refl.
  - assert (Hp : photo_id p = id).
    { apply find_some in Hf as [_ Hf]. now apply String.eqb_eq in Hf. }
    rewrite Hp, E. f_equal; auto.
Qed.

(** A document whose likes are set to what they are is the document. *)
Lemma with_likes_same (e : Env) (p : Photo) : with_likes e p (photo_likes p) = p.
Proof.
  unfold with_likes; rewrite stamp_unmodified; now destruct p.
Qed.

Lemma with_likes_likes (e : Env) (p : Photo) (likes : list ObjectId) :
  photo_likes (with_likes e p likes) = likes.
Proof. reflexivity. Qed.

Lemma with_likes_id (e : Env) (p : Photo) (likes : list ObjectId) :
  photo_id (with_likes e p likes) = photo_id p.
Proof. reflexivity. Qed.


Lemma filter_none_liked (u : ObjectId) (l : list ObjectId) :
  existsb (fun v => String.eqb v u) l = false ->
  filter (fun v => negb (String.eqb v u)) l = l.
Proof.
  induction l as [|v r IH]; simpl; [reflexivity|].
  intros H; apply orb_false_iff in H as [Hv Hr].
  rewrite Hv; simpl; f_equal; auto.
Qed.

(** What [likePhoto] does to a photo it finds. *)
Lemma likePhoto_found (e : Env) (id : string) (userId : ObjectId) (s : Store)
    (photo : Photo) :
  findById id s = JS.Returns (Some photo) ->
  (existsb (fun u => String.eqb u userId) (photo_likes photo) = true
   /\ likePhoto e id userId s
      = (mkResponse 200 (Likes (List.length (photo_likes photo))), s))
  \/ (existsb (fun u => String.eqb u userId) (photo_likes photo) = false
      /\ likePhoto e id userId s
         = (mkResponse 200 (Likes (List.length (photo_likes photo ++ [userId]))),
            set_photos s (save_photo (with_likes e photo (photo_likes photo ++ [userId]))
                                     (photos s)))).
Proof.
  intros Hf; unfold likePhoto; rewrite Hf; cbv zeta.
  destruct (existsb (fun u => String.eqb u userId) (photo_likes photo));
    [left | right]; split; reflexivity.
Qed.

(** The lookup after a [save()] of the photo found. *)
Lemma findById_saved (id : string) (s : Store) (photo photo' : Photo) :
  findById id s = JS.Returns (Some photo) ->
  photo_id photo' = photo_id photo ->
  findById id (set_photos s (save_photo photo' (photos s))) = JS.Returns (Some photo').
Proof.
  intros Hf Hid.
  apply findById_found in Hf as [_id [Hc Hp]].
  apply findById_found; exists _id; split; [exact Hc|].
  unfold photoOf in *; simpl.
  apply find_save_photo with (p := photo); [exact Hp|].
  rewrite Hid. apply find_some in Hp as [_ Hp]. now apply String.eqb_eq in Hp.
Qed.


End MongoLikes.

Section MySQLLikes.
Import MySQL.





Lemma same_like_spec (photoId userId : Z) (l : LikeRow) :
  same_like photoId userId l = true <-> l = mkLikeRow photoId userId.
Proof.
  unfold same_like; destruct l as [p u]; simpl.
  rewrite andb_true_iff, !Z.eqb_eq.
  split; [intros [-> ->]; reflexivity | intros H; injection H; auto].
Qed.

Lemma existsb_same_like_false (photoId userId : Z) (l : list LikeRow) :
  existsb (same_like photoId userId) l = false <->
  ~ In (mkLikeRow photoId userId) l.
Proof.
  split.
  - intros H Hin.
    assert (E : existsb (same_like photoId userId) l = true).
    { apply existsb_exists; eexists; split; [exact Hin|]. now apply same_like_spec. }
    congruence.
  - intros H; destruct (existsb _ l) eqn:E; [|reflexivity].
    apply existsb_exists in E as [x [Hin Hx]].
    apply same_like_spec in Hx; subst; contradiction.
Qed.





End MySQLLikes.



(** ** The effect of each route on the store *)

Lemma NoDup_snoc (A : Type) (x : A) (l : list A) :
  NoDup l -> ~ In x l -> NoDup (l ++ [x]).
Proof.
  intros Hl Hx.
  apply (Permutation_NoDup (Permutation_cons_append l x)).
  now constructor.
Qed.

Lemma existsb_eqb_false_not_in (u : string) (l : list string) :
  existsb (fun v => String.eqb v u) l = false <-> ~ In u l.
Proof.
  split.
  - intros H Hin.
    assert (E : existsb (fun v => String.eqb v u) l = true).
    { apply existsb_exists; exists u; split; [exact Hin | apply String.eqb_refl]. }
    congruence.
  - intros H. destruct (existsb _ l) eqn:E; [|reflexivity].
    apply existsb_exists in E as [v [Hin Hv]].
    apply String.eqb_eq in Hv; subst; contradiction.
Qed.

Lemma required_true (s : string) : Mongo.required s = true -> s <> "".
Proof. destruct s; simpl; congruence. Qed.

Section MongoEffect.
Import Mongo.
Context {ext : Externals ObjectId} {cur : Cursor} {mg : Mongoose}.

Lemma protected_preserves (P : Store -> Prop) (e : Env) (a : JS.field)
    (handler : ObjectId -> Store -> response * Store) (s : Store) :
  P s -> (forall userId, P (snd (handler userId s))) ->
  P (snd (protected e a handler s)).
Proof.
  intros Hs Hh; unfold protected.
  destruct (authRequired (now e) a); simpl; auto.
Qed.

Lemma register_effect (e : Env) (username email password : JS.value) (s : Store) :
  mongo_effect s (snd (register e username email password s)).
Proof.
  unfold register, server_error.
  destruct (JS.falsy_value username || JS.falsy_value email || JS.falsy_value password);
    [constructor|].
  destruct (findUser e email username s) as [|[u|]]; try constructor.
  destruct password; try constructor.
  unfold createUser.
  destruct (castString username) as [un|]; [|constructor].
  destruct (castString email) as [em|]; [|constructor].
  destruct (required un && required em && required (bcrypt_hash s0 10 (salt e))
            && negb (existsb (fun u => String.eqb (user_username u) un
                                       || String.eqb (user_email u) em) (users s)))
    eqn:E; [|constructor].
  simpl.
  apply andb_true_iff in E as [E Hx].
  apply andb_true_iff in E as [E _].
  apply andb_true_iff in E as [Hun Hem].
  apply effect_user; simpl.
  - now apply required_true.
  - now apply required_true.
  - intros v Hv.
    apply negb_true_iff in Hx.
    assert (Hn : String.eqb (user_username v) un || String.eqb (user_email v) em = false).
    { destruct (String.eqb (user_username v) un || String.eqb (user_email v) em) eqn:Ev;
        [|reflexivity].
      assert (existsb (fun u => String.eqb (user_username u) un
                                || String.eqb (user_email u) em) (users s) = true)
        by (apply existsb_exists; eauto).
      congruence. }
    apply orb_false_iff in Hn as [H1 H2].
    apply String.eqb_neq in H1, H2. now split.
Qed.

Lemma login_unchanged (e : Env) (emailOrUsername password : JS.value) (s : Store) :
  snd (login e emailOrUsername password s) = s.
Proof.
  unfold login, server_error.
  destruct (JS.falsy_value emailOrUsername || JS.falsy_value password); [reflexivity|].
  destruct (findUser e emailOrUsername emailOrUsername s) as [|[u|]]; try reflexivity.
  destruct password; try reflexivity.
  destruct (bcrypt_compare s0 (user_passwordHash u)); reflexivity.
Qed.

Lemma listPhotos_unchanged (e : Env) (page limit : JS.param) (s : Store) :
  snd (listPhotos e page limit s) = s.
Proof. unfold listPhotos, server_error. destruct (window _ _ _); reflexivity. Qed.

Lemma getPhoto_unchanged (id : string) (s : Store) : snd (getPhoto id s) = s.
Proof.
  unfold getPhoto, server_error. destruct (findById id s) as [|[p|]]; reflexivity.
Qed.

Lemma listComments_unchanged (e : Env) (id : string) (s : Store) :
  snd (listComments e id s) = s.
Proof.
  unfold listComments, server_error. destruct (castObjectId id); reflexivity.
Qed.

Lemma findById_photoOf (id : string) (s : Store) (p : Photo) :
  findById id s = JS.Returns (Some p) -> photoOf (photo_id p) s = Some p.
Proof.
  intros H; apply findById_found in H as [_id [_ Hp]].
  now rewrite (photoOf_id _ _ Hp).
Qed.

Lemma likePhoto_effect (e : Env) (id : string) (userId : ObjectId) (s : Store) :
  mongo_effect s (snd (likePhoto e id userId s)).
Proof.
  destruct (findById id s) as [|[photo|]] eqn:Hf.
  - unfold likePhoto; rewrite Hf; constructor.
  - destruct (likePhoto_found e id userId s Hf) as [[Hl ->]|[Hl ->]]; simpl.
    + constructor.
    + apply effect_like; [now apply findById_photoOf with (id := id)|].
      now apply existsb_eqb_false_not_in.
  - unfold likePhoto; rewrite Hf; constructor.
Qed.

Lemma unlikePhoto_effect (e : Env) (id : string) (userId : ObjectId) (s : Store) :
  mongo_effect s (snd (unlikePhoto e id userId s)).
Proof.
  unfold unlikePhoto, server_error.
  destruct (findById id s) as [|[photo|]] eqn:Hf; simpl; try constructor.
  now apply findById_photoOf with (id := id).
Qed.

Lemma createComment_effect (e : Env) (id : string) (userId : ObjectId)
    (text : JS.value) (s : Store) :
  mongo_effect s (snd (createComment e id userId text s)).
Proof.
  unfold createComment, server_error.
  destruct (JS.falsy_value text); [constructor|].
  destruct (findById id s) as [|[photo|]] eqn:Hf; simpl; try constructor.
  unfold createCommentDoc.
  destruct (castString text) as [t|]; [|constructor].
  destruct (required t); [|constructor].
  simpl. apply effect_comment with (photo := photo); simpl.
  now apply findById_photoOf with (id := id).
Qed.

Lemma uploadPhoto_effect (e : Env) (userId : ObjectId) (file : option string)
    (caption : JS.field) (s : Store) :
  mongo_effect s (snd (uploadPhoto e userId file caption s)).
Proof.
  unfold uploadPhoto; destruct file; simpl; [|constructor].
  now apply effect_photo.
Qed.

Lemma handle_effect (e : Env) (r : request) (s : Store) :
  mongo_effect s (snd (handle e r s)).
Proof.
  destruct r; simpl.
  - apply register_effect.
  - rewrite login_unchanged; constructor.
  - apply protected_preserves; [constructor|]; intros; apply uploadPhoto_effect.
  - rewrite listPhotos_unchanged; constructor.
  - rewrite getPhoto_unchanged; constructor.
  - apply protected_preserves; [constructor|]; intros; apply likePhoto_effect.
  - apply protected_preserves; [constructor|]; intros; apply unlikePhoto_effect.
  - apply protected_preserves; [constructor|]; intros; apply createComment_effect.
  - rewrite listComments_unchanged; constructor.
Qed.

Lemma save_photo_Forall (P : Photo -> Prop) (p : Photo) (l : list Photo) :
  Forall P l -> P p -> Forall P (save_photo p l).
Proof.
  intros Hl Hp; induction Hl as [|q r Hq Hr IH]; simpl; [constructor|].
  destruct (String.eqb (photo_id q) (photo_id p)); constructor; auto.
Qed.

Lemma photoOf_Forall (P : Photo -> Prop) (id : ObjectId) (s : Store) (p : Photo) :
  Forall P (photos s) -> photoOf id s = Some p -> P p.
Proof.
  intros Hl Hf. apply photoOf_in in Hf.
  rewrite Forall_forall in Hl; auto.
Qed.

Lemma effect_distinct (s s' : Store) :
  mongo_effect s s' -> likes_distinct s -> likes_distinct s'.
Proof.
  intros He Hs; destruct He as [|u|p Hp|e' photo userId Hf Hn|e' photo userId Hf|c photo Hf];
    unfold likes_distinct in *; simpl; try exact Hs.
  - apply Forall_app; split; [exact Hs|].
    constructor; [rewrite Hp; constructor | constructor].
  - apply save_photo_Forall; [exact Hs|]; simpl.
    apply NoDup_snoc; [|exact Hn].
    exact (@photoOf_Forall (fun p => NoDup (photo_likes p)) _ s _ Hs Hf).
  - apply save_photo_Forall; [exact Hs|]; simpl.
    apply NoDup_filter.
    exact (@photoOf_Forall (fun p => NoDup (photo_likes p)) _ s _ Hs Hf).
Qed.

Lemma reachable_distinct (s : Store) : reachable s -> likes_distinct s.
Proof.
  induction 1 as [|s e r _ IH]; [constructor|].
  exact (effect_distinct (handle_effect e r s) IH).
Qed.

Lemma run_reachable (rs : list (Env * request)) (s : Store) :
  reachable s -> reachable (run rs s).
Proof.
  revert s; induction rs as [|[e r] rs IH]; intros s Hs; simpl; [exact Hs|].
  apply IH. now constructor.
Qed.

End MongoEffect.

Section MySQLEffect.
Import MySQL.
Context {ext : Externals Z} {col : Collation} {par : Parameters}.

Lemma protected_preserves_sql (P : Store -> Prop) (e : Env) (a : JS.field)
    (handler : Z -> Store -> response * Store) (s : Store) :
  P s -> (forall userId, P (snd (handler userId s))) ->
  P (snd (protected e a handler s)).
Proof.
  intros Hs Hh; unfold protected.
  destruct (authRequired (now e) a); simpl; auto.
Qed.

Lemma register_effect_sql (ok : Z -> Prop) (e : Env)
    (username email password : JS.value) (s : Store) :
  sql_effect ok s (snd (register e username email password s)).
Proof.
  unfold register, server_error.
  destruct (JS.falsy_value username || JS.falsy_value email || JS.falsy_value password);
    [constructor|].
  destruct (selectUsers email username s) as [|[|u r]]; try constructor.
  destruct password; try constructor.
  unfold insertUser.
  destruct (insert_text username) as [un|]; [|constructor].
  destruct (insert_text email) as [em|]; [|constructor].
  simpl. apply sql_effect_user.
Qed.

Lemma login_unchanged_sql (e : Env) (emailOrUsername password : JS.value) (s : Store) :
  snd (login e emailOrUsername password s) = s.
Proof.
  unfold login, server_error.
  destruct (JS.falsy_value emailOrUsername || JS.falsy_value password); [reflexivity|].
  destruct (selectUsers emailOrUsername emailOrUsername s) as [|matches]; [reflexivity|].
  destruct (one_of (pick e) matches) as [u|]; [|reflexivity].
  destruct password; try reflexivity.
  destruct (bcrypt_compare s0 (u_password_hash u)); reflexivity.
Qed.

Lemma listPhotos_unchanged_sql (e : Env) (page limit : JS.param) (s : Store) :
  snd (listPhotos e page limit s) = s.
Proof. unfold listPhotos, server_error. destruct (limit_offset _ _ _); reflexivity. Qed.

Lemma getPhoto_unchanged_sql (photoId : Z) (s : Store) : snd (getPhoto photoId s) = s.
Proof. unfold getPhoto. destruct (flat_map _ _); reflexivity. Qed.

Lemma createComment_effect_sql (ok : Z -> Prop) (e : Env) (photoId userId : Z)
    (text : JS.value) (s : Store) :
  sql_effect ok s (snd (createComment e photoId userId text s)).
Proof.
  unfold createComment, server_error.
  destruct (JS.falsy_value text); [constructor|].
  destruct (selectPhoto photoId s) as [|p r] eqn:Hp; [constructor|].
  destruct (insert_text text) as [t|]; [|constructor].
  simpl. apply sql_effect_comment. rewrite Hp; discriminate.
Qed.

Lemma handle_effect_sql (e : Env) (r : request) (s : Store) :
  sql_effect (accepted e r) s (snd (handle e r s)).
Proof.
  destruct r; simpl.
  - apply register_effect_sql.
  - rewrite login_unchanged_sql; constructor.
  - unfold protected.
    destruct (authRequired (now e) authorization0) as [st msg|userId] eqn:Ha; simpl;
      [constructor|].
    unfold uploadPhoto; destruct file; simpl; [|constructor].
    apply sql_effect_photo. exact Ha.
  - rewrite listPhotos_unchanged_sql; constructor.
  - rewrite getPhoto_unchanged_sql; constructor.
  - apply (protected_preserves_sql (sql_effect _ s)); [constructor|]; intros userId.
    unfold likePhoto.
    destruct (selectPhoto photoId s) as [|p r] eqn:Hp; simpl; [constructor|].
    apply sql_effect_like. rewrite Hp; discriminate.
  - apply (protected_preserves_sql (sql_effect _ s)); [constructor|]; intros userId.
    unfold unlikePhoto; simpl. apply sql_effect_unlike.
  - apply (protected_preserves_sql (sql_effect _ s)); [constructor|]; intros userId.
    apply createComment_effect_sql.
  - constructor.
Qed.

Lemma insertIgnoreLike_NoDup (photoId userId : Z) (s : Store) :
  NoDup (photo_likes s) ->
  NoDup (photo_likes (insertIgnoreLike photoId userId s)).
Proof.
  intros Hs; unfold insertIgnoreLike.
  destruct (existsb (same_like photoId userId) (photo_likes s)) eqn:E; [exact Hs|].
  simpl. apply NoDup_snoc; [exact Hs|].
  now apply existsb_same_like_false.
Qed.

Lemma effect_NoDup (ok : Z -> Prop) (s s' : Store) :
  sql_effect ok s s' -> NoDup (photo_likes s) -> NoDup (photo_likes s').
Proof.
  intros He Hs; destruct He; simpl; try exact Hs.
  - now apply insertIgnoreLike_NoDup.
  - now apply NoDup_filter.
Qed.

Lemma reachable_NoDup (s : Store) : reachable s -> NoDup (photo_likes s).
Proof.
  induction 1 as [|s e r _ IH]; [constructor|].
  exact (effect_NoDup (handle_effect_sql e r s) IH).
Qed.

Lemma run_reachable_sql (rs : list (Env * request)) (s : Store) :
  reachable s -> reachable (run rs s).
Proof.
  revert s; induction rs as [|[e r] rs IH]; intros s Hs; simpl; [exact Hs|].
  apply IH. now constructor.
Qed.

End MySQLEffect.

(** The sample stores are reached by their sample runs. *)
Lemma sample_mongo_store_reachable :
  Mongo.reachable (ext := Sample.mongo_ext) (cur := Sample.cursor) (mg := Sample.mongoose)
    Sample.mongo_store.
Proof.
  replace Sample.mongo_store
    with (Mongo.run (ext := Sample.mongo_ext) (cur := Sample.cursor) (mg := Sample.mongoose)
            Sample.mongo_requests Mongo.empty)
    by (vm_compute; reflexivity).
  apply run_reachable, Mongo.reachable_empty.
Qed.

Lemma sample_mongo_liked_reachable :
  Mongo.reachable (ext := Sample.mongo_ext) (cur := Sample.cursor) (mg := Sample.mongoose)
    Sample.mongo_liked.
Proof.
  replace Sample.mongo_liked
    with (Mongo.run (ext := Sample.mongo_ext) (cur := Sample.cursor) (mg := Sample.mongoose)
            Sample.mongo_like_requests Sample.mongo_store)
    by (vm_compute; reflexivity).
  apply run_reachable, sample_mongo_store_reachable.
Qed.

Lemma sample_sql_store_reachable :
  MySQL.reachable (ext := Sample.sql_ext) (par := Sample.parameters) Sample.sql_store.
Proof.
  replace Sample.sql_store
    with (MySQL.run (ext := Sample.sql_ext) (par := Sample.parameters)
            Sample.sql_requests MySQL.empty)
    by (vm_compute; reflexivity).
  apply run_reachable_sql, MySQL.reachable_empty.
Qed.

Lemma sample_sql_liked_reachable :
  MySQL.reachable (ext := Sample.sql_ext) (par := Sample.parameters) Sample.sql_liked.
Proof.
  replace Sample.sql_liked
    with (MySQL.run (ext := Sample.sql_ext) (par := Sample.parameters)
            Sample.sql_like_requests Sample.sql_store)
    by (vm_compute; reflexivity).
  apply run_reachable_sql, sample_sql_store_reachable.
Qed.

Lemma sample_sql_gallery_reachable :
  MySQL.reachable (ext := Sample.sql_ext) (par := Sample.parameters) Sample.sql_gallery.
Proof.
  replace Sample.sql_gallery
    with (MySQL.run (ext := Sample.sql_ext) (par := Sample.parameters)
            Sample.sql_gallery_requests Sample.sql_store)
    by (vm_compute; reflexivity).
  apply run_reachable_sql, sample_sql_store_reachable.
Qed.

(** ** The like relation holds each pair at most once *)

(** C2.  In every store reached from the empty one by any sequence of
    requests (register, login, upload, list, get, like, unlike, comment,
    list comments), with any bcrypt, token service, cursor, casts,
    collation and parameter escaping, a (photo, user) pair is liked at
    most once: no photo of the Mongo variant has a user id twice in
    [likes], and [photo_likes] of the relational variant has no row
    twice. *)
Theorem like_relation_at_most_once :
  (forall (ext : Externals Mongo.ObjectId) (cur : Mongo.Cursor) (mg : Mongo.Mongoose)
          (s : Mongo.Store),
     Mongo.reachable s ->
     forall p, In p (Mongo.photos s) -> NoDup (Mongo.photo_likes p))
  /\
  (forall (ext : Externals Z) (col : MySQL.Collation) (par : MySQL.Parameters)
          (s : MySQL.Store),
     MySQL.reachable s -> NoDup (MySQL.photo_likes s)).
Proof.
  split.
  - intros ext cur mg s Hs p Hp.
    apply reachable_distinct in Hs.
    unfold likes_distinct in Hs; rewrite Forall_forall in Hs; auto.
  - intros ext col par s Hs. now apply reachable_NoDup.
Qed.

Lemma like_relation_at_most_once_witness :
  (forall p, In p (Mongo.photos Sample.mongo_liked) -> NoDup (Mongo.photo_likes p))
  /\ NoDup (MySQL.photo_likes Sample.sql_liked).
Proof.
  destruct like_relation_at_most_once as [HM HS].
  split.
  - apply (HM Sample.mongo_ext Sample.cursor Sample.mongoose).
    exact sample_mongo_liked_reachable.
  - apply (HS Sample.sql_ext Sample.binary Sample.parameters).
    exact sample_sql_liked_reachable.
Defined.

Example sample_mongo_liked :
  map Mongo.photo_likes (Mongo.photos Sample.mongo_liked)
  = [[Sample.alice; Sample.bob]].
Proof. vm_compute. reflexivity. Qed.

Example sample_sql_liked :
  MySQL.photo_likes Sample.sql_liked
  = [MySQL.mkLikeRow 1 1; MySQL.mkLikeRow 1 2].
Proof. vm_compute. reflexivity. Qed.

(** ** Unliking *)

Lemma set_photos_same (s : Mongo.Store) : Mongo.set_photos s (Mongo.photos s) = s.
Proof. now destruct s. Qed.

Lemma unlikePhoto_not_liked (mg : Mongo.Mongoose) (e : Mongo.Env) (id : string)
    (userId : Mongo.ObjectId) (s : Mongo.Store) (photo : Mongo.Photo) :
  Mongo.findById id s = JS.Returns (Some photo) ->
  ~ In userId (Mongo.photo_likes photo) ->
  Mongo.unlikePhoto e id userId s
  = (Mongo.mkResponse 200 (Mongo.Likes (List.length (Mongo.photo_likes photo))), s).
Proof.
  intros Hf Hn; unfold Mongo.unlikePhoto; rewrite Hf; simpl.
  apply existsb_eqb_false_not_in in Hn.
  rewrite (filter_none_liked _ _ Hn), with_likes_same.
  apply findById_photoOf in Hf.
  unfold Mongo.photoOf in Hf; rewrite (save_photo_same _ _ Hf).
  now rewrite set_photos_same.
Qed.

Lemma filter_keep_all (A : Type) (f : A -> bool) (l : list A) :
  (forall x, In x l -> f x = true) -> filter f l = l.
Proof.
  induction l as [|x r IH]; simpl; intros H; [reflexivity|].
  rewrite (H x (or_introl eq_refl)); f_equal; auto.
Qed.

Lemma unlikePhoto_not_liked_sql (photoId userId : Z) (s : MySQL.Store) :
  ~ In (MySQL.mkLikeRow photoId userId) (MySQL.photo_likes s) ->
  MySQL.unlikePhoto photoId userId s
  = (MySQL.mkResponse 200 (MySQL.Likes (MySQL.countLikes photoId s)), s).
Proof.
  intros Hn; unfold MySQL.unlikePhoto, MySQL.deleteLike.
  assert (E : filter (fun l => negb (MySQL.same_like photoId userId l))
                     (MySQL.photo_likes s) = MySQL.photo_likes s).
  { apply filter_keep_all; intros l Hl.
    destruct (MySQL.same_like photoId userId l) eqn:E; [|reflexivity].
    apply same_like_spec in E; subst; contradiction. }
  rewrite E.
  assert (Es : MySQL.set_likes s (MySQL.photo_likes s) = s) by (destruct s; reflexivity).
  now rewrite Es.
Qed.

(** C3.  Unliking a photo that is in the store by a user who holds no
    like on it succeeds in both variants: the response is 200 with the
    photo's like count as it was before the call, and the store, hence
    that count, is unchanged. *)
Theorem unlike_without_like_is_noop :
  (forall (mg : Mongo.Mongoose) (e : Mongo.Env) (id : string) (userId : Mongo.ObjectId)
          (s : Mongo.Store) (photo : Mongo.Photo),
     Mongo.findById id s = JS.Returns (Some photo) ->
     ~ In userId (Mongo.photo_likes photo) ->
     Mongo.unlikePhoto e id userId s
     = (Mongo.mkResponse 200 (Mongo.Likes (List.length (Mongo.photo_likes photo))), s))
  /\
  (forall (photoId userId : Z) (s : MySQL.Store),
     MySQL.selectPhoto photoId s <> [] ->
     ~ In (MySQL.mkLikeRow photoId userId) (MySQL.photo_likes s) ->
     MySQL.unlikePhoto photoId userId s
     = (MySQL.mkResponse 200 (MySQL.Likes (MySQL.countLikes photoId s)), s)).
Proof.
  split.
  - intros; now apply unlikePhoto_not_liked.
  - intros; now apply unlikePhoto_not_liked_sql.
Qed.

Lemma unlike_without_like_is_noop_witness :
  Mongo.unlikePhoto (mg := Sample.mongoose) (Sample.menv 7000 "" "")
    Sample.sunset Sample.nowhere Sample.mongo_liked
  = (Mongo.mkResponse 200 (Mongo.Likes 2), Sample.mongo_liked)
  /\
  MySQL.unlikePhoto 1 3 Sample.sql_liked
  = (MySQL.mkResponse 200 (MySQL.Likes 2), Sample.sql_liked).
Proof.
  destruct unlike_without_like_is_noop as [HM HS].
  split.
  - apply (HM Sample.mongoose (Sample.menv 7000 "" "") Sample.sunset Sample.nowhere
              Sample.mongo_liked
              (Mongo.mkPhoto Sample.sunset Sample.alice
                 "/uploads/image-3000-17.png" (Some "sunset")
                 [Sample.alice; Sample.bob] 3000 5000 2)).
    + reflexivity.
    + simpl; intros [H|[H|[]]]; discriminate.
  - apply (HS 1 3 Sample.sql_liked).
    + vm_compute; discriminate.
    + simpl; intros [H|[H|[]]]; discriminate.
Defined.

(** ** DELETE /photos/:id/like as a route *)

Lemma authRequired_rejects_401 (UserId : Type) (ext : Externals UserId)
    (now : Z) (a : JS.field) (st : Z) (msg : string) :
  authRequired now a = Rejected st msg -> st = 401.
Proof.
  unfold authRequired.
  destruct (JS.present a); [|congruence].
  destruct (JS.present _); [|congruence].
  destruct (jwt_verify _ _); congruence.
Qed.

(** [DELETE FROM photo_likes WHERE photo_id = ? AND user_id = ?] removes
    the row of that photo and user and no other. *)
Lemma deleteLike_spec (photoId userId : Z) (s : MySQL.Store) :
  ~ In (MySQL.mkLikeRow photoId userId)
       (MySQL.photo_likes (MySQL.deleteLike photoId userId s))
  /\ (forall row, row <> MySQL.mkLikeRow photoId userId ->
        (In row (MySQL.photo_likes (MySQL.deleteLike photoId userId s))
         <-> In row (MySQL.photo_likes s))).
Proof.
  unfold MySQL.deleteLike; simpl. split.
  - intros Hin. apply filter_In in Hin as [_ Hin].
    apply negb_true_iff in Hin.
    assert (MySQL.same_like photoId userId (MySQL.mkLikeRow photoId userId) = true)
      by now apply same_like_spec.
    congruence.
  - intros row Hrow. rewrite filter_In. split; [tauto|].
    intros Hin; split; [exact Hin|].
    destruct (MySQL.same_like photoId userId row) eqn:E; [|reflexivity].
    apply same_like_spec in E; contradiction.
Qed.

(** C4 as it is written fails on the Mongo variant: with a token that
    verifies, unliking a well-formed photo id that no stored photo has is
    answered 404, not 200. *)
Lemma unlike_missing_photo_is_404 :
  authRequired (ext := Sample.mongo_ext) 7000 (Some ("Bearer jwt." ++ Sample.alice))
  = Next Sample.alice
  /\ Mongo.castObjectId (Mongoose := Sample.mongoose) Sample.nowhere = Some Sample.nowhere
  /\ Mongo.photoOf Sample.nowhere Sample.mongo_store = None
  /\ Mongo.handle (ext := Sample.mongo_ext) (cur := Sample.cursor) (mg := Sample.mongoose)
       (Sample.menv 7000 "" "")
       (Mongo.DeleteLike (Some ("Bearer jwt." ++ Sample.alice)) Sample.nowhere)
       Sample.mongo_store
     = (Mongo.mkResponse 404 (Mongo.Error msg_no_photo), Sample.mongo_store).
Proof. vm_compute. repeat split; reflexivity. Qed.

(** C4, amended.  With a token that verifies, DELETE /photos/:id/like
    of the relational variant answers 200 with the like count of the
    photo id after the deletion, for every photo id, in the store or
    not.  The Mongo variant answers 200, with the number of likes left,
    only when the id casts to the ObjectId of a stored photo; it answers
    404 and leaves the store as it is when the id casts to an ObjectId
    that no photo has, and 500 when Mongoose cannot cast the id.  In
    both variants a request the middleware rejects is answered 401 and
    leaves the store unchanged. *)
Theorem unlike_route_outcomes :
  (forall (ext : Externals Z) (col : MySQL.Collation) (par : MySQL.Parameters)
          (e : MySQL.Env) (a : JS.field) (photoId userId : Z) (s : MySQL.Store),
     authRequired (MySQL.now e) a = Next userId ->
     let out := MySQL.handle e (MySQL.DeleteLike a photoId) s in
     fst out = MySQL.mkResponse 200 (MySQL.Likes (MySQL.countLikes photoId (snd out)))
     /\ snd out = MySQL.deleteLike photoId userId s
     /\ ~ In (MySQL.mkLikeRow photoId userId) (MySQL.photo_likes (snd out))
     /\ (forall row, row <> MySQL.mkLikeRow photoId userId ->
           (In row (MySQL.photo_likes (snd out)) <-> In row (MySQL.photo_likes s)))
     /\ MySQL.users (snd out) = MySQL.users s
     /\ MySQL.photos (snd out) = MySQL.photos s
     /\ MySQL.comments (snd out) = MySQL.comments s)
  /\
  (forall (ext : Externals Mongo.ObjectId) (cur : Mongo.Cursor) (mg : Mongo.Mongoose)
          (e : Mongo.Env) (a : JS.field) (id : string) (userId : Mongo.ObjectId)
          (s : Mongo.Store),
     authRequired (Mongo.now e) a = Next userId ->
     let out := Mongo.handle e (Mongo.DeleteLike a id) s in
     (Mongo.castObjectId id = None ->
      out = (Mongo.mkResponse 500 (Mongo.Error msg_server), s))
     /\ (forall _id, Mongo.castObjectId id = Some _id -> Mongo.photoOf _id s = None ->
         out = (Mongo.mkResponse 404 (Mongo.Error msg_no_photo), s))
     /\ (forall _id photo,
           Mongo.castObjectId id = Some _id -> Mongo.photoOf _id s = Some photo ->
           exists photo',
             Mongo.photoOf _id (snd out) = Some photo'
             /\ Mongo.photo_likes photo'
                = filter (fun u => negb (String.eqb u userId)) (Mongo.photo_likes photo)
             /\ fst out = Mongo.mkResponse 200
                            (Mongo.Likes (List.length (Mongo.photo_likes photo')))))
  /\
  (forall (ext : Externals Z) (col : MySQL.Collation) (par : MySQL.Parameters)
          (e : MySQL.Env) (a : JS.field) (photoId : Z) (s : MySQL.Store)
          (st : Z) (msg : string),
     authRequired (MySQL.now e) a = Rejected st msg ->
     st = 401
     /\ MySQL.handle e (MySQL.DeleteLike a photoId) s
        = (MySQL.mkResponse 401 (MySQL.Error msg), s))
  /\
  (forall (ext : Externals Mongo.ObjectId) (cur : Mongo.Cursor) (mg : Mongo.Mongoose)
          (e : Mongo.Env) (a : JS.field) (id : string) (s : Mongo.Store)
          (st : Z) (msg : string),
     authRequired (Mongo.now e) a = Rejected st msg ->
     st = 401
     /\ Mongo.handle e (Mongo.DeleteLike a id) s
        = (Mongo.mkResponse 401 (Mongo.Error msg), s)).
Proof.
  split; [|split; [|split]].
  - intros ext col par e a photoId userId s H out; subst out.
    simpl; unfold MySQL.protected; rewrite H.
    destruct (deleteLike_spec photoId userId s) as [Hout Hkept].
    repeat split; try reflexivity; try exact Hout; apply Hkept; assumption.
  - intros ext cur mg e a id userId s H out; subst out.
    simpl; unfold Mongo.protected; rewrite H.
    unfold Mongo.unlikePhoto, Mongo.findById.
    split; [|split].
    + intros Hc; now rewrite Hc.
    + intros _id Hc Hp; now rewrite Hc, Hp.
    + intros _id photo Hc Hp; rewrite Hc, Hp; cbv zeta.
      exists (Mongo.with_likes e photo
                (filter (fun u => negb (String.eqb u userId)) (Mongo.photo_likes photo))).
      split; [|split; reflexivity].
      unfold Mongo.photoOf in *; cbn [snd Mongo.set_photos Mongo.photos].
      eapply find_save_photo; [exact Hp|].
      rewrite with_likes_id. apply find_some in Hp as [_ Hp]. now apply String.eqb_eq in Hp.
  - intros ext col par e a photoId s st msg H.
    pose proof (authRequired_rejects_401 _ _ _ H) as ->.
    split; [reflexivity|].
    simpl; unfold MySQL.protected; now rewrite H.
  - intros ext cur mg e a id s st msg H.
    pose proof (authRequired_rejects_401 _ _ _ H) as ->.
    split; [reflexivity|].
    simpl; unfold Mongo.protected; now rewrite H.
Qed.

Lemma unlike_route_outcomes_witness :
  fst (MySQL.handle (ext := Sample.sql_ext) (par := Sample.parameters)
         (Sample.senv 7000 "") (MySQL.DeleteLike (Some "Bearer jwt.1") 99)
         Sample.sql_liked)
  = MySQL.mkResponse 200 (MySQL.Likes 0)
  /\ Mongo.handle (ext := Sample.mongo_ext) (cur := Sample.cursor) (mg := Sample.mongoose)
       (Sample.menv 7000 "" "")
       (Mongo.DeleteLike (Some ("Bearer jwt." ++ Sample.alice)) "abc")
       Sample.mongo_liked
     = (Mongo.mkResponse 500 (Mongo.Error msg_server), Sample.mongo_liked)
  /\ Mongo.handle (ext := Sample.mongo_ext) (cur := Sample.cursor) (mg := Sample.mongoose)
       (Sample.menv 7000 "" "")
       (Mongo.DeleteLike (Some ("Bearer jwt." ++ Sample.alice)) Sample.nowhere)
       Sample.mongo_liked
     = (Mongo.mkResponse 404 (Mongo.Error msg_no_photo), Sample.mongo_liked)
  /\ fst (Mongo.handle (ext := Sample.mongo_ext) (cur := Sample.cursor)
            (mg := Sample.mongoose) (Sample.menv 7000 "" "")
            (Mongo.DeleteLike (Some ("Bearer jwt." ++ Sample.alice))
                              "65A1F00000000000000000A1")
            Sample.mongo_liked)
     = Mongo.mkResponse 200 (Mongo.Likes 1)
  /\ MySQL.handle (ext := Sample.sql_ext) (par := Sample.parameters)
       (Sample.senv 7000 "") (MySQL.DeleteLike None 1) Sample.sql_liked
     = (MySQL.mkResponse 401 (MySQL.Error msg_no_header), Sample.sql_liked)
  /\ Mongo.handle (ext := Sample.mongo_ext) (cur := Sample.cursor) (mg := Sample.mongoose)
       (Sample.menv 7000 "" "") (Mongo.DeleteLike (Some "Bearer") Sample.sunset)
       Sample.mongo_liked
     = (Mongo.mkResponse 401 (Mongo.Error msg_no_token), Sample.mongo_liked).
Proof.
  destruct unlike_route_outcomes as [H1 [H2 [H3 H4]]].
  pose proof (fun id => H2 Sample.mongo_ext Sample.cursor Sample.mongoose
                           (Sample.menv 7000 "" "")
                           (Some ("Bearer jwt." ++ Sample.alice)) id Sample.alice
                           Sample.mongo_liked eq_refl) as HM.
  split; [|split; [|split; [|split; [|split]]]].
  - destruct (H1 Sample.sql_ext Sample.binary Sample.parameters (Sample.senv 7000 "")
                 (Some "Bearer jwt.1") 99 1 Sample.sql_liked eq_refl) as [E _].
    rewrite E. vm_compute. reflexivity.
  - apply (proj1 (HM "abc")). reflexivity.
  - apply (proj1 (proj2 (HM Sample.nowhere)) Sample.nowhere); reflexivity.
  - destruct (proj2 (proj2 (HM "65A1F00000000000000000A1")) Sample.sunset
                (Mongo.mkPhoto Sample.sunset Sample.alice
                   "/uploads/image-3000-17.png" (Some "sunset")
                   [Sample.alice; Sample.bob] 3000 5000 2) eq_refl eq_refl)
      as [photo' [_ [Hl Hr]]].
    rewrite Hr, Hl. reflexivity.
  - apply (H3 Sample.sql_ext Sample.binary Sample.parameters (Sample.senv 7000 "") None 1
              Sample.sql_liked 401 msg_no_header eq_refl).
  - apply (H4 Sample.mongo_ext Sample.cursor Sample.mongoose (Sample.menv 7000 "" "")
              (Some "Bearer") Sample.sunset Sample.mongo_liked 401 msg_no_token
              eq_refl).
Defined.

(** ** Login and registration *)

Lemma falsy_str (s : string) : s <> "" -> JS.falsy_value (JS.Str s) = false.
Proof. destruct s; simpl; congruence. Qed.

Lemma truthy_str (s : string) : JS.falsy_value (JS.Str s) = false -> s <> "".
Proof. destruct s; simpl; congruence. Qed.

Lemma filter_in_true (A : Type) (f : A -> bool) (l : list A) (x : A) :
  In x l -> f x = true -> filter f l <> [].
Proof.
  intros Hin Hf.
  assert (H : In x (filter f l)) by (apply filter_In; auto).
  destruct (filter f l); [contradiction | discriminate].
Qed.

(** The lookups with strings as parameters. *)
Lemma findUser_strings (mg : Mongo.Mongoose) (e : Mongo.Env) (email username : string)
    (s : Mongo.Store) :
  Mongo.findUser e (JS.Str email) (JS.Str username) s
  = JS.Returns
      (one_of (Mongo.pick e)
         (filter (fun u => String.eqb email (Mongo.user_email u)
                           || String.eqb username (Mongo.user_username u))
                 (Mongo.users s))).
Proof. unfold Mongo.findUser; now rewrite !Mongo.castFilter_string. Qed.

Lemma selectUsers_strings (col : MySQL.Collation) (par : MySQL.Parameters)
    (email username : string) (s : MySQL.Store) :
  MySQL.selectUsers (JS.Str email) (JS.Str username) s
  = JS.Returns
      (filter (fun u => MySQL.sql_eq (MySQL.u_email u) email
                        || MySQL.sql_eq (MySQL.u_username u) username)
              (MySQL.users s)).
Proof. unfold MySQL.selectUsers; now rewrite !MySQL.where_eq_string. Qed.




(** C6 as it is written fails: the check for missing fields comes
    first, so a registration with the e-mail address of a stored user
    and an empty user name is answered 400, not 409; and a user name
    that is not a string but an object is cast by Mongoose when the
    duplicate lookup is built, and the CastError is answered 500. *)
Lemma register_duplicate_email_not_409 :
  let e := Sample.menv 7000 Sample.nowhere "s3" in
  (exists u, In u (Mongo.users Sample.mongo_store) /\ Mongo.user_email u = "a@x.com")
  /\ Mongo.register (ext := Sample.mongo_ext) (mg := Sample.mongoose) e
       (JS.Str "") (JS.Str "a@x.com") (JS.Str "pw789") Sample.mongo_store
     = (Mongo.mkResponse 400 (Mongo.Error msg_register_required), Sample.mongo_store)
  /\ Mongo.register (ext := Sample.mongo_ext) (mg := Sample.mongoose) e
       (JS.Obj []) (JS.Str "a@x.com") (JS.Str "pw789") Sample.mongo_store
     = (Mongo.mkResponse 500 (Mongo.Error msg_server), Sample.mongo_store).
Proof.
  cbv zeta. split; [|split].
  - eexists; split; [left; reflexivity | reflexivity].
  - reflexivity.
  - reflexivity.
Qed.

(** C6, amended.  In a state that holds a user with e-mail address
    [email], a registration with that address whose user name is a
    non-empty string and whose password is present is answered 409 and
    leaves the store unchanged, whatever that user name; the same holds
    for a registration with the user name of a stored user and any
    non-empty string as address.  A registration with a missing or
    empty field is answered 400 and leaves the store unchanged as
    well. *)
Theorem register_duplicate_rejected :
  (forall (ext : Externals Mongo.ObjectId) (mg : Mongo.Mongoose) (e : Mongo.Env)
          (username email : string) (password : JS.value)
          (s : Mongo.Store) (u : Mongo.User),
     username <> "" -> email <> "" -> JS.falsy_value password = false ->
     In u (Mongo.users s) ->
     Mongo.user_email u = email \/ Mongo.user_username u = username ->
     Mongo.register e (JS.Str username) (JS.Str email) password s
     = (Mongo.mkResponse 409 (Mongo.Error msg_user_exists), s))
  /\
  (forall (ext : Externals Z) (col : MySQL.Collation) (par : MySQL.Parameters)
          (e : MySQL.Env) (username email : string) (password : JS.value)
          (s : MySQL.Store) (u : MySQL.UserRow),
     username <> "" -> email <> "" -> JS.falsy_value password = false ->
     In u (MySQL.users s) ->
     MySQL.u_email u = email \/ MySQL.u_username u = username ->
     MySQL.register e (JS.Str username) (JS.Str email) password s
     = (MySQL.mkResponse 409 (MySQL.Error msg_user_exists), s))
  /\
  (forall (ext : Externals Mongo.ObjectId) (mg : Mongo.Mongoose) (e : Mongo.Env)
          (username email password : JS.value) (s : Mongo.Store),
     JS.falsy_value username || JS.falsy_value email || JS.falsy_value password = true ->
     Mongo.register e username email password s
     = (Mongo.mkResponse 400 (Mongo.Error msg_register_required), s))
  /\
  (forall (ext : Externals Z) (col : MySQL.Collation) (par : MySQL.Parameters)
          (e : MySQL.Env) (username email password : JS.value) (s : MySQL.Store),
     JS.falsy_value username || JS.falsy_value email || JS.falsy_value password = true ->
     MySQL.register e username email password s
     = (MySQL.mkResponse 400 (MySQL.Error msg_register_required), s)).
Proof.
  split; [|split; [|split]].
  - intros ext mg e n m p s u Hn Hm Hp Hin Hu.
    unfold Mongo.register.
    rewrite (falsy_str Hn), (falsy_str Hm), Hp; simpl.
    rewrite findUser_strings.
    destruct (@one_of_some _ (Mongo.pick e)
                (filter (fun v => String.eqb m (Mongo.user_email v)
                                  || String.eqb n (Mongo.user_username v))
                        (Mongo.users s))) as [y Hy].
    { apply filter_in_true with (x := u); [exact Hin|].
      destruct Hu as [<- | <-]; rewrite String.eqb_refl;
        [reflexivity | apply orb_true_r]. }
    now rewrite Hy.
  - intros ext col par e n m p s u Hn Hm Hp Hin Hu.
    unfold MySQL.register.
    rewrite (falsy_str Hn), (falsy_str Hm), Hp; simpl.
    rewrite selectUsers_strings.
    destruct (filter (fun v => MySQL.sql_eq (MySQL.u_email v) m
                               || MySQL.sql_eq (MySQL.u_username v) n)
                     (MySQL.users s)) as [|y r] eqn:Ey; [|reflexivity].
    exfalso; revert Ey.
    apply filter_in_true with (x := u); [exact Hin|].
    destruct Hu as [<- | <-]; rewrite MySQL.sql_eq_refl;
      [reflexivity | apply orb_true_r].
  - intros ext mg e n m p s H. unfold Mongo.register. now rewrite H.
  - intros ext col par e n m p s H. unfold MySQL.register. now rewrite H.
Qed.

Lemma register_duplicate_rejected_witness :
  Mongo.register (ext := Sample.mongo_ext) (mg := Sample.mongoose)
    (Sample.menv 7000 Sample.nowhere "s3")
    (JS.Str "carol") (JS.Str "a@x.com") (JS.Str "pw789") Sample.mongo_store
  = (Mongo.mkResponse 409 (Mongo.Error msg_user_exists), Sample.mongo_store)
  /\ MySQL.register (ext := Sample.sql_ext) (par := Sample.parameters)
       (Sample.senv 7000 "s3")
       (JS.Str "bob") (JS.Str "c@x.com") (JS.Bool true) Sample.sql_store
     = (MySQL.mkResponse 409 (MySQL.Error msg_user_exists), Sample.sql_store)
  /\ Mongo.register (ext := Sample.mongo_ext) (mg := Sample.mongoose)
       (Sample.menv 7000 Sample.nowhere "s3")
       (JS.Str "carol") (JS.Str "a@x.com") JS.Undefined Sample.mongo_store
     = (Mongo.mkResponse 400 (Mongo.Error msg_register_required), Sample.mongo_store)
  /\ MySQL.register (ext := Sample.sql_ext) (par := Sample.parameters)
       (Sample.senv 7000 "s3")
       (JS.Str "") (JS.Str "c@x.com") (JS.Str "pw789") Sample.sql_store
     = (MySQL.mkResponse 400 (MySQL.Error msg_register_required), Sample.sql_store).
Proof.
  destruct register_duplicate_rejected as [H1 [H2 [H3 H4]]].
  split; [|split; [|split]].
  - apply (H1 Sample.mongo_ext Sample.mongoose (Sample.menv 7000 Sample.nowhere "s3")
              "carol" "a@x.com" (JS.Str "pw789") Sample.mongo_store
              (Mongo.mkUser Sample.alice "alice" "a@x.com"
                            (Sample.hash_marker ++ "pw123") 1000));
      try discriminate; [reflexivity | left; reflexivity | left; reflexivity].
  - apply (H2 Sample.sql_ext Sample.binary Sample.parameters (Sample.senv 7000 "s3")
              "bob" "c@x.com" (JS.Bool true) Sample.sql_store
              (MySQL.mkUserRow 2 "bob" "b@x.com" (Sample.hash_marker ++ "pw456") 2000));
      try discriminate; [reflexivity | right; left; reflexivity | right; reflexivity].
  - apply (H3 Sample.mongo_ext Sample.mongoose); reflexivity.
  - apply (H4 Sample.sql_ext Sample.binary Sample.parameters); reflexivity.
Defined.

(** ** Ordering and pagination *)

Section SortFacts.
Variable A : Type.
Variable before : A -> A -> bool.




Variable R : A -> A -> Prop.
Hypothesis before_true : forall x y, before x y = true -> R x y.
Hypothesis before_false : forall x y, before x y = false -> R y x.



End SortFacts.





(** ** Keys and joins of the relational variant *)

Lemma keyed_snoc (A : Type) (key : A -> Z) (next : Z) (x : A) (rows : list A) :
  keyed key next rows -> key x = next -> keyed key (next + 1) (rows ++ [x]).
Proof.
  intros [Hn Hf] Hx; split.
  - rewrite map_app; simpl. apply NoDup_snoc; [exact Hn|].
    intros Hin. apply in_map_iff in Hin as [r [Hr Hin]].
    rewrite Forall_forall in Hf. specialize (Hf r Hin). lia.
  - apply Forall_app; split.
    + eapply Forall_impl; [|exact Hf]. simpl; intros; lia.
    + constructor; [lia | constructor].
Qed.

Lemma filter_key_none (A : Type) (key : A -> Z) (k : Z) (l : list A) :
  ~ In k (map key l) -> filter (fun v => key v =? k) l = [].
Proof.
  induction l as [|a t IH]; simpl; intros H; [reflexivity|].
  destruct (Z.eqb_spec (key a) k) as [E|E]; [tauto|].
  apply IH; tauto.
Qed.


Section MySQLKeys.
Import MySQL.
Context {ext : Externals Z} {col : Collation} {par : Parameters}.

Lemma effect_primary_keys (ok : Z -> Prop) (s s' : Store) :
  sql_effect ok s s' -> primary_keys s -> primary_keys s'.
Proof.
  intros He Hs. pose proof Hs as [Hu [Hp Hc]].
  destruct He; try exact Hs.
  - split; [|split]; simpl; auto. now apply keyed_snoc.
  - split; [|split]; simpl; auto. now apply keyed_snoc.
  - unfold insertIgnoreLike. destruct (existsb _ _); exact Hs.
  - split; [|split]; simpl; auto. now apply keyed_snoc.
Qed.

Lemma reachable_primary_keys (s : Store) : reachable s -> primary_keys s.
Proof.
  induction 1 as [|s e r _ IH].
  - repeat split; constructor.
  - exact (effect_primary_keys (handle_effect_sql e r s) IH).
Qed.








Lemma map_Some_inj (A : Type) (l l' : list A) :
  map Some l = map Some l' -> l = l'.
Proof.
  revert l'; induction l as [|a t IH]; intros [|b t'] H; simpl in *;
    try discriminate; [reflexivity|].
  injection H as -> H. f_equal; auto.
Qed.


End MySQLKeys.


(** ** GET /photos *)

Section MongoList.
Import Mongo.
Context {cur : Cursor}.



End MongoList.

Section MySQLList.
Import MySQL.





End MySQLList.



(** ** POST /photos/:id/comments *)

Lemma required_nonempty (s : string) : s <> "" -> Mongo.required s = true.
Proof. destruct s; simpl; congruence. Qed.

Lemma createComment_row_sql (col : MySQL.Collation) (par : MySQL.Parameters)
    (e : MySQL.Env) (photoId userId : Z) (t : string)
    (s : MySQL.Store) (u : MySQL.UserRow) (rest : list MySQL.UserRow) :
  primary_keys s -> t <> "" ->
  MySQL.selectPhoto photoId s <> [] ->
  MySQL.joinUser userId s = u :: rest ->
  MySQL.createComment e photoId userId (JS.Str t) s
  = (MySQL.mkResponse 201
       (MySQL.CommentDoc
          (Some (MySQL.mkCommentItem (MySQL.next_comment_id s) t (MySQL.now e)
                                     userId (MySQL.u_username u) (MySQL.u_email u)))),
     MySQL.mkStore (MySQL.users s) (MySQL.photos s) (MySQL.photo_likes s)
       (MySQL.comments s
        ++ [MySQL.mkCommentRow (MySQL.next_comment_id s) photoId userId t (MySQL.now e)])
       (MySQL.next_user_id s) (MySQL.next_photo_id s) (MySQL.next_comment_id s + 1)).
Proof.
  intros [_ [_ [_ Hc]]] Ht Hp Hu.
  unfold MySQL.createComment. rewrite (falsy_str Ht).
  destruct (MySQL.selectPhoto photoId s) as [|p ps]; [congruence|].
  rewrite MySQL.insert_text_string.
  simpl. rewrite filter_app; simpl. rewrite Z.eqb_refl.
  rewrite filter_key_none.
  2:{ intros Hin. apply in_map_iff in Hin as [c [Ec Hin]].
      rewrite Forall_forall in Hc. specialize (Hc c Hin). lia. }
  simpl. unfold MySQL.joinUser in *; simpl. rewrite Hu; simpl.
  assert (Eu : MySQL.u_id u = userId).
  { assert (Hin : In u (u :: rest)) by now left.
    rewrite <- Hu in Hin. apply filter_In in Hin as [_ Hin].
    now apply Z.eqb_eq in Hin. }
  unfold MySQL.comment_item; simpl. now rewrite Eu.
Qed.

(** C7 as it is written fails on the Mongo variant: the comment is
    stored and returned as the created document, whose author is the
    bare user id; no user name or e-mail address of the author is in
    the response, although the author is a stored user. *)
Lemma createComment_mongo_author_is_bare_id :
  let out := Mongo.createComment (mg := Sample.mongoose)
               (Sample.menv 7000 "65a1f00000000000000000c1" "")
               Sample.sunset Sample.bob (JS.Str "nice") Sample.mongo_store in
  Mongo.findUserById Sample.bob Sample.mongo_store
  = Some (Mongo.mkUser Sample.bob "bob" "b@x.com" (Sample.hash_marker ++ "pw456") 2000)
  /\ fst out
     = Mongo.mkResponse 201
         (Mongo.CommentDoc
            (Mongo.mkCommentJson "65a1f00000000000000000c1" Sample.sunset
               (Mongo.Unpopulated Sample.bob) "nice" 7000 7000 0))
  /\ mongo_author_identity (Mongo.json (fst out)) = None.
Proof. vm_compute. repeat split; reflexivity. Qed.

(** C7, amended.  [createComment] answers 400 and changes nothing when
    the text is missing or empty (or any other falsy value); answers
    404 and changes nothing when the text is present and the photo id
    is the id of no stored photo (in the Mongo variant: when it casts
    to an ObjectId that no photo has; an id that Mongoose cannot cast
    is answered 500); and otherwise, for a text that is a non-empty
    string, answers 201, appends exactly one comment with that photo,
    author and text to the comments and leaves users, photos and likes
    as they are.  The relational variant returns the new comment
    joined with its author (id, user name, e-mail address), for an
    author that is a stored user in a store the application has
    reached; the Mongo variant returns the created document, which
    carries the author's id only. *)
Theorem createComment_outcomes :
  (forall (mg : Mongo.Mongoose) (e : Mongo.Env) (id : string)
          (userId : Mongo.ObjectId) (text : JS.value) (s : Mongo.Store),
     (JS.falsy_value text = true ->
      Mongo.createComment e id userId text s
      = (Mongo.mkResponse 400 (Mongo.Error msg_text_required), s))
     /\ (JS.falsy_value text = false -> Mongo.castObjectId id = None ->
         Mongo.createComment e id userId text s
         = (Mongo.mkResponse 500 (Mongo.Error msg_server), s))
     /\ (forall _id, JS.falsy_value text = false ->
         Mongo.castObjectId id = Some _id -> Mongo.photoOf _id s = None ->
         Mongo.createComment e id userId text s
         = (Mongo.mkResponse 404 (Mongo.Error msg_no_photo), s))
     /\ (forall _id t photo, text = JS.Str t -> t <> "" ->
         Mongo.castObjectId id = Some _id -> Mongo.photoOf _id s = Some photo ->
         Mongo.createComment e id userId text s
         = (Mongo.mkResponse 201
              (Mongo.CommentDoc
                 (Mongo.mkCommentJson (Mongo.fresh e) _id (Mongo.Unpopulated userId)
                                      t (Mongo.now e) (Mongo.now e) 0)),
            Mongo.mkStore (Mongo.users s) (Mongo.photos s)
              (Mongo.comments s
               ++ [Mongo.mkComment (Mongo.fresh e) _id userId t (Mongo.now e)]))))
  /\
  (forall (ext : Externals Z) (col : MySQL.Collation) (par : MySQL.Parameters)
          (e : MySQL.Env) (photoId userId : Z) (text : JS.value) (s : MySQL.Store),
     (JS.falsy_value text = true ->
      MySQL.createComment e photoId userId text s
      = (MySQL.mkResponse 400 (MySQL.Error msg_text_required), s))
     /\ (JS.falsy_value text = false -> MySQL.selectPhoto photoId s = [] ->
         MySQL.createComment e photoId userId text s
         = (MySQL.mkResponse 404 (MySQL.Error msg_no_photo), s))
     /\ (forall t u rest, text = JS.Str t -> t <> "" ->
         MySQL.selectPhoto photoId s <> [] ->
         MySQL.reachable s -> MySQL.joinUser userId s = u :: rest ->
         let out := MySQL.createComment e photoId userId text s in
         out
         = (MySQL.mkResponse 201
              (MySQL.CommentDoc
                 (Some (MySQL.mkCommentItem (MySQL.next_comment_id s) t (MySQL.now e)
                          userId (MySQL.u_username u) (MySQL.u_email u)))),
            MySQL.mkStore (MySQL.users s) (MySQL.photos s) (MySQL.photo_likes s)
              (MySQL.comments s
               ++ [MySQL.mkCommentRow (MySQL.next_comment_id s) photoId userId t
                                      (MySQL.now e)])
              (MySQL.next_user_id s) (MySQL.next_photo_id s)
              (MySQL.next_comment_id s + 1))
         /\ sql_author_identity (MySQL.json (fst out))
            = Some (MySQL.u_username u, MySQL.u_email u))).
Proof.
  split.
  - intros mg e id userId text s; split; [|split; [|split]].
    + intros Hf; unfold Mongo.createComment. now rewrite Hf.
    + intros Hf Hc; unfold Mongo.createComment, Mongo.findById. now rewrite Hf, Hc.
    + intros _id Hf Hc Hp; unfold Mongo.createComment, Mongo.findById.
      now rewrite Hf, Hc, Hp.
    + intros _id t photo -> Ht Hc Hp; unfold Mongo.createComment, Mongo.findById.
      rewrite (falsy_str Ht), Hc, Hp.
      unfold Mongo.createCommentDoc.
      rewrite Mongo.castString_string, (required_nonempty Ht).
      now rewrite (photoOf_id _ _ Hp).
  - intros ext col par e photoId userId text s; split; [|split].
    + intros Hf; unfold MySQL.createComment. now rewrite Hf.
    + intros Hf Hp; unfold MySQL.createComment. now rewrite Hf, Hp.
    + intros t u rest -> Ht Hp Hr Hu out; subst out.
      rewrite (@createComment_row_sql col par e photoId userId t s u rest
                 (reachable_primary_keys Hr) Ht Hp Hu).
      split; reflexivity.
Qed.

Lemma createComment_outcomes_witness :
  (let e := Sample.menv 7000 "65a1f00000000000000000c1" "" in
   Mongo.createComment (mg := Sample.mongoose) e
     Sample.sunset Sample.bob (JS.Str "") Sample.mongo_store
   = (Mongo.mkResponse 400 (Mongo.Error msg_text_required), Sample.mongo_store)
   /\ Mongo.createComment (mg := Sample.mongoose) e
        "abc" Sample.bob (JS.Str "nice") Sample.mongo_store
      = (Mongo.mkResponse 500 (Mongo.Error msg_server), Sample.mongo_store)
   /\ Mongo.createComment (mg := Sample.mongoose) e
        Sample.nowhere Sample.bob (JS.Str "nice") Sample.mongo_store
      = (Mongo.mkResponse 404 (Mongo.Error msg_no_photo), Sample.mongo_store)
   /\ Mongo.comments
        (snd (Mongo.createComment (mg := Sample.mongoose) e
                "65A1F00000000000000000A1" Sample.bob (JS.Str "nice")
                Sample.mongo_store))
      = [Mongo.mkComment "65a1f00000000000000000c1" Sample.sunset Sample.bob "nice" 7000])
  /\
  (let e := Sample.senv 7000 "" in
   MySQL.createComment (par := Sample.parameters) e 1 2 JS.Undefined Sample.sql_store
   = (MySQL.mkResponse 400 (MySQL.Error msg_text_required), Sample.sql_store)
   /\ MySQL.createComment (par := Sample.parameters) e 99 2 (JS.Str "nice")
        Sample.sql_store
      = (MySQL.mkResponse 404 (MySQL.Error msg_no_photo), Sample.sql_store)
   /\ fst (MySQL.createComment (par := Sample.parameters) e 1 2 (JS.Str "nice")
             Sample.sql_store)
      = MySQL.mkResponse 201
          (MySQL.CommentDoc (Some (MySQL.mkCommentItem 1 "nice" 7000 2 "bob" "b@x.com")))).
Proof.
  destruct createComment_outcomes as [HM HS].
  split.
  - intros e.
    pose proof (fun id text => HM Sample.mongoose e id Sample.bob text Sample.mongo_store)
      as H.
    split; [|split; [|split]].
    + apply (proj1 (H Sample.sunset (JS.Str ""))). reflexivity.
    + apply (proj1 (proj2 (H "abc" (JS.Str "nice")))); reflexivity.
    + apply (proj1 (proj2 (proj2 (H Sample.nowhere (JS.Str "nice")))) Sample.nowhere);
        reflexivity.
    + rewrite (proj2 (proj2 (proj2 (H "65A1F00000000000000000A1" (JS.Str "nice"))))
                 Sample.sunset "nice"
                 (Mongo.mkPhoto Sample.sunset Sample.alice
                    "/uploads/image-3000-17.png" (Some "sunset") [] 3000 3000 0)
                 eq_refl); [reflexivity | discriminate | reflexivity | reflexivity].
  - intros e.
    pose proof (fun photoId text =>
                  HS Sample.sql_ext Sample.binary Sample.parameters e photoId 2 text
                     Sample.sql_store) as H.
    split; [|split].
    + apply (proj1 (H 1 JS.Undefined)). reflexivity.
    + apply (proj1 (proj2 (H 99 (JS.Str "nice")))); reflexivity.
    + destruct (proj2 (proj2 (H 1 (JS.Str "nice"))) "nice"
                  (MySQL.mkUserRow 2 "bob" "b@x.com" (Sample.hash_marker ++ "pw456") 2000)
                  [] eq_refl) as [E _];
        [discriminate | vm_compute; discriminate
        | exact sample_sql_store_reachable | reflexivity |].
      rewrite E. reflexivity.
Defined.

(** ** Defaults of [page] and [limit] *)

Section ListDefaults.
Context {cur : Mongo.Cursor}.

Lemma listPhotos_page_default (e : Mongo.Env) (limit : JS.param) (s : Mongo.Store) :
  Mongo.listPhotos e None limit s = Mongo.listPhotos e (Some (JS.QStr "1")) limit s
  /\ Mongo.listPhotos e (Some (JS.QStr "")) limit s = Mongo.listPhotos e (Some (JS.QStr "1")) limit s.
Proof. split; reflexivity. Qed.

Lemma listPhotos_limit_default (e : Mongo.Env) (page : JS.param) (s : Mongo.Store) :
  Mongo.listPhotos e page None s = Mongo.listPhotos e page (Some (JS.QStr "10")) s
  /\ Mongo.listPhotos e page (Some (JS.QStr "")) s = Mongo.listPhotos e page (Some (JS.QStr "10")) s.
Proof. split; reflexivity. Qed.


End ListDefaults.

(** In the relational variant [NaN] is written into the statement,
    which MySQL rejects. *)
Lemma listPhotos_NaN_sql (e : MySQL.Env) (page limit : JS.param) (s : MySQL.Store) :
  JS.parseInt (JS.or_default page "1") = JS.NaN
  \/ JS.parseInt (JS.or_default limit "10") = JS.NaN ->
  MySQL.listPhotos e page limit s = (MySQL.mkResponse 500 (MySQL.Error msg_server), s).
Proof.
  intros [H | H]; unfold MySQL.listPhotos; rewrite H.
  - destruct (JS.parseInt (JS.or_default limit "10")); reflexivity.
  - reflexivity.
Qed.




(** ** The authentication middleware *)

Lemma present_some (s : string) : s <> "" -> JS.present (Some s) = Some s.
Proof. destruct s; [congruence | reflexivity]. Qed.

Lemma present_falsy (x : JS.field) : JS.falsy x = true -> JS.present x = None.
Proof. destruct x as [[|c r]|]; simpl; congruence. Qed.

Lemma present_truthy (x : JS.field) (s : string) :
  JS.present x = Some s -> x = Some s /\ s <> "".
Proof.
  destruct x as [[|c r]|]; simpl; try discriminate.
  intros H; injection H as <-. split; [reflexivity | discriminate].
Qed.

Lemma append_snoc (cur a : string) (c : ascii) :
  (cur ++ String c "") ++ a = cur ++ String c a.
Proof. induction cur as [|d cur IH]; simpl; [reflexivity | now rewrite IH]. Qed.

Lemma append_empty (cur : string) : cur ++ "" = cur.
Proof. induction cur as [|d cur IH]; simpl; [reflexivity | now rewrite IH]. Qed.

Lemma split_space_aux_scheme (cur scheme rest : string) :
  no_space scheme = true ->
  JS.split_space_aux cur (scheme ++ String " " rest)
  = (cur ++ scheme) :: JS.split_space rest.
Proof.
  revert cur; induction scheme as [|c r IH]; intros cur H; simpl in *.
  - now rewrite append_empty.
  - apply andb_true_iff in H as [Hc Hr].
    apply negb_true_iff in Hc; rewrite Hc.
    rewrite IH by exact Hr. now rewrite append_snoc.
Qed.

(** The piece after the first space does not depend on what precedes
    that space. *)
Lemma split_space_scheme (scheme rest : string) :
  no_space scheme = true ->
  JS.split_space (scheme ++ String " " rest) = scheme :: JS.split_space rest.
Proof. intros H. unfold JS.split_space at 1. now rewrite split_space_aux_scheme. Qed.

Lemma split_space_token (token : string) :
  no_space token = true -> JS.split_space token = [token].
Proof.
  unfold JS.split_space.
  assert (G : forall cur, no_space token = true ->
                          JS.split_space_aux cur token = [cur ++ token]).
  { induction token as [|c r IH]; intros cur H; simpl in *.
    - now rewrite append_empty.
    - apply andb_true_iff in H as [Hc Hr].
      apply negb_true_iff in Hc; rewrite Hc.
      rewrite IH by exact Hr. now rewrite append_snoc. }
  intros H; now rewrite G.
Qed.

Section AuthFacts.
Variable UserId : Type.
Context {ext : Externals UserId}.

Lemma authRequired_next (now : Z) (authorization : JS.field) (userId : UserId) :
  authRequired now authorization = Next userId <->
  exists header token,
    authorization = Some header
    /\ nth_error (JS.split_space header) 1 = Some token
    /\ token <> ""
    /\ jwt_verify token now = Some userId.
Proof.
  unfold authRequired; split.
  - destruct (JS.present authorization) as [header|] eqn:Ea; [|discriminate].
    destruct (JS.present (nth_error _ 1)) as [token|] eqn:Et; [|discriminate].
    destruct (jwt_verify token now) as [u|] eqn:Ev; [|discriminate].
    intros H; injection H as ->.
    apply present_truthy in Ea as [-> _].
    apply present_truthy in Et as [Et Hne].
    exists header, token; auto.
  - intros [header [token [-> [Ht [Hne Hv]]]]].
    assert (Hh : header <> "") by (intros ->; discriminate).
    rewrite (present_some Hh), Ht, (present_some Hne), Hv.
    reflexivity.
Qed.

Lemma authRequired_scheme (now : Z) (scheme scheme' rest : string) :
  no_space scheme = true -> no_space scheme' = true ->
  authRequired now (Some (scheme ++ String " " rest))
  = authRequired now (Some (scheme' ++ String " " rest)).
Proof.
  intros H H'; unfold authRequired.
  assert (P : forall a, JS.present (Some (a ++ String " " rest))
                        = Some (a ++ String " " rest))
    by (intros a; apply present_some; destruct a; discriminate).
  now rewrite !P, !split_space_scheme.
Qed.

Lemma authRequired_any_scheme (now : Z) (scheme token : string) :
  no_space scheme = true -> no_space token = true -> token <> "" ->
  authRequired now (Some (scheme ++ String " " token))
  = match jwt_verify token now with
    | Some userId => Next userId
    | None => Rejected 401 msg_bad_token
    end.
Proof.
  intros Hs Ht Hne; unfold authRequired.
  rewrite present_some by (destruct scheme; discriminate).
  rewrite split_space_scheme, split_space_token by assumption.
  simpl nth_error. now rewrite (present_some Hne).
Qed.

Lemma authRequired_no_second_piece (now : Z) (scheme : string) :
  no_space scheme = true -> scheme <> "" ->
  authRequired now (Some scheme) = Rejected 401 msg_no_token.
Proof.
  intros Hs Hne; unfold authRequired.
  now rewrite (present_some Hne), split_space_token.
Qed.

End AuthFacts.

(** C10 as it is written fails: the header is cut at every single
    space character, not at white space.  With two spaces, or a tab,
    between the scheme and a token that verifies, the header has two
    parts separated by white space and the second one is a valid token,
    yet the middleware answers 401. *)
Lemma authRequired_white_space_rejected :
  let token := "jwt." ++ Sample.alice in
  let two_spaces := "Bearer  " ++ token in
  let tab := "Bearer" ++ String (ascii_of_nat 9) token in
  jwt_verify (Externals := Sample.mongo_ext) token 7000 = Some Sample.alice
  /\ ws_parts two_spaces = ["Bearer"; token]
  /\ authRequired (ext := Sample.mongo_ext) 7000 (Some two_spaces)
     = Rejected 401 msg_no_token
  /\ ws_parts tab = ["Bearer"; token]
  /\ authRequired (ext := Sample.mongo_ext) 7000 (Some tab)
     = Rejected 401 msg_no_token.
Proof. vm_compute. repeat split. Qed.

(** C10, amended.  The middleware never looks at the scheme: it lets a
    request through, with the user id of the token, exactly when the
    Authorization header, cut at every single space character, has a
    second piece that is not empty and verifies as a token; what stands
    before the first space does not matter, so "Basic" followed by one
    space and a valid token is accepted.  Every other request is
    answered 401: an absent header, a header without a space such as
    "Bearer", a token that does not verify; and a rejected request of a
    protected route gets that answer with the store unchanged, whatever
    the handler is. *)
Theorem authRequired_characterised :
  (forall (UserId : Type) (ext : Externals UserId) (now : Z),
    (forall authorization userId,
       authRequired now authorization = Next userId <->
       exists header token,
         authorization = Some header
         /\ nth_error (JS.split_space header) 1 = Some token
         /\ token <> ""
         /\ jwt_verify token now = Some userId)
    /\ (forall authorization st msg,
          authRequired now authorization = Rejected st msg -> st = 401)
    /\ (forall scheme scheme' rest,
          no_space scheme = true -> no_space scheme' = true ->
          authRequired now (Some (scheme ++ String " " rest))
          = authRequired now (Some (scheme' ++ String " " rest)))
    /\ (forall token,
          no_space token = true -> token <> "" ->
          authRequired now (Some ("Basic " ++ token))
          = match jwt_verify token now with
            | Some userId => Next userId
            | None => Rejected 401 msg_bad_token
            end)
    /\ authRequired now None = Rejected 401 msg_no_header
    /\ authRequired now (Some "Bearer") = Rejected 401 msg_no_token)
  /\
  (forall (ext : Externals Mongo.ObjectId) (e : Mongo.Env) (authorization : JS.field)
          (handler : Mongo.ObjectId -> Mongo.Store -> Mongo.response * Mongo.Store)
          (s : Mongo.Store) (st : Z) (msg : string),
     authRequired (Mongo.now e) authorization = Rejected st msg ->
     Mongo.protected e authorization handler s
     = (Mongo.mkResponse 401 (Mongo.Error msg), s))
  /\
  (forall (ext : Externals Z) (e : MySQL.Env) (authorization : JS.field)
          (handler : Z -> MySQL.Store -> MySQL.response * MySQL.Store)
          (s : MySQL.Store) (st : Z) (msg : string),
     authRequired (MySQL.now e) authorization = Rejected st msg ->
     MySQL.protected e authorization handler s
     = (MySQL.mkResponse 401 (MySQL.Error msg), s)).
Proof.
  split; [|split].
  - intros UserId ext now.
    split; [intros; apply authRequired_next|].
    split; [intros a st msg H; eapply authRequired_rejects_401; eauto|].
    split; [intros; now apply authRequired_scheme|].
    split; [|split; reflexivity].
    intros token Ht Hne.
    exact (authRequired_any_scheme (ext := ext) now "Basic" eq_refl Ht Hne).
  - intros ext e a handler s st msg H.
    pose proof (authRequired_rejects_401 _ _ _ H) as ->.
    unfold Mongo.protected; now rewrite H.
  - intros ext e a handler s st msg H.
    pose proof (authRequired_rejects_401 _ _ _ H) as ->.
    unfold MySQL.protected; now rewrite H.
Qed.

Lemma authRequired_characterised_witness :
  authRequired (ext := Sample.mongo_ext) 7000 (Some ("Basic jwt." ++ Sample.alice))
  = Next Sample.alice
  /\ authRequired (ext := Sample.sql_ext) 7000 (Some "Token jwt.2")
     = authRequired (ext := Sample.sql_ext) 7000 (Some "Bearer jwt.2")
  /\ authRequired (ext := Sample.sql_ext) 7000 (Some "Basic jwt.2") = Next 2
  /\ Mongo.protected (ext := Sample.mongo_ext) (Sample.menv 7000 "" "") (Some "Bearer")
       (Mongo.likePhoto (mg := Sample.mongoose) (Sample.menv 7000 "" "") Sample.sunset)
       Sample.mongo_store
     = (Mongo.mkResponse 401 (Mongo.Error msg_no_token), Sample.mongo_store)
  /\ MySQL.protected (ext := Sample.sql_ext) (Sample.senv 7000 "") (Some "Bearer jwt.9")
       (MySQL.likePhoto 1) Sample.sql_store
     = (MySQL.mkResponse 401 (MySQL.Error msg_bad_token), Sample.sql_store).
Proof.
  destruct authRequired_characterised as [HA [HM HS]].
  destruct (HA _ Sample.mongo_ext 7000) as [H1 _].
  destruct (HA _ Sample.sql_ext 7000) as [_ [_ [H3 [H4 _]]]].
  split; [|split; [|split; [|split]]].
  - apply H1. exists ("Basic jwt." ++ Sample.alice), ("jwt." ++ Sample.alice).
    repeat split; [discriminate].
  - apply (H3 "Token" "Bearer" "jwt.2"); reflexivity.
  - refine (eq_trans (H4 "jwt.2" eq_refl _) _); [discriminate | reflexivity].
  - apply (HM Sample.mongo_ext (Sample.menv 7000 "" "") (Some "Bearer") _ _ 401).
    reflexivity.
  - apply (HS Sample.sql_ext (Sample.senv 7000 "") (Some "Bearer jwt.9") _ _ 401).
    reflexivity.
Defined.

(** * Further properties of the handlers *)

(** ** What a request can change *)

(** Case analysis on every test a handler makes. *)
Ltac handler_cases :=
  repeat match goal with
         | |- context [if ?b then _ else _] => destruct b eqn:?
         | |- context [match ?x with _ => _ end] => destruct x eqn:?
         end;
  simpl; intros; try reflexivity; try lia.

Section MongoEffects.
Import Mongo.
Context {ext : Externals ObjectId} {cur : Cursor} {mg : Mongoose}.

Lemma protected_unchanged (e : Env) (a : JS.field)
    (handler : ObjectId -> Store -> response * Store) (s : Store) :
  (forall userId, 400 <= status (fst (handler userId s)) -> snd (handler userId s) = s) ->
  400 <= status (fst (protected e a handler s)) -> snd (protected e a handler s) = s.
Proof.
  intros Hh; unfold protected.
  destruct (authRequired (now e) a); simpl; auto.
Qed.

Lemma handle_failure_unchanged (e : Env) (r : request) (s : Store) :
  400 <= status (fst (handle e r s)) -> snd (handle e r s) = s.
Proof.
  destruct r; simpl.
  - unfold register, server_error, createUser. handler_cases.
  - intros _; apply login_unchanged.
  - apply protected_unchanged; intros userId.
    unfold uploadPhoto; destruct file; simpl; [lia | reflexivity].
  - intros _; apply listPhotos_unchanged.
  - intros _; apply getPhoto_unchanged.
  - apply protected_unchanged; intros userId.
    unfold likePhoto, server_error. handler_cases.
  - apply protected_unchanged; intros userId.
    unfold unlikePhoto, server_error. handler_cases.
  - apply protected_unchanged; intros userId.
    unfold createComment, server_error, createCommentDoc. handler_cases.
  - intros _; apply listComments_unchanged.
Qed.

Lemma handle_read_unchanged (e : Env) (r : request) (s : Store) :
  mongo_reads r = true -> snd (handle e r s) = s.
Proof.
  destruct r; simpl; try discriminate; intros _.
  - apply login_unchanged.
  - apply listPhotos_unchanged.
  - apply getPhoto_unchanged.
  - apply listComments_unchanged.
Qed.

End MongoEffects.

Section MySQLEffects.
Import MySQL.
Context {ext : Externals Z} {col : Collation} {par : Parameters}.

Lemma protected_unchanged_sql (e : Env) (a : JS.field)
    (handler : Z -> Store -> response * Store) (s : Store) :
  (forall userId, 400 <= status (fst (handler userId s)) -> snd (handler userId s) = s) ->
  400 <= status (fst (protected e a handler s)) -> snd (protected e a handler s) = s.
Proof.
  intros Hh; unfold protected.
  destruct (authRequired (now e) a); simpl; auto.
Qed.

Lemma handle_failure_unchanged_sql (e : Env) (r : request) (s : Store) :
  400 <= status (fst (handle e r s)) -> snd (handle e r s) = s.
Proof.
  destruct r; simpl.
  - unfold register, server_error, insertUser. handler_cases.
  - intros _; apply login_unchanged_sql.
  - apply protected_unchanged_sql; intros userId.
    unfold uploadPhoto; destruct file; simpl; [lia | reflexivity].
  - intros _; apply listPhotos_unchanged_sql.
  - intros _; apply getPhoto_unchanged_sql.
  - apply protected_unchanged_sql; intros userId.
    unfold likePhoto. destruct (selectPhoto photoId s); simpl; [reflexivity | lia].
  - apply protected_unchanged_sql; intros userId.
    unfold unlikePhoto; simpl; lia.
  - apply protected_unchanged_sql; intros userId.
    unfold createComment, server_error. handler_cases.
  - reflexivity.
Qed.

Lemma handle_read_unchanged_sql (e : Env) (r : request) (s : Store) :
  sql_reads r = true -> snd (handle e r s) = s.
Proof.
  destruct r; simpl; try discriminate; intros _.
  - apply login_unchanged_sql.
  - apply listPhotos_unchanged_sql.
  - apply getPhoto_unchanged_sql.
  - reflexivity.
Qed.

End MySQLEffects.

(** X1.  A request that is answered with an error status (400 and
    above: 400, 401, 404, 409, 500) leaves the store exactly as it was,
    on every route of both variants; and the three GET routes and the
    login leave it as it was whatever they answer. *)
Theorem failed_and_reading_requests_change_nothing :
  (forall (ext : Externals Mongo.ObjectId) (cur : Mongo.Cursor) (mg : Mongo.Mongoose)
          (e : Mongo.Env) (r : Mongo.request) (s : Mongo.Store),
     (400 <= Mongo.status (fst (Mongo.handle e r s)) -> snd (Mongo.handle e r s) = s)
     /\ (mongo_reads r = true -> snd (Mongo.handle e r s) = s))
  /\
  (forall (ext : Externals Z) (col : MySQL.Collation) (par : MySQL.Parameters)
          (e : MySQL.Env) (r : MySQL.request) (s : MySQL.Store),
     (400 <= MySQL.status (fst (MySQL.handle e r s)) -> snd (MySQL.handle e r s) = s)
     /\ (sql_reads r = true -> snd (MySQL.handle e r s) = s)).
Proof.
  split; intros; split.
  - apply handle_failure_unchanged.
  - apply handle_read_unchanged.
  - apply handle_failure_unchanged_sql.
  - apply handle_read_unchanged_sql.
Qed.

Lemma failed_and_reading_requests_change_nothing_witness :
  snd (Mongo.handle (ext := Sample.mongo_ext) (cur := Sample.cursor)
         (mg := Sample.mongoose) (Sample.menv 7000 "" "")
         (Mongo.PostLike (Some ("Bearer jwt." ++ Sample.alice)) "abc")
         Sample.mongo_store) = Sample.mongo_store
  /\ snd (Mongo.handle (ext := Sample.mongo_ext) (cur := Sample.cursor)
            (mg := Sample.mongoose) (Sample.menv 7000 "" "")
            (Mongo.GetPhotos (Some (JS.QStr "abc")) None)
            Sample.mongo_store) = Sample.mongo_store
  /\ snd (MySQL.handle (ext := Sample.sql_ext) (par := Sample.parameters)
            (Sample.senv 7000 "s")
            (MySQL.PostRegister (JS.Str "al") (JS.Str "a@x.com") (JS.Str "pw"))
            Sample.sql_store) = Sample.sql_store
  /\ snd (MySQL.handle (ext := Sample.sql_ext) (par := Sample.parameters)
            (Sample.senv 7000 "") (MySQL.PostLogin (JS.Str "alice") (JS.Str "pw123"))
            Sample.sql_store) = Sample.sql_store.
Proof.
  destruct failed_and_reading_requests_change_nothing as [HM HS].
  split; [|split; [|split]].
  - refine (proj1 (HM Sample.mongo_ext Sample.cursor Sample.mongoose _ _ _) _).
    vm_compute. discriminate.
  - refine (proj2 (HM Sample.mongo_ext Sample.cursor Sample.mongoose _ _ _) _).
    reflexivity.
  - refine (proj1 (HS Sample.sql_ext Sample.binary Sample.parameters _ _ _) _).
    vm_compute. discriminate.
  - refine (proj2 (HS Sample.sql_ext Sample.binary Sample.parameters _ _ _) _).
    reflexivity.
Defined.

(** ** Users, photos and comments are only ever added *)

Lemma save_photo_fixed (id : Mongo.ObjectId) (p p' : Mongo.Photo)
    (l : list Mongo.Photo) :
  find (fun q => String.eqb (Mongo.photo_id q) id) l = Some p ->
  photo_fixed p' = photo_fixed p ->
  map photo_fixed (Mongo.save_photo p' l) = map photo_fixed l.
Proof.
  intros Hf Hp.
  assert (Hid : Mongo.photo_id p' = id).
  { apply find_some in Hf as [_ Hf]. apply String.eqb_eq in Hf.
    unfold photo_fixed in Hp. congruence. }
  induction l as [|q r IH]; simpl in *; [reflexivity|].
  rewrite Hid.
  destruct (String.eqb (Mongo.photo_id q) id) eqn:E; simpl.
  - injection Hf as ->. now rewrite Hp.
  - f_equal; auto.
Qed.

Section MongoGrowth.
Import Mongo.
Context {ext : Externals ObjectId} {cur : Cursor} {mg : Mongoose}.

Lemma extends_refl (s : Store) : extends s s.
Proof. exists [], [], []; now rewrite !app_nil_r. Qed.

Lemma extends_trans (a b c : Store) : extends a b -> extends b c -> extends a c.
Proof.
  intros [us [ps [cs [Hu [Hp Hc]]]]] [us' [ps' [cs' [Hu' [Hp' Hc']]]]].
  exists (us ++ us')%list, (ps ++ ps')%list, (cs ++ cs')%list.
  rewrite Hu', Hp', Hc', Hu, Hp, Hc, !app_assoc. auto.
Qed.

Lemma effect_extends (s s' : Store) : mongo_effect s s' -> extends s s'.
Proof.
  intros He; destruct He as [|u|p Hp|e' photo userId Hf Hn|e' photo userId Hf|c photo Hf].
  - apply extends_refl.
  - exists [u], [], []; simpl; repeat split; now rewrite app_nil_r.
  - exists [], [photo_fixed p], []; simpl; rewrite map_app; repeat split;
      now rewrite app_nil_r.
  - exists [], [], []; simpl; rewrite !app_nil_r.
    split; [reflexivity | split; [|reflexivity]].
    eapply save_photo_fixed; [exact Hf | reflexivity].
  - exists [], [], []; simpl; rewrite !app_nil_r.
    split; [reflexivity | split; [|reflexivity]].
    eapply save_photo_fixed; [exact Hf | reflexivity].
  - exists [], [], [c]; simpl; repeat split; now rewrite app_nil_r.
Qed.

Lemma handle_extends (e : Env) (r : request) (s : Store) :
  extends s (snd (handle e r s)).
Proof. apply effect_extends, handle_effect. Qed.

Lemma run_extends (rs : list (Env * request)) (s : Store) :
  extends s (run rs s).
Proof.
  revert s; induction rs as [|[e r] rs IH]; intros s; simpl;
    [apply extends_refl|].
  eapply extends_trans; [apply handle_extends | apply IH].
Qed.

End MongoGrowth.

Section MySQLGrowth.
Import MySQL.
Context {ext : Externals Z} {col : Collation} {par : Parameters}.

Lemma extends_sql_refl (s : Store) : extends_sql s s.
Proof. exists [], [], []; now rewrite !app_nil_r. Qed.

Lemma extends_sql_trans (a b c : Store) :
  extends_sql a b -> extends_sql b c -> extends_sql a c.
Proof.
  intros [us [ps [cs [Hu [Hp Hc]]]]] [us' [ps' [cs' [Hu' [Hp' Hc']]]]].
  exists (us ++ us')%list, (ps ++ ps')%list, (cs ++ cs')%list.
  rewrite Hu', Hp', Hc', Hu, Hp, Hc, !app_assoc. auto.
Qed.

Lemma effect_extends_sql (ok : Z -> Prop) (s s' : Store) :
  sql_effect ok s s' -> extends_sql s s'.
Proof.
  intros He; destruct He.
  - apply extends_sql_refl.
  - eexists _, [], []; simpl; repeat split; now rewrite app_nil_r.
  - eexists [], _, []; simpl; repeat split; now rewrite app_nil_r.
  - unfold insertIgnoreLike; destruct (existsb _ _);
      exists [], [], []; simpl; now rewrite !app_nil_r.
  - exists [], [], []; simpl; now rewrite !app_nil_r.
  - eexists [], [], _; simpl; repeat split; now rewrite app_nil_r.
Qed.

Lemma handle_extends_sql (e : Env) (r : request) (s : Store) :
  extends_sql s (snd (handle e r s)).
Proof. exact (effect_extends_sql (handle_effect_sql e r s)). Qed.

Lemma run_extends_sql (rs : list (Env * request)) (s : Store) :
  extends_sql s (run rs s).
Proof.
  revert s; induction rs as [|[e r] rs IH]; intros s; simpl;
    [apply extends_sql_refl|].
  eapply extends_sql_trans; [apply handle_extends_sql | apply IH].
Qed.

End MySQLGrowth.

(** X2.  No sequence of requests removes or alters what is stored,
    except likes: after any requests the users and the comments of the
    store they started from are still there, unchanged and in the same
    positions, with new ones only after them; the photos are too, with
    the same id, owner, url, caption and creation time in the Mongo
    variant and as whole rows in the relational one. *)
Theorem stored_documents_are_kept :
  (forall (ext : Externals Mongo.ObjectId) (cur : Mongo.Cursor) (mg : Mongo.Mongoose)
          (rs : list (Mongo.Env * Mongo.request)) (s : Mongo.Store),
     exists us ps cs,
       Mongo.users (Mongo.run rs s) = (Mongo.users s ++ us)%list
       /\ map photo_fixed (Mongo.photos (Mongo.run rs s))
          = (map photo_fixed (Mongo.photos s) ++ ps)%list
       /\ Mongo.comments (Mongo.run rs s) = (Mongo.comments s ++ cs)%list)
  /\
  (forall (ext : Externals Z) (col : MySQL.Collation) (par : MySQL.Parameters)
          (rs : list (MySQL.Env * MySQL.request)) (s : MySQL.Store),
     exists us ps cs,
       MySQL.users (MySQL.run rs s) = (MySQL.users s ++ us)%list
       /\ MySQL.photos (MySQL.run rs s) = (MySQL.photos s ++ ps)%list
       /\ MySQL.comments (MySQL.run rs s) = (MySQL.comments s ++ cs)%list).
Proof.
  split; intros.
  - apply run_extends.
  - apply run_extends_sql.
Qed.

(** ** Credentials stay valid *)

(** A match stays a match, at the same position, when documents are
    added after the stored ones. *)
Lemma one_of_app (A : Type) (pick : nat) (m m' : list A) (u : A) :
  one_of pick m = Some u ->
  one_of (pick mod List.length m) (m ++ m') = Some u.
Proof.
  unfold one_of; intros H.
  assert (Hi : (pick mod List.length m < List.length m)%nat)
    by (apply nth_error_Some; congruence).
  rewrite Nat.mod_small by (rewrite length_app; lia).
  now rewrite nth_error_app1.
Qed.

Lemma login_ok_found (ext : Externals Mongo.ObjectId) (mg : Mongo.Mongoose)
    (e : Mongo.Env) (a b : JS.value) (s : Mongo.Store) :
  Mongo.status (fst (Mongo.login e a b s)) = 200 ->
  exists f p u,
    JS.falsy_value a || JS.falsy_value b = false
    /\ Mongo.castFilter a = Some f /\ b = JS.Str p
    /\ one_of (Mongo.pick e)
         (filter (fun u => f (Mongo.user_email u) || f (Mongo.user_username u))
                 (Mongo.users s)) = Some u
    /\ bcrypt_compare p (Mongo.user_passwordHash u) = true.
Proof.
  unfold Mongo.login, Mongo.server_error, Mongo.findUser.
  destruct (_ || _); [simpl; discriminate|].
  destruct (Mongo.castFilter a) as [f|]; [|simpl; discriminate].
  destruct (one_of _ _) as [u|] eqn:Hu; [|simpl; discriminate].
  destruct b; try (simpl; discriminate).
  destruct (bcrypt_compare _ _) eqn:Hc; [|simpl; discriminate].
  intros _. exists f, s0, u. repeat split; assumption || reflexivity.
Qed.

Lemma login_ok_found_sql (ext : Externals Z) (col : MySQL.Collation)
    (par : MySQL.Parameters) (e : MySQL.Env) (a b : JS.value) (s : MySQL.Store) :
  MySQL.status (fst (MySQL.login e a b s)) = 200 ->
  exists f g p u,
    JS.falsy_value a || JS.falsy_value b = false
    /\ MySQL.where_eq MySQL.col_email a = Some f
    /\ MySQL.where_eq MySQL.col_username a = Some g
    /\ b = JS.Str p
    /\ one_of (MySQL.pick e) (filter (fun u => f u || g u) (MySQL.users s)) = Some u
    /\ bcrypt_compare p (MySQL.u_password_hash u) = true.
Proof.
  unfold MySQL.login, MySQL.server_error, MySQL.selectUsers.
  destruct (_ || _); [simpl; discriminate|].
  destruct (MySQL.where_eq MySQL.col_email a) as [f|]; [|simpl; discriminate].
  destruct (MySQL.where_eq MySQL.col_username a) as [g|]; [|simpl; discriminate].
  destruct (one_of _ _) as [u|] eqn:Hu; [|simpl; discriminate].
  destruct b; try (simpl; discriminate).
  destruct (bcrypt_compare _ _) eqn:Hc; [|simpl; discriminate].
  intros _. exists f, g, s0, u. repeat split; assumption || reflexivity.
Qed.

(** X3.  A login that succeeds stays possible: when [login] answers 200
    for an identifier and a password in some store, then after any
    further sequence of requests the user is still among the matches of
    the identifier, at the same place and with the same hash, so the
    same answer (the same user, and the same token when issued at the
    same time) is given whenever the database returns that match again.
    No route changes a password or removes a user.  (Which match the
    database returns is its choice: a later user whose e-mail address
    is the older user's name matches the identifier too.) *)
Theorem login_success_is_stable :
  (forall (ext : Externals Mongo.ObjectId) (cur : Mongo.Cursor) (mg : Mongo.Mongoose)
          (e : Mongo.Env) (emailOrUsername password : JS.value) (s : Mongo.Store),
     Mongo.status (fst (Mongo.login e emailOrUsername password s)) = 200 ->
     exists pick,
       forall rs : list (Mongo.Env * Mongo.request),
         fst (Mongo.login (mongo_with_pick e pick) emailOrUsername password
                (Mongo.run rs s))
         = fst (Mongo.login e emailOrUsername password s))
  /\
  (forall (ext : Externals Z) (col : MySQL.Collation) (par : MySQL.Parameters)
          (e : MySQL.Env) (emailOrUsername password : JS.value) (s : MySQL.Store),
     MySQL.status (fst (MySQL.login e emailOrUsername password s)) = 200 ->
     exists pick,
       forall rs : list (MySQL.Env * MySQL.request),
         fst (MySQL.login (sql_with_pick e pick) emailOrUsername password
                (MySQL.run rs s))
         = fst (MySQL.login e emailOrUsername password s)).
Proof.
  split.
  - intros ext cur mg e a b s H.
    destruct (@login_ok_found ext mg e a b s H) as [f [p [u [Hab [Hf [-> [Hu Hc]]]]]]].
    eexists; intros rs.
    destruct (run_extends rs s) as [us [_ [_ [Hus _]]]].
    unfold Mongo.login, Mongo.findUser.
    rewrite Hab, Hf, Hu, Hc, Hus, filter_app.
    cbn [mongo_with_pick Mongo.pick Mongo.now].
    rewrite (one_of_app _ _ _ Hu), Hc. reflexivity.
  - intros ext col par e a b s H.
    destruct (@login_ok_found_sql ext col par e a b s H) as [f [g [p [u [Hab [Hf [Hg [-> [Hu Hc]]]]]]]]].
    eexists; intros rs.
    destruct (run_extends_sql rs s) as [us [_ [_ [Hus _]]]].
    unfold MySQL.login, MySQL.selectUsers.
    rewrite Hab, Hf, Hg, Hu, Hc, Hus, filter_app.
    cbn [sql_with_pick MySQL.pick MySQL.now].
    rewrite (one_of_app _ _ _ Hu), Hc. reflexivity.
Qed.

Lemma login_success_is_stable_witness :
  (exists pick,
     fst (Mongo.login (ext := Sample.mongo_ext) (mg := Sample.mongoose)
            (mongo_with_pick (Sample.menv 9000 "" "") pick)
            (JS.Str "alice") (JS.Str "pw123") Sample.mongo_gallery)
     = Mongo.mkResponse 200
         (Mongo.Session ("jwt." ++ Sample.alice) Sample.alice "alice" "a@x.com"))
  /\ (exists pick,
        fst (MySQL.login (ext := Sample.sql_ext) (par := Sample.parameters)
               (sql_with_pick (Sample.senv 9000 "") pick)
               (JS.Str "b@x.com") (JS.Str "pw456") Sample.sql_gallery)
        = MySQL.mkResponse 200 (MySQL.Session "jwt.2" 2 "bob" "b@x.com")).
Proof.
  destruct login_success_is_stable as [HM HS].
  split.
  - destruct (HM Sample.mongo_ext Sample.cursor Sample.mongoose (Sample.menv 9000 "" "")
                 (JS.Str "alice") (JS.Str "pw123") Sample.mongo_store eq_refl)
      as [pick Hp].
    exists pick.
    replace Sample.mongo_gallery
      with (Mongo.run (ext := Sample.mongo_ext) (cur := Sample.cursor)
              (mg := Sample.mongoose) Sample.mongo_gallery_requests Sample.mongo_store)
      by (vm_compute; reflexivity).
    rewrite Hp. reflexivity.
  - destruct (HS Sample.sql_ext Sample.binary Sample.parameters (Sample.senv 9000 "")
                 (JS.Str "b@x.com") (JS.Str "pw456") Sample.sql_store eq_refl)
      as [pick Hp].
    exists pick.
    replace Sample.sql_gallery
      with (MySQL.run (ext := Sample.sql_ext) (par := Sample.parameters)
              Sample.sql_gallery_requests Sample.sql_store)
      by (vm_compute; reflexivity).
    rewrite Hp. reflexivity.
Defined.

(** ** Identities are unique *)

Lemma identities_unique_snoc (A : Type) (username email : A -> string)
    (l : list A) (x : A) :
  identities_unique username email l ->
  username x <> "" -> email x <> "" ->
  (forall u, In u l -> username u <> username x /\ email u <> email x) ->
  identities_unique username email (l ++ [x]).
Proof.
  intros [Hn [Hm Hf]] Hx Hy Hnew. split; [|split].
  - rewrite map_app; simpl. apply NoDup_snoc; [exact Hn|].
    intros Hin. apply in_map_iff in Hin as [u [Eu Hin]].
    destruct (Hnew u Hin) as [H _]. contradiction.
  - rewrite map_app; simpl. apply NoDup_snoc; [exact Hm|].
    intros Hin. apply in_map_iff in Hin as [u [Eu Hin]].
    destruct (Hnew u Hin) as [_ H]. contradiction.
  - apply Forall_app; split; [exact Hf|]. repeat constructor; assumption.
Qed.

Lemma textual_string (v : JS.value) :
  textual v = true -> JS.falsy_value v = false -> exists s, v = JS.Str s /\ s <> "".
Proof.
  destruct v; simpl; intros H1 H2; try congruence.
  exists s; split; [reflexivity | now apply truthy_str].
Qed.

Section MongoIdentities.
Import Mongo.
Context {ext : Externals ObjectId} {cur : Cursor} {mg : Mongoose}.

Lemma effect_identities (s s' : Store) :
  mongo_effect s s' ->
  identities_unique user_username user_email (users s) ->
  identities_unique user_username user_email (users s').
Proof.
  intros He Hs; destruct He; simpl; try exact Hs.
  now apply identities_unique_snoc.
Qed.

Lemma reachable_identities (s : Store) :
  reachable s -> identities_unique user_username user_email (users s).
Proof.
  induction 1 as [|s e r _ IH]; [repeat constructor|].
  exact (effect_identities (handle_effect e r s) IH).
Qed.

End MongoIdentities.

Section MySQLIdentities.
Import MySQL.
Context {ext : Externals Z} {col : Collation} {par : Parameters}.

Lemma register_identities_sql (e : Env) (username email password : JS.value)
    (s : Store) :
  textual username = true -> textual email = true ->
  identities_unique u_username u_email (users s) ->
  identities_unique u_username u_email
    (users (snd (register e username email password s))).
Proof.
  intros Tn Tm Hs; unfold register, server_error.
  destruct (JS.falsy_value username) eqn:Fn; [exact Hs|].
  destruct (JS.falsy_value email) eqn:Fm; [exact Hs|].
  destruct (JS.falsy_value password); [exact Hs|]; simpl.
  destruct (textual_string _ Tn Fn) as [n [-> Hn]].
  destruct (textual_string _ Tm Fm) as [m [-> Hm]].
  rewrite selectUsers_strings.
  destruct (filter _ (users s)) as [|y r] eqn:Hsel; [|exact Hs].
  destruct password; try exact Hs.
  unfold insertUser; rewrite !insert_text_string; simpl.
  apply identities_unique_snoc; simpl; auto.
  intros u Hin.
  assert (Hu : sql_eq (u_email u) m || sql_eq (u_username u) n = false).
  { destruct (sql_eq (u_email u) m || sql_eq (u_username u) n) eqn:E; [|reflexivity].
    assert (Hin' : In u (filter (fun u => sql_eq (u_email u) m || sql_eq (u_username u) n)
                                (users s))) by (apply filter_In; auto).
    rewrite Hsel in Hin'; contradiction. }
  apply orb_false_iff in Hu as [H1 H2].
  split; intros Heq; rewrite Heq, sql_eq_refl in *; discriminate.
Qed.

Lemma handle_identities_sql (e : Env) (r : request) (s : Store) :
  register_textual r = true ->
  identities_unique u_username u_email (users s) ->
  identities_unique u_username u_email (users (snd (handle e r s))).
Proof.
  intros Ht Hs.
  assert (K : forall handler a,
             (forall userId, users (snd (handler userId s)) = users s) ->
             identities_unique u_username u_email
               (users (snd (protected e a handler s)))).
  { intros handler a Hh; unfold protected.
    destruct (authRequired (now e) a); simpl; [exact Hs | now rewrite Hh]. }
  destruct r.
  - simpl in Ht; apply andb_true_iff in Ht as [Tn Tm].
    now apply register_identities_sql.
  - simpl; now rewrite login_unchanged_sql.
  - apply K; intros userId. unfold uploadPhoto; now destruct file.
  - simpl; now rewrite listPhotos_unchanged_sql.
  - simpl; now rewrite getPhoto_unchanged_sql.
  - apply K; intros userId. unfold likePhoto.
    destruct (selectPhoto photoId s); [reflexivity|].
    unfold insertIgnoreLike. now destruct (existsb _ _).
  - apply K; intros userId. reflexivity.
  - apply K; intros userId. unfold createComment, server_error.
    destruct (JS.falsy_value text); [reflexivity|].
    destruct (selectPhoto photoId s); [reflexivity|].
    now destruct (insert_text text).
  - exact Hs.
Qed.

Lemma run_identities_sql (rs : list (Env * request)) (s : Store) :
  forallb (fun er => register_textual (snd er)) rs = true ->
  identities_unique u_username u_email (users s) ->
  identities_unique u_username u_email (users (run rs s)).
Proof.
  revert s; induction rs as [|[e r] rs IH]; intros s Ht Hs; simpl; [exact Hs|].
  simpl in Ht; apply andb_true_iff in Ht as [Hr Ht].
  apply IH; [exact Ht|]. now apply handle_identities_sql.
Qed.

End MySQLIdentities.

(** X4.  No two users have the same user name, no two have the same
    e-mail address, and every user has a non-empty user name and e-mail
    address: in every store the Mongo variant reaches, whatever JSON
    values the requests carry (the schema's [required] and [unique]
    stand behind the lookup that [register] makes); and in every store
    the relational variant reaches from the empty one by requests whose
    registrations carry strings as user name and e-mail address, where
    the lookup of [register] alone keeps it. *)
Theorem usernames_and_emails_unique :
  (forall (ext : Externals Mongo.ObjectId) (cur : Mongo.Cursor) (mg : Mongo.Mongoose)
          (s : Mongo.Store),
     Mongo.reachable s ->
     NoDup (map Mongo.user_username (Mongo.users s))
     /\ NoDup (map Mongo.user_email (Mongo.users s))
     /\ Forall (fun u => Mongo.user_username u <> "" /\ Mongo.user_email u <> "")
               (Mongo.users s))
  /\
  (forall (ext : Externals Z) (col : MySQL.Collation) (par : MySQL.Parameters)
          (rs : list (MySQL.Env * MySQL.request)),
     forallb (fun er => register_textual (snd er)) rs = true ->
     let s := MySQL.run rs MySQL.empty in
     NoDup (map MySQL.u_username (MySQL.users s))
     /\ NoDup (map MySQL.u_email (MySQL.users s))
     /\ Forall (fun u => MySQL.u_username u <> "" /\ MySQL.u_email u <> "")
               (MySQL.users s)).
Proof.
  split; intros.
  - now apply reachable_identities.
  - apply run_identities_sql; [assumption | repeat constructor].
Qed.

Lemma usernames_and_emails_unique_witness :
  NoDup (map Mongo.user_email (Mongo.users Sample.mongo_liked))
  /\ NoDup (map MySQL.u_username (MySQL.users Sample.sql_gallery)).
Proof.
  destruct usernames_and_emails_unique as [HM HS].
  split.
  - apply (HM Sample.mongo_ext Sample.cursor Sample.mongoose _
              sample_mongo_liked_reachable).
  - replace Sample.sql_gallery
      with (MySQL.run (ext := Sample.sql_ext) (par := Sample.parameters)
              (Sample.sql_requests ++ Sample.sql_gallery_requests) MySQL.empty)
      by (vm_compute; reflexivity).
    apply (HS Sample.sql_ext Sample.binary Sample.parameters). reflexivity.
Defined.

(** ** Registration, then login *)

Lemma filter_app_new (A : Type) (f : A -> bool) (l : list A) (x : A) :
  (forall u, In u l -> f u = false) -> f x = true ->
  filter f (l ++ [x]) = [x].
Proof.
  intros Hl Hx. rewrite filter_app; simpl; rewrite Hx.
  assert (E : filter f l = []).
  { induction l as [|a t IH]; simpl; [reflexivity|].
    rewrite (Hl a (or_introl eq_refl)). apply IH; intros u Hu; apply Hl; now right. }
  now rewrite E.
Qed.

Lemma filter_nil_false (A : Type) (f : A -> bool) (l : list A) (x : A) :
  filter f l = [] -> In x l -> f x = false.
Proof.
  intros Hf Hin. destruct (f x) eqn:E; [|reflexivity].
  exfalso; exact (filter_in_true f l x Hin E Hf).
Qed.

(** X5.  Registration and login compose: after a registration that is
    answered 201, a login with the new e-mail address and the same
    password is answered 200 with a token for the new user and the
    user's id, user name and e-mail address, provided bcrypt verifies a
    password against its own hash and no older user has that e-mail
    address as user name (the lookup of [login] would match the older
    user too); with a password that does not verify against the new
    hash the answer is 401.  User name, e-mail address and passwords
    are strings. *)
Theorem register_then_login :
  (forall (ext : Externals Mongo.ObjectId) (mg : Mongo.Mongoose) (e e' : Mongo.Env)
          (username email password wrong : string) (s : Mongo.Store),
     Mongo.status (fst (Mongo.register e (JS.Str username) (JS.Str email)
                                       (JS.Str password) s)) = 201 ->
     bcrypt_compare password (bcrypt_hash password 10 (Mongo.salt e)) = true ->
     (forall u, In u (Mongo.users s) -> Mongo.user_username u <> email) ->
     password <> "" -> wrong <> "" ->
     bcrypt_compare wrong (bcrypt_hash password 10 (Mongo.salt e)) = false ->
     let s' := snd (Mongo.register e (JS.Str username) (JS.Str email)
                                   (JS.Str password) s) in
     Mongo.login e' (JS.Str email) (JS.Str password) s'
     = (Mongo.mkResponse 200
          (Mongo.Session (jwt_sign (Mongo.fresh e) (Mongo.now e'))
                         (Mongo.fresh e) username email), s')
     /\ Mongo.login e' (JS.Str email) (JS.Str wrong) s'
        = (Mongo.mkResponse 401 (Mongo.Error msg_bad_credentials), s'))
  /\
  (forall (ext : Externals Z) (col : MySQL.Collation) (par : MySQL.Parameters)
          (e e' : MySQL.Env)
          (username email password wrong : string) (s : MySQL.Store),
     MySQL.status (fst (MySQL.register e (JS.Str username) (JS.Str email)
                                       (JS.Str password) s)) = 201 ->
     bcrypt_compare password (bcrypt_hash password 10 (MySQL.salt e)) = true ->
     (forall u, In u (MySQL.users s) -> MySQL.sql_eq (MySQL.u_username u) email = false) ->
     password <> "" -> wrong <> "" ->
     bcrypt_compare wrong (bcrypt_hash password 10 (MySQL.salt e)) = false ->
     let s' := snd (MySQL.register e (JS.Str username) (JS.Str email)
                                   (JS.Str password) s) in
     MySQL.login e' (JS.Str email) (JS.Str password) s'
     = (MySQL.mkResponse 200
          (MySQL.Session (jwt_sign (MySQL.next_user_id s) (MySQL.now e'))
                         (MySQL.next_user_id s) username email), s')
     /\ MySQL.login e' (JS.Str email) (JS.Str wrong) s'
        = (MySQL.mkResponse 401 (MySQL.Error msg_bad_credentials), s')).
Proof.
  split.
  - intros ext mg e e' n m p w s H201 Hc Hold Hp Hw Hcw.
    intros s'; subst s'.
    pose proof (falsy_str Hp) as Fp. pose proof (falsy_str Hw) as Fw.
    unfold Mongo.register, Mongo.server_error in *.
    destruct (JS.falsy_value (JS.Str n)) eqn:Fn; [simpl in H201; discriminate|].
    destruct (JS.falsy_value (JS.Str m)) eqn:Fm; [simpl in H201; discriminate|].
    rewrite Fp in *. cbn [orb] in *.
    rewrite findUser_strings in *.
    destruct (one_of _ _) eqn:Hone; [simpl in H201; discriminate|].
    apply one_of_none in Hone.
    unfold Mongo.createUser in *. rewrite !Mongo.castString_string in *.
    destruct (_ && _); [|simpl in H201; discriminate].
    cbn [snd Mongo.user_id Mongo.user_username Mongo.user_email].
    unfold Mongo.login. rewrite Fm, Fp, Fw. cbn [orb].
    rewrite findUser_strings. cbn [Mongo.users].
    rewrite filter_app_new.
    + rewrite one_of_single. cbn [Mongo.user_passwordHash Mongo.user_id
                                   Mongo.user_username Mongo.user_email].
      rewrite Hc, Hcw. split; reflexivity.
    + intros u Hin.
      pose proof (filter_nil_false _ _ u Hone Hin) as Hu; simpl in Hu.
      apply orb_false_iff in Hu as [H1 _]. rewrite H1; simpl.
      apply String.eqb_neq. intros E; symmetry in E. now apply (Hold u Hin).
    + simpl. now rewrite String.eqb_refl.
  - intros ext col par e e' n m p w s H201 Hc Hold Hp Hw Hcw.
    intros s'; subst s'.
    pose proof (falsy_str Hp) as Fp. pose proof (falsy_str Hw) as Fw.
    unfold MySQL.register, MySQL.server_error in *.
    destruct (JS.falsy_value (JS.Str n)) eqn:Fn; [simpl in H201; discriminate|].
    destruct (JS.falsy_value (JS.Str m)) eqn:Fm; [simpl in H201; discriminate|].
    rewrite Fp in *. cbn [orb] in *.
    rewrite selectUsers_strings in *.
    destruct (filter _ (MySQL.users s)) eqn:Hsel; [|simpl in H201; discriminate].
    unfold MySQL.insertUser in *. rewrite !MySQL.insert_text_string in *.
    cbn [snd].
    unfold MySQL.login. rewrite Fm, Fp, Fw. cbn [orb].
    rewrite selectUsers_strings. cbn [MySQL.users].
    rewrite filter_app_new.
    + rewrite one_of_single. cbn [MySQL.u_password_hash MySQL.u_id
                                   MySQL.u_username MySQL.u_email].
      rewrite Hc, Hcw. split; reflexivity.
    + intros u Hin.
      rewrite (Hold u Hin), orb_false_r.
      pose proof (filter_nil_false _ _ u Hsel Hin) as Hu; simpl in Hu.
      now apply orb_false_iff in Hu as [H1 _].
    + simpl. now rewrite MySQL.sql_eq_refl.
Qed.

Lemma register_then_login_witness :
  Mongo.status
    (fst (Mongo.login (ext := Sample.mongo_ext) (mg := Sample.mongoose)
            (Sample.menv 8000 "" "")
            (JS.Str "c@x.com") (JS.Str "pw789")
            (snd (Mongo.register (ext := Sample.mongo_ext) (mg := Sample.mongoose)
                    (Sample.menv 7000 Sample.nowhere "s3")
                    (JS.Str "carol") (JS.Str "c@x.com") (JS.Str "pw789")
                    Sample.mongo_store)))) = 200
  /\ MySQL.status
       (fst (MySQL.login (ext := Sample.sql_ext) (par := Sample.parameters)
               (Sample.senv 8000 "") (JS.Str "c@x.com") (JS.Str "nope")
               (snd (MySQL.register (ext := Sample.sql_ext) (par := Sample.parameters)
                       (Sample.senv 7000 "s3")
                       (JS.Str "carol") (JS.Str "c@x.com") (JS.Str "pw789")
                       Sample.sql_store)))) = 401.
Proof.
  destruct register_then_login as [HM HS].
  split.
  - destruct (HM Sample.mongo_ext Sample.mongoose (Sample.menv 7000 Sample.nowhere "s3")
                 (Sample.menv 8000 "" "") "carol" "c@x.com" "pw789" "nope"
                 Sample.mongo_store) as [E _];
      [ reflexivity | reflexivity | | discriminate | discriminate | reflexivity
      | rewrite E; reflexivity ].
    intros u Hu. vm_compute in Hu.
    repeat (destruct Hu as [<- | Hu]; [discriminate|]); contradiction.
  - destruct (HS Sample.sql_ext Sample.binary Sample.parameters (Sample.senv 7000 "s3")
                 (Sample.senv 8000 "") "carol" "c@x.com" "pw789" "nope"
                 Sample.sql_store) as [_ E];
      [ reflexivity | reflexivity | | discriminate | discriminate | reflexivity
      | rewrite E; reflexivity ].
    intros u Hu. vm_compute in Hu.
    repeat (destruct Hu as [<- | Hu]; [reflexivity|]); contradiction.
Defined.

(** ** What a like and an unlike do *)

Lemma find_save_other (id : Mongo.ObjectId) (p' : Mongo.Photo) (l : list Mongo.Photo) :
  Mongo.photo_id p' <> id ->
  find (fun q => String.eqb (Mongo.photo_id q) id) (Mongo.save_photo p' l)
  = find (fun q => String.eqb (Mongo.photo_id q) id) l.
Proof.
  intros Hne; induction l as [|q r IH]; simpl; [reflexivity|].
  destruct (String.eqb (Mongo.photo_id q) (Mongo.photo_id p')) eqn:E; simpl.
  - apply String.eqb_eq in E.
    apply String.eqb_neq in Hne. now rewrite E, Hne.
  - now rewrite IH.
Qed.

(** A request for another photo finds it as before a save. *)
Lemma findById_other (mg : Mongo.Mongoose) (id id' : string) (s : Mongo.Store)
    (photo photo' : Mongo.Photo) :
  Mongo.findById id s = JS.Returns (Some photo) ->
  Mongo.photo_id photo' = Mongo.photo_id photo ->
  Mongo.findById id' s <> JS.Returns (Some photo) ->
  Mongo.findById id' (Mongo.set_photos s (Mongo.save_photo photo' (Mongo.photos s)))
  = Mongo.findById id' s.
Proof.
  intros Hf Hid Hne. unfold Mongo.findById in *.
  destruct (Mongo.castObjectId id) as [_id|]; [|discriminate].
  destruct (Mongo.castObjectId id') as [_id'|]; [|reflexivity].
  injection Hf as Hf. f_equal.
  pose proof (photoOf_id _ _ Hf) as E.
  unfold Mongo.photoOf at 1; simpl.
  apply find_save_other. rewrite Hid. intros E'.
  apply Hne. f_equal. rewrite <- E', E. exact Hf.
Qed.

Lemma filter_out_snoc (u : string) (l : list string) :
  ~ In u l -> filter (fun v => negb (String.eqb v u)) (l ++ [u]) = l.
Proof.
  intros Hn. rewrite filter_app; simpl. rewrite String.eqb_refl; simpl.
  rewrite app_nil_r. apply filter_none_liked.
  now apply existsb_eqb_false_not_in.
Qed.

Lemma filter_out_length (A : Type) (keep : A -> bool) (x : A) (l : list A) :
  (forall y, keep y = false <-> y = x) ->
  NoDup l -> In x l -> S (List.length (filter keep l)) = List.length l.
Proof.
  intros Hk Hn; induction Hn as [|a t Ha Ht IH]; intros Hin; [contradiction|].
  simpl. destruct (keep a) eqn:E.
  - destruct Hin as [-> | Hin].
    + assert (keep x = false) by now apply Hk. congruence.
    + simpl. f_equal. now apply IH.
  - apply Hk in E; subst a. f_equal. f_equal.
    apply filter_keep_all. intros y Hy.
    destruct (keep y) eqn:Ey; [reflexivity|].
    apply Hk in Ey; subst; contradiction.
Qed.

(** X6.  A like on a photo that exists puts the user among the likes
    of that photo and only there: the answer is 200 with the number of
    likes the photo has afterwards, which is the old number when the
    user had liked it already and one more otherwise; in the first case
    nothing is stored, in the second the photo is saved with the user
    appended to its likes and with the [updatedAt] and [__v] the save
    gives it; the photo's other fields, every other photo, the users
    and the comments are as before. *)
Theorem like_adds_one_like :
  (forall (mg : Mongo.Mongoose) (e : Mongo.Env) (id : string)
          (userId : Mongo.ObjectId) (s : Mongo.Store) (photo : Mongo.Photo),
     Mongo.findById id s = JS.Returns (Some photo) ->
     let out := Mongo.likePhoto e id userId s in
     exists photo',
       Mongo.findById id (snd out) = JS.Returns (Some photo')
       /\ photo_fixed photo' = photo_fixed photo
       /\ In userId (Mongo.photo_likes photo')
       /\ (In userId (Mongo.photo_likes photo) ->
           Mongo.photo_likes photo' = Mongo.photo_likes photo
           /\ photo' = photo /\ snd out = s)
       /\ (~ In userId (Mongo.photo_likes photo) ->
           Mongo.photo_likes photo' = (Mongo.photo_likes photo ++ [userId])%list
           /\ (Mongo.photo_updatedAt photo', Mongo.photo_v photo')
              = Mongo.stamp (Mongo.now e) photo (Mongo.photo_likes photo ++ [userId]))
       /\ fst out = Mongo.mkResponse 200
                      (Mongo.Likes (List.length (Mongo.photo_likes photo')))
       /\ (forall id', Mongo.findById id' s <> JS.Returns (Some photo) ->
             Mongo.findById id' (snd out) = Mongo.findById id' s)
       /\ Mongo.users (snd out) = Mongo.users s
       /\ Mongo.comments (snd out) = Mongo.comments s)
  /\
  (forall (photoId userId : Z) (s : MySQL.Store),
     MySQL.selectPhoto photoId s <> [] ->
     let out := MySQL.likePhoto photoId userId s in
     In (MySQL.mkLikeRow photoId userId) (MySQL.photo_likes (snd out))
     /\ (In (MySQL.mkLikeRow photoId userId) (MySQL.photo_likes s) -> snd out = s)
     /\ (~ In (MySQL.mkLikeRow photoId userId) (MySQL.photo_likes s) ->
         MySQL.photo_likes (snd out)
         = (MySQL.photo_likes s ++ [MySQL.mkLikeRow photoId userId])%list
         /\ MySQL.countLikes photoId (snd out) = S (MySQL.countLikes photoId s))
     /\ fst out = MySQL.mkResponse 200 (MySQL.Likes (MySQL.countLikes photoId (snd out)))
     /\ (forall photoId', photoId' <> photoId ->
           MySQL.countLikes photoId' (snd out) = MySQL.countLikes photoId' s)
     /\ MySQL.users (snd out) = MySQL.users s
     /\ MySQL.photos (snd out) = MySQL.photos s
     /\ MySQL.comments (snd out) = MySQL.comments s).
Proof.
  split.
  - intros mg e id userId s photo Hf out; subst out.
    destruct (likePhoto_found e id userId s Hf) as [[Hl ->] | [Hl ->]].
    + assert (Hin : In userId (Mongo.photo_likes photo)).
      { destruct (in_dec string_dec userId (Mongo.photo_likes photo)) as [H|H]; [exact H|].
        apply existsb_eqb_false_not_in in H. congruence. }
      exists photo; simpl. repeat split; intros; try contradiction; auto.
    + apply existsb_eqb_false_not_in in Hl.
      exists (Mongo.with_likes e photo (Mongo.photo_likes photo ++ [userId])).
      cbn [fst snd].
      split; [|split; [|split; [|split; [|split; [|split; [|split]]]]]].
      * apply (findById_saved id s (photo := photo)); [exact Hf | apply with_likes_id].
      * reflexivity.
      * rewrite with_likes_likes. apply in_or_app; right; now left.
      * intros; contradiction.
      * intros _. rewrite with_likes_likes. split; [reflexivity|].
        unfold Mongo.with_likes; simpl. now destruct (Mongo.stamp _ _ _).
      * now rewrite with_likes_likes.
      * intros id' Hne.
        eapply findById_other; [exact Hf | apply with_likes_id | exact Hne].
      * split; reflexivity.
  - intros photoId userId s Hp out; subst out.
    unfold MySQL.likePhoto.
    destruct (MySQL.selectPhoto photoId s); [congruence|]; simpl.
    unfold MySQL.insertIgnoreLike.
    destruct (existsb (MySQL.same_like photoId userId) (MySQL.photo_likes s)) eqn:E.
    + assert (Hin : In (MySQL.mkLikeRow photoId userId) (MySQL.photo_likes s)).
      { apply existsb_exists in E as [r [Hr Er]].
        apply same_like_spec in Er; now subst. }
      repeat split; intros; try contradiction; auto.
    + apply existsb_same_like_false in E. simpl.
      split; [apply in_or_app; right; now left|].
      split; [intros; contradiction|].
      split; [intros _; split; [reflexivity|]|].
      * unfold MySQL.countLikes; simpl.
        rewrite filter_app, length_app; simpl. rewrite Z.eqb_refl; simpl. lia.
      * split; [reflexivity|]. split; [|repeat split].
        intros photoId' Hne. unfold MySQL.countLikes; simpl.
        rewrite filter_app, length_app; simpl.
        destruct (Z.eqb_spec photoId photoId'); [congruence | simpl; lia].
Qed.

Lemma like_adds_one_like_witness :
  (exists photo',
     Mongo.findById (mg := Sample.mongoose) Sample.sunset
       (snd (Mongo.likePhoto (mg := Sample.mongoose) (Sample.menv 4000 "" "")
               Sample.sunset Sample.bob Sample.mongo_store))
     = JS.Returns (Some photo')
     /\ In Sample.bob (Mongo.photo_likes photo'))
  /\ In (MySQL.mkLikeRow 1 2)
        (MySQL.photo_likes (snd (MySQL.likePhoto 1 2 Sample.sql_store))).
Proof.
  destruct like_adds_one_like as [HM HS].
  split.
  - destruct (HM Sample.mongoose (Sample.menv 4000 "" "") Sample.sunset Sample.bob
                 Sample.mongo_store
                 (Mongo.mkPhoto Sample.sunset Sample.alice
                    "/uploads/image-3000-17.png" (Some "sunset") [] 3000 3000 0) eq_refl)
      as [photo' [H1 [_ [H3 _]]]].
    exists photo'; auto.
  - apply (HS 1 2 Sample.sql_store). vm_compute; discriminate.
Defined.

Lemma unlikePhoto_found (mg : Mongo.Mongoose) (e : Mongo.Env) (id : string)
    (userId : Mongo.ObjectId) (s : Mongo.Store) (photo : Mongo.Photo) :
  Mongo.findById id s = JS.Returns (Some photo) ->
  let photo' := Mongo.with_likes e photo
                  (filter (fun u => negb (String.eqb u userId))
                          (Mongo.photo_likes photo)) in
  Mongo.unlikePhoto e id userId s
  = (Mongo.mkResponse 200 (Mongo.Likes (List.length (Mongo.photo_likes photo'))),
     Mongo.set_photos s (Mongo.save_photo photo' (Mongo.photos s)))
  /\ Mongo.findById id (Mongo.set_photos s (Mongo.save_photo photo' (Mongo.photos s)))
     = JS.Returns (Some photo').
Proof.
  intros Hf photo'; split.
  - unfold Mongo.unlikePhoto; now rewrite Hf.
  - eapply findById_saved; [exact Hf | apply with_likes_id].
Qed.

Lemma not_in_filter_out (u : string) (l : list string) :
  ~ In u (filter (fun v => negb (String.eqb v u)) l).
Proof.
  intros Hin. apply filter_In in Hin as [_ Hin].
  now rewrite String.eqb_refl in Hin.
Qed.

Lemma unlikePhoto_again (mg : Mongo.Mongoose) (e e' : Mongo.Env) (id : string)
    (userId : Mongo.ObjectId) (s : Mongo.Store) :
  Mongo.unlikePhoto e' id userId (snd (Mongo.unlikePhoto e id userId s))
  = Mongo.unlikePhoto e id userId s.
Proof.
  destruct (Mongo.findById id s) as [|[photo|]] eqn:Hf.
  - unfold Mongo.unlikePhoto at 2 3; rewrite Hf; cbn [snd Mongo.server_error].
    unfold Mongo.unlikePhoto; now rewrite Hf.
  - destruct (@unlikePhoto_found mg e id userId s photo Hf) as [E Hf'].
    rewrite E; cbn [snd].
    rewrite (@unlikePhoto_not_liked mg e' id userId _ _ Hf').
    + now rewrite with_likes_likes.
    + rewrite with_likes_likes. apply not_in_filter_out.
  - unfold Mongo.unlikePhoto at 2 3; rewrite Hf; cbn [snd].
    unfold Mongo.unlikePhoto; now rewrite Hf.
Qed.

Lemma deleteLike_again (photoId userId : Z) (s : MySQL.Store) :
  MySQL.deleteLike photoId userId (MySQL.deleteLike photoId userId s)
  = MySQL.deleteLike photoId userId s.
Proof.
  unfold MySQL.deleteLike, MySQL.set_likes; simpl. f_equal.
  apply filter_keep_all. intros x Hx. now apply filter_In in Hx.
Qed.

(** X7.  An unlike removes the user from the likes of the photo and
    nothing else: afterwards the user holds no like on it, every other
    user's like on it and every like on another photo is as before,
    and the answer is 200 with the number of likes left, which is one
    less than before when the user held exactly one like (as in every
    reached store).  The Mongo variant saves the photo with the
    [updatedAt] and [__v] the save gives it.  A second unlike, at any
    later time, changes nothing more and gives the same answer. *)
Theorem unlike_removes_only_that_like :
  (forall (mg : Mongo.Mongoose) (e e' : Mongo.Env) (id : string)
          (userId : Mongo.ObjectId) (s : Mongo.Store) (photo : Mongo.Photo),
     Mongo.findById id s = JS.Returns (Some photo) ->
     let out := Mongo.unlikePhoto e id userId s in
     exists photo',
       Mongo.findById id (snd out) = JS.Returns (Some photo')
       /\ photo_fixed photo' = photo_fixed photo
       /\ ~ In userId (Mongo.photo_likes photo')
       /\ (forall v, v <> userId ->
             (In v (Mongo.photo_likes photo') <-> In v (Mongo.photo_likes photo)))
       /\ (Mongo.photo_updatedAt photo', Mongo.photo_v photo')
          = Mongo.stamp (Mongo.now e) photo (Mongo.photo_likes photo')
       /\ fst out = Mongo.mkResponse 200
                      (Mongo.Likes (List.length (Mongo.photo_likes photo')))
       /\ (NoDup (Mongo.photo_likes photo) -> In userId (Mongo.photo_likes photo) ->
           S (List.length (Mongo.photo_likes photo'))
           = List.length (Mongo.photo_likes photo))
       /\ (forall id', Mongo.findById id' s <> JS.Returns (Some photo) ->
             Mongo.findById id' (snd out) = Mongo.findById id' s)
       /\ Mongo.unlikePhoto e' id userId (snd out) = out)
  /\
  (forall (photoId userId : Z) (s : MySQL.Store),
     let out := MySQL.unlikePhoto photoId userId s in
     ~ In (MySQL.mkLikeRow photoId userId) (MySQL.photo_likes (snd out))
     /\ (forall row, row <> MySQL.mkLikeRow photoId userId ->
           (In row (MySQL.photo_likes (snd out)) <-> In row (MySQL.photo_likes s)))
     /\ fst out = MySQL.mkResponse 200 (MySQL.Likes (MySQL.countLikes photoId (snd out)))
     /\ (NoDup (MySQL.photo_likes s) ->
         In (MySQL.mkLikeRow photoId userId) (MySQL.photo_likes s) ->
         S (MySQL.countLikes photoId (snd out)) = MySQL.countLikes photoId s)
     /\ (forall photoId', photoId' <> photoId ->
           MySQL.countLikes photoId' (snd out) = MySQL.countLikes photoId' s)
     /\ MySQL.unlikePhoto photoId userId (snd out) = out).
Proof.
  split.
  - intros mg e e' id userId s photo Hf out.
    exists (Mongo.with_likes e photo
              (filter (fun u => negb (String.eqb u userId)) (Mongo.photo_likes photo))).
    subst out. rewrite unlikePhoto_again.
    destruct (@unlikePhoto_found mg e id userId s photo Hf) as [E Hf'].
    rewrite E; cbn [fst snd]. rewrite !with_likes_likes.
    split; [exact Hf'|].
    split; [reflexivity|].
    split; [apply not_in_filter_out|].
    split.
    { intros v Hv. rewrite filter_In. split; [tauto|].
      intros Hin; split; [exact Hin|].
      apply negb_true_iff, String.eqb_neq; exact Hv. }
    split.
    { unfold Mongo.with_likes; simpl. now destruct (Mongo.stamp _ _ _). }
    split; [reflexivity|].
    split.
    { intros Hn Hin.
      apply (filter_out_length (fun v => negb (String.eqb v userId)) (x := userId));
        auto.
      intros y. rewrite negb_false_iff. apply String.eqb_eq. }
    split; [|reflexivity].
    intros id' Hne.
    eapply findById_other; [exact Hf | apply with_likes_id | exact Hne].
  - intros photoId userId s out; subst out.
    unfold MySQL.unlikePhoto at 1 2 3 4 5 6 7; simpl.
    split; [|split; [|split; [|split; [|split]]]].
    + intros Hin. apply filter_In in Hin as [_ Hin].
      apply negb_true_iff in Hin.
      assert (MySQL.same_like photoId userId (MySQL.mkLikeRow photoId userId) = true)
        by now apply same_like_spec.
      congruence.
    + intros row Hrow. rewrite filter_In. split; [tauto|].
      intros Hin; split; [exact Hin|].
      destruct (MySQL.same_like photoId userId row) eqn:E; [|reflexivity].
      apply same_like_spec in E; contradiction.
    + reflexivity.
    + intros Hn Hin. unfold MySQL.countLikes; simpl.
      assert (Comm : forall l,
                 filter (fun r => MySQL.l_photo_id r =? photoId)
                        (filter (fun r => negb (MySQL.same_like photoId userId r)) l)
                 = filter (fun r => negb (MySQL.same_like photoId userId r))
                          (filter (fun r => MySQL.l_photo_id r =? photoId) l)).
      { induction l as [|a t IH]; simpl; [reflexivity|].
        destruct (MySQL.same_like photoId userId a) eqn:Ea,
                 (MySQL.l_photo_id a =? photoId) eqn:Eb; simpl;
          rewrite ?Ea, ?Eb; simpl; now rewrite IH. }
      rewrite Comm.
      apply (filter_out_length _ (x := MySQL.mkLikeRow photoId userId)).
      * intros y. rewrite negb_false_iff. apply same_like_spec.
      * now apply NoDup_filter.
      * apply filter_In; split; [exact Hin | simpl; apply Z.eqb_refl].
    + intros photoId' Hne. unfold MySQL.countLikes; simpl.
      f_equal. induction (MySQL.photo_likes s) as [|a t IH]; simpl; [reflexivity|].
      unfold MySQL.same_like at 1.
      destruct (Z.eqb_spec (MySQL.l_photo_id a) photoId) as [E1|E1]; simpl.
      * destruct (Z.eqb_spec (MySQL.l_user_id a) userId); simpl.
        -- destruct (Z.eqb_spec (MySQL.l_photo_id a) photoId'); [congruence | exact IH].
        -- destruct (MySQL.l_photo_id a =? photoId'); [f_equal|]; exact IH.
      * destruct (MySQL.l_photo_id a =? photoId'); [f_equal|]; exact IH.
    + unfold MySQL.unlikePhoto. now rewrite deleteLike_again.
Qed.

Lemma unlike_removes_only_that_like_witness :
  (exists photo',
     Mongo.findById (mg := Sample.mongoose) Sample.sunset
       (snd (Mongo.unlikePhoto (mg := Sample.mongoose) (Sample.menv 6000 "" "")
               Sample.sunset Sample.alice Sample.mongo_liked))
     = JS.Returns (Some photo')
     /\ Mongo.photo_likes photo' = [Sample.bob]
     /\ Mongo.photo_v photo' = 3)
  /\ S (MySQL.countLikes 1 (snd (MySQL.unlikePhoto 1 1 Sample.sql_liked)))
     = MySQL.countLikes 1 Sample.sql_liked.
Proof.
  destruct unlike_removes_only_that_like as [HM HS].
  split.
  - destruct (HM Sample.mongoose (Sample.menv 6000 "" "") (Sample.menv 6000 "" "")
                 Sample.sunset Sample.alice Sample.mongo_liked
                 (Mongo.mkPhoto Sample.sunset Sample.alice
                    "/uploads/image-3000-17.png" (Some "sunset")
                    [Sample.alice; Sample.bob] 3000 5000 2) eq_refl)
      as [photo' [H1 _]].
    exists photo'; split; [exact H1|].
    vm_compute in H1. injection H1 as <-. split; reflexivity.
  - destruct (HS 1 1 Sample.sql_liked) as [_ [_ [_ [H _]]]].
    apply H.
    + exact (reachable_NoDup sample_sql_liked_reachable).
    + vm_compute. left; reflexivity.
Defined.

Lemma save_photo_twice (p p' : Mongo.Photo) (l : list Mongo.Photo) :
  Mongo.photo_id p' = Mongo.photo_id p ->
  Mongo.save_photo p (Mongo.save_photo p' l) = Mongo.save_photo p l.
Proof.
  intros Hid; induction l as [|q r IH]; simpl; [reflexivity|].
  rewrite Hid.
  destruct (String.eqb (Mongo.photo_id q) (Mongo.photo_id p)) eqn:E; simpl.
  - now rewrite Hid, String.eqb_refl.
  - rewrite E. f_equal; exact IH.
Qed.

(** X8.  Like and unlike undo each other: when the user holds no like
    on a photo that exists, a like followed by an unlike (same photo,
    same user) answers with the count the photo had at the start.  The
    relational variant gives back the store exactly as it was.  The
    Mongo variant gives back the photo with the likes it had and its
    other fields, users, comments and other photos as they were, but
    the photo has been saved twice: its [updatedAt] and [__v] are
    those of the second save. *)
Theorem like_then_unlike_restores :
  (forall (mg : Mongo.Mongoose) (e e' : Mongo.Env) (id : string)
          (userId : Mongo.ObjectId) (s : Mongo.Store) (photo : Mongo.Photo),
     Mongo.findById id s = JS.Returns (Some photo) ->
     ~ In userId (Mongo.photo_likes photo) ->
     let liked := Mongo.with_likes e photo (Mongo.photo_likes photo ++ [userId]) in
     exists photo',
       Mongo.unlikePhoto e' id userId (snd (Mongo.likePhoto e id userId s))
       = (Mongo.mkResponse 200 (Mongo.Likes (List.length (Mongo.photo_likes photo))),
          Mongo.set_photos s (Mongo.save_photo photo' (Mongo.photos s)))
       /\ photo_fixed photo' = photo_fixed photo
       /\ Mongo.photo_likes photo' = Mongo.photo_likes photo
       /\ (Mongo.photo_updatedAt photo', Mongo.photo_v photo')
          = Mongo.stamp (Mongo.now e') liked (Mongo.photo_likes photo))
  /\
  (forall (photoId userId : Z) (s : MySQL.Store),
     MySQL.selectPhoto photoId s <> [] ->
     ~ In (MySQL.mkLikeRow photoId userId) (MySQL.photo_likes s) ->
     MySQL.unlikePhoto photoId userId (snd (MySQL.likePhoto photoId userId s))
     = (MySQL.mkResponse 200 (MySQL.Likes (MySQL.countLikes photoId s)), s)).
Proof.
  split.
  - intros mg e e' id userId s photo Hf Hn liked.
    exists (Mongo.with_likes e' liked (Mongo.photo_likes photo)).
    destruct (@likePhoto_found mg e id userId s photo Hf) as [[Hl _] | [_ ->]].
    { apply existsb_eqb_false_not_in in Hn. congruence. }
    cbn [snd]. fold liked.
    assert (Hf' : Mongo.findById id
                    (Mongo.set_photos s (Mongo.save_photo liked (Mongo.photos s)))
                  = JS.Returns (Some liked)).
    { eapply findById_saved; [exact Hf | apply with_likes_id]. }
    destruct (@unlikePhoto_found mg e' id userId _ liked Hf') as [-> _].
    assert (Hlk : Mongo.photo_likes liked = (Mongo.photo_likes photo ++ [userId])%list)
      by apply with_likes_likes.
    rewrite Hlk. unfold Mongo.ObjectId in *. rewrite (@filter_out_snoc userId _ Hn).
    rewrite !with_likes_likes.
    unfold Mongo.set_photos; cbn [Mongo.photos Mongo.users Mongo.comments].
    rewrite save_photo_twice by (now rewrite !with_likes_id).
    split; [reflexivity|].
    split; [reflexivity|].
    split; [reflexivity|].
    unfold Mongo.with_likes at 1 2; simpl. now destruct (Mongo.stamp _ _ _).
  - intros photoId userId s Hp Hn.
    unfold MySQL.likePhoto.
    destruct (MySQL.selectPhoto photoId s); [congruence|]; simpl.
    unfold MySQL.insertIgnoreLike.
    rewrite (proj2 (existsb_same_like_false photoId userId _) Hn).
    unfold MySQL.unlikePhoto, MySQL.deleteLike, MySQL.set_likes; simpl.
    rewrite filter_app; simpl.
    assert (E : MySQL.same_like photoId userId (MySQL.mkLikeRow photoId userId) = true)
      by now apply same_like_spec.
    rewrite E; simpl. rewrite app_nil_r.
    assert (K : filter (fun l => negb (MySQL.same_like photoId userId l))
                       (MySQL.photo_likes s) = MySQL.photo_likes s).
    { apply filter_keep_all; intros row Hrow.
      destruct (MySQL.same_like photoId userId row) eqn:El; [|reflexivity].
      apply same_like_spec in El; subst; contradiction. }
    rewrite K. unfold MySQL.countLikes; simpl. destruct s; reflexivity.
Qed.

Lemma like_then_unlike_restores_witness :
  (let out := Mongo.unlikePhoto (mg := Sample.mongoose) (Sample.menv 5000 "" "")
                Sample.sunset Sample.bob
                (snd (Mongo.likePhoto (mg := Sample.mongoose) (Sample.menv 4000 "" "")
                        Sample.sunset Sample.bob Sample.mongo_store)) in
   fst out = Mongo.mkResponse 200 (Mongo.Likes 0)
   /\ map Mongo.photo_likes (Mongo.photos (snd out)) = [[]]
   /\ map Mongo.photo_v (Mongo.photos (snd out)) = [2])
  /\ MySQL.unlikePhoto 1 2 (snd (MySQL.likePhoto 1 2 Sample.sql_store))
     = (MySQL.mkResponse 200 (MySQL.Likes 0), Sample.sql_store).
Proof.
  destruct like_then_unlike_restores as [HM HS].
  split.
  - destruct (HM Sample.mongoose (Sample.menv 4000 "" "") (Sample.menv 5000 "" "")
                 Sample.sunset Sample.bob Sample.mongo_store
                 (Mongo.mkPhoto Sample.sunset Sample.alice
                    "/uploads/image-3000-17.png" (Some "sunset") [] 3000 3000 0) eq_refl)
      as [photo' [E [Hfix [Hl Hs]]]].
    + simpl; tauto.
    + cbv zeta. rewrite E. cbn [fst snd]. split; [reflexivity|].
      destruct photo' as [i o u c l t ua v].
      unfold photo_fixed in Hfix; cbn in Hfix, Hl.
      injection Hfix as -> -> -> -> ->. subst l.
      vm_compute in Hs. injection Hs as -> ->.
      vm_compute. split; reflexivity.
  - apply (HS 1 2 Sample.sql_store); [vm_compute; discriminate | vm_compute; tauto].
Defined.

(** ** Comments and likes refer to photos that exist *)

Lemma save_photo_ids (id : Mongo.ObjectId) (p p' : Mongo.Photo) (l : list Mongo.Photo) :
  find (fun q => String.eqb (Mongo.photo_id q) id) l = Some p ->
  Mongo.photo_id p' = Mongo.photo_id p ->
  map Mongo.photo_id (Mongo.save_photo p' l) = map Mongo.photo_id l.
Proof.
  intros Hf Hp.
  assert (Hid : Mongo.photo_id p = id).
  { apply find_some in Hf as [_ Hf]. now apply String.eqb_eq in Hf. }
  induction l as [|q r IH]; simpl in *; [reflexivity|].
  rewrite Hp, Hid.
  destruct (String.eqb (Mongo.photo_id q) id) eqn:E; simpl.
  - injection Hf as ->. now rewrite Hp.
  - f_equal; auto.
Qed.

Lemma find_in_some (A : Type) (f : A -> bool) (l : list A) (x : A) :
  In x l -> f x = true -> exists y, find f l = Some y.
Proof.
  intros Hin Hf. destruct (find f l) as [y|] eqn:E; [now exists y|].
  pose proof (find_none _ _ E x Hin). congruence.
Qed.

Section MongoReferences.
Import Mongo.
Context {ext : Externals ObjectId} {cur : Cursor} {mg : Mongoose}.

Lemma effect_comments_refer (s s' : Store) :
  mongo_effect s s' -> comments_refer s -> comments_refer s'.
Proof.
  intros He Hs; destruct He; unfold comments_refer in *; simpl; try exact Hs.
  - eapply Forall_impl; [|exact Hs]. simpl; intros c Hc.
    rewrite map_app; apply in_or_app; now left.
  - erewrite save_photo_ids; [exact Hs | exact H | apply with_likes_id].
  - erewrite save_photo_ids; [exact Hs | exact H | apply with_likes_id].
  - apply Forall_app; split; [exact Hs|].
    constructor; [|constructor].
    rewrite <- (photoOf_id _ _ H). apply in_map. exact (photoOf_in _ _ H).
Qed.

Lemma reachable_comments_refer (s : Store) : reachable s -> comments_refer s.
Proof.
  induction 1 as [|s e r _ IH]; [constructor|].
  exact (effect_comments_refer (handle_effect e r s) IH).
Qed.

End MongoReferences.

Section MySQLReferences.
Import MySQL.
Context {ext : Externals Z} {col : Collation} {par : Parameters}.

Lemma selectPhoto_in (photoId : Z) (s : Store) :
  selectPhoto photoId s <> [] -> In photoId (map p_id (photos s)).
Proof.
  unfold selectPhoto; intros H.
  destruct (filter _ (photos s)) as [|p r] eqn:E; [congruence|].
  assert (Hin : In p (filter (fun q => p_id q =? photoId) (photos s)))
    by (rewrite E; now left).
  apply filter_In in Hin as [Hin Hp]. apply Z.eqb_eq in Hp; subst.
  now apply in_map.
Qed.

Lemma effect_rows_refer (owner_ok : Z -> Prop) (s s' : Store) :
  sql_effect owner_ok s s' -> rows_refer s -> rows_refer s'.
Proof.
  intros He Hs; pose proof Hs as [Hc Hl]; destruct He; try exact Hs.
  - split; simpl; (eapply Forall_impl; [|eassumption]); simpl; intros x Hx;
      rewrite map_app; apply in_or_app; now left.
  - unfold insertIgnoreLike. destruct (existsb _ _); [exact Hs|].
    split; simpl; [exact Hc|].
    apply Forall_app; split; [exact Hl|].
    constructor; [|constructor]; simpl. now apply selectPhoto_in.
  - split; simpl; [exact Hc|].
    rewrite Forall_forall in *. intros x Hx.
    apply filter_In in Hx as [Hx _]. auto.
  - split; simpl; [|exact Hl].
    apply Forall_app; split; [exact Hc|].
    constructor; [|constructor]; simpl. now apply selectPhoto_in.
Qed.

Lemma reachable_rows_refer (s : Store) : reachable s -> rows_refer s.
Proof.
  induction 1 as [|s e r _ IH]; [split; constructor|].
  exact (effect_rows_refer (handle_effect_sql e r s) IH).
Qed.

End MySQLReferences.

Lemma sample_mongo_commented_reachable :
  Mongo.reachable (ext := Sample.mongo_ext) (cur := Sample.cursor) (mg := Sample.mongoose)
    Sample.mongo_commented.
Proof.
  replace Sample.mongo_commented
    with (Mongo.run (ext := Sample.mongo_ext) (cur := Sample.cursor)
            (mg := Sample.mongoose) Sample.mongo_comment_requests Sample.mongo_liked)
    by (vm_compute; reflexivity).
  apply run_reachable, sample_mongo_liked_reachable.
Qed.

Lemma sample_sql_commented_reachable :
  MySQL.reachable (ext := Sample.sql_ext) (par := Sample.parameters) Sample.sql_commented.
Proof.
  replace Sample.sql_commented
    with (MySQL.run (ext := Sample.sql_ext) (par := Sample.parameters)
            Sample.sql_comment_requests Sample.sql_liked)
    by (vm_compute; reflexivity).
  apply run_reachable_sql, sample_sql_liked_reachable.
Qed.

(** X9.  In every store the application reaches, each comment belongs
    to a photo that is in the store, and in the relational variant so
    does each like row: comments and likes are only created after the
    photo was found, and no route removes a photo.  (The unlike of the
    relational variant, which does not look the photo up, only
    deletes.) *)
Theorem comments_and_likes_refer_to_photos :
  (forall (ext : Externals Mongo.ObjectId) (cur : Mongo.Cursor) (mg : Mongo.Mongoose)
          (s : Mongo.Store),
     Mongo.reachable s ->
     forall c, In c (Mongo.comments s) ->
       exists p, Mongo.photoOf (Mongo.comment_photo c) s = Some p)
  /\
  (forall (ext : Externals Z) (col : MySQL.Collation) (par : MySQL.Parameters)
          (s : MySQL.Store),
     MySQL.reachable s ->
     (forall c, In c (MySQL.comments s) ->
        MySQL.selectPhoto (MySQL.c_photo_id c) s <> [])
     /\ (forall l, In l (MySQL.photo_likes s) ->
           MySQL.selectPhoto (MySQL.l_photo_id l) s <> [])).
Proof.
  assert (Sel : forall i s, In i (map MySQL.p_id (MySQL.photos s)) ->
                            MySQL.selectPhoto i s <> []).
  { intros i s Hin. apply in_map_iff in Hin as [p [Hp Hin]].
    assert (H : In p (MySQL.selectPhoto i s))
      by (apply filter_In; split; [exact Hin | now apply Z.eqb_eq]).
    intros E; rewrite E in H; contradiction. }
  split.
  - intros ext cur mg s Hr c Hc.
    apply reachable_comments_refer in Hr.
    unfold comments_refer in Hr; rewrite Forall_forall in Hr.
    specialize (Hr c Hc). apply in_map_iff in Hr as [p [Hp Hin]].
    apply (find_in_some _ _ p Hin). now apply String.eqb_eq.
  - intros ext col par s Hr.
    apply reachable_rows_refer in Hr as [Hc Hl].
    rewrite Forall_forall in Hc, Hl.
    split; intros x Hx; apply Sel; auto.
Qed.

Lemma comments_and_likes_refer_to_photos_witness :
  Mongo.comments Sample.mongo_commented <> []
  /\ (forall c, In c (Mongo.comments Sample.mongo_commented) ->
        exists p, Mongo.photoOf (Mongo.comment_photo c) Sample.mongo_commented = Some p)
  /\ MySQL.comments Sample.sql_commented <> []
  /\ (forall c, In c (MySQL.comments Sample.sql_commented) ->
        MySQL.selectPhoto (MySQL.c_photo_id c) Sample.sql_commented <> [])
  /\ MySQL.photo_likes Sample.sql_commented <> []
  /\ (forall l, In l (MySQL.photo_likes Sample.sql_commented) ->
        MySQL.selectPhoto (MySQL.l_photo_id l) Sample.sql_commented <> []).
Proof.
  destruct comments_and_likes_refer_to_photos as [HM HS].
  split; [vm_compute; discriminate|].
  split; [apply (HM Sample.mongo_ext Sample.cursor Sample.mongoose _
                    sample_mongo_commented_reachable)|].
  destruct (HS Sample.sql_ext Sample.binary Sample.parameters _
               sample_sql_commented_reachable) as [Hc Hl].
  split; [vm_compute; discriminate|].
  split; [exact Hc|].
  split; [vm_compute; discriminate | exact Hl].
Defined.

(** ** The token of a login identifies the user *)

Lemma protected_bearer (UserId : Type) (ext : Externals UserId) (now : Z)
    (token : string) (userId : UserId) :
  jwt_verify token now = Some userId -> no_space token = true -> token <> "" ->
  authRequired now (Some ("Bearer " ++ token)) = Next userId.
Proof.
  intros Hv Hs Hne.
  pose proof (authRequired_any_scheme (ext := ext) now "Bearer" eq_refl Hs Hne) as H.
  rewrite Hv in H. exact H.
Qed.

(** X10.  A request that carries, as "Bearer <token>", the token of a
    successful login is served as the user who logged in: when the
    token verifies at the time of the request (and holds no space, as
    a JWT does), each protected route runs its handler with the id that
    [login] returned, and that id, user name and e-mail address are
    those of one stored user. *)
Theorem login_token_acts_as_user :
  (forall (ext : Externals Mongo.ObjectId) (cur : Mongo.Cursor) (mg : Mongo.Mongoose)
          (e e' : Mongo.Env)
          (emailOrUsername password : JS.value) (s s' : Mongo.Store)
          (token : string) (userId : Mongo.ObjectId) (username email : string),
     fst (Mongo.login e emailOrUsername password s)
     = Mongo.mkResponse 200 (Mongo.Session token userId username email) ->
     jwt_verify token (Mongo.now e') = Some userId ->
     no_space token = true -> token <> "" ->
     (exists u, In u (Mongo.users s)
                /\ Mongo.user_id u = userId /\ Mongo.user_username u = username
                /\ Mongo.user_email u = email)
     /\ (forall id, Mongo.handle e' (Mongo.PostLike (Some ("Bearer " ++ token)) id) s'
                    = Mongo.likePhoto e' id userId s')
     /\ (forall id, Mongo.handle e' (Mongo.DeleteLike (Some ("Bearer " ++ token)) id) s'
                    = Mongo.unlikePhoto e' id userId s')
     /\ (forall id text,
           Mongo.handle e' (Mongo.PostComment (Some ("Bearer " ++ token)) id text) s'
           = Mongo.createComment e' id userId text s')
     /\ (forall file caption,
           Mongo.handle e' (Mongo.PostPhoto (Some ("Bearer " ++ token)) file caption) s'
           = Mongo.uploadPhoto e' userId file caption s'))
  /\
  (forall (ext : Externals Z) (col : MySQL.Collation) (par : MySQL.Parameters)
          (e e' : MySQL.Env)
          (emailOrUsername password : JS.value) (s s' : MySQL.Store)
          (token : string) (userId : Z) (username email : string),
     fst (MySQL.login e emailOrUsername password s)
     = MySQL.mkResponse 200 (MySQL.Session token userId username email) ->
     jwt_verify token (MySQL.now e') = Some userId ->
     no_space token = true -> token <> "" ->
     (exists u, In u (MySQL.users s)
                /\ MySQL.u_id u = userId /\ MySQL.u_username u = username
                /\ MySQL.u_email u = email)
     /\ (forall id, MySQL.handle e' (MySQL.PostLike (Some ("Bearer " ++ token)) id) s'
                    = MySQL.likePhoto id userId s')
     /\ (forall id, MySQL.handle e' (MySQL.DeleteLike (Some ("Bearer " ++ token)) id) s'
                    = MySQL.unlikePhoto id userId s')
     /\ (forall id text,
           MySQL.handle e' (MySQL.PostComment (Some ("Bearer " ++ token)) id text) s'
           = MySQL.createComment e' id userId text s')
     /\ (forall file caption,
           MySQL.handle e' (MySQL.PostPhoto (Some ("Bearer " ++ token)) file caption) s'
           = MySQL.uploadPhoto e' userId file caption s')).
Proof.
  split.
  - intros ext cur mg e e' a b s s' token userId n m Hl Hv Hs Hne.
    pose proof (@protected_bearer _ ext _ _ _ Hv Hs Hne) as Ha.
    split.
    + unfold Mongo.login, Mongo.server_error in Hl.
      destruct (_ || _); [simpl in Hl; discriminate|].
      unfold Mongo.findUser in Hl.
      destruct (Mongo.castFilter a) as [is_a|]; [|simpl in Hl; discriminate].
      destruct (one_of _ _) as [u|] eqn:Hu; [|simpl in Hl; discriminate].
      destruct b; try (simpl in Hl; discriminate).
      destruct (bcrypt_compare _ _); simpl in Hl; [|discriminate].
      injection Hl as _ <- <- <-.
      exists u. apply one_of_in, filter_In in Hu as [Hin _]. auto.
    + repeat split; intros; cbn [Mongo.handle]; unfold Mongo.protected; now rewrite Ha.
  - intros ext col par e e' a b s s' token userId n m Hl Hv Hs Hne.
    pose proof (@protected_bearer _ ext _ _ _ Hv Hs Hne) as Ha.
    split.
    + unfold MySQL.login, MySQL.server_error in Hl.
      destruct (_ || _); [simpl in Hl; discriminate|].
      unfold MySQL.selectUsers in Hl.
      destruct (MySQL.where_eq MySQL.col_email a) as [is_email|];
        [|simpl in Hl; discriminate].
      destruct (MySQL.where_eq MySQL.col_username a) as [is_username|];
        [|simpl in Hl; discriminate].
      destruct (one_of _ _) as [u|] eqn:Hu; [|simpl in Hl; discriminate].
      destruct b; try (simpl in Hl; discriminate).
      destruct (bcrypt_compare _ _); simpl in Hl; [|discriminate].
      injection Hl as _ <- <- <-.
      exists u. apply one_of_in, filter_In in Hu as [Hin _]. auto.
    + repeat split; intros; cbn [MySQL.handle]; unfold MySQL.protected; now rewrite Ha.
Qed.

Lemma login_token_acts_as_user_witness :
  Mongo.handle (ext := Sample.mongo_ext) (cur := Sample.cursor) (mg := Sample.mongoose)
    (Sample.menv 9000 "" "")
    (Mongo.PostLike (Some ("Bearer " ++ ("jwt." ++ Sample.bob))) Sample.sunset)
    Sample.mongo_store
  = Mongo.likePhoto (mg := Sample.mongoose) (Sample.menv 9000 "" "")
      Sample.sunset Sample.bob Sample.mongo_store
  /\ MySQL.handle (ext := Sample.sql_ext) (par := Sample.parameters)
       (Sample.senv 9000 "")
       (MySQL.DeleteLike (Some ("Bearer " ++ "jwt.2")) 1) Sample.sql_liked
     = MySQL.unlikePhoto 1 2 Sample.sql_liked.
Proof.
  destruct login_token_acts_as_user as [HM HS].
  split.
  - apply (HM Sample.mongo_ext Sample.cursor Sample.mongoose (Sample.menv 8000 "" "")
              (Sample.menv 9000 "" "") (JS.Str "bob") (JS.Str "pw456")
              Sample.mongo_store Sample.mongo_store
              ("jwt." ++ Sample.bob) Sample.bob "bob" "b@x.com");
      [reflexivity | reflexivity | reflexivity | discriminate].
  - apply (HS Sample.sql_ext Sample.binary Sample.parameters (Sample.senv 8000 "")
              (Sample.senv 9000 "") (JS.Str "b@x.com") (JS.Str "pw456")
              Sample.sql_store Sample.sql_liked "jwt.2" 2 "bob" "b@x.com");
      [reflexivity | reflexivity | reflexivity | discriminate].
Defined.

(** ** Upload and retrieval *)





(** ** GET /photos/:id/comments *)








(** ** Pages at the edges *)









(** ** Names of uploaded files *)

Lemma decimal_all_digits (n : N) : all_digits (decimal n) = true.
Proof.
  unfold decimal.
  assert (G : forall d, all_digits (NilEmpty.string_of_uint d) = true)
    by (induction d; simpl; auto).
  apply G.
Qed.

Lemma decimal_inj (n m : N) : decimal n = decimal m -> n = m.
Proof.
  unfold decimal; intros H.
  apply DecimalN.Unsigned.to_uint_inj.
  assert (E : Some (N.to_uint n) = Some (N.to_uint m))
    by (rewrite <- !NilEmpty.usu; now rewrite H).
  now injection E.
Qed.

(** A run of digits followed by something that does not begin with a
    digit can be read back in one way only. *)
Lemma digits_then_rest (a a' x x' : string) :
  all_digits a = true -> all_digits a' = true ->
  no_leading_digit x = true -> no_leading_digit x' = true ->
  a ++ x = a' ++ x' -> a = a' /\ x = x'.
Proof.
  revert a'; induction a as [|c r IH]; intros [|c' r'] Ha Ha' Hx Hx' E; simpl in *.
  - auto.
  - subst x. simpl in Hx. apply andb_true_iff in Ha' as [Hc _].
    rewrite Hc in Hx; discriminate.
  - subst x'. simpl in Hx'. apply andb_true_iff in Ha as [Hc _].
    rewrite Hc in Hx'; discriminate.
  - injection E as -> E.
    apply andb_true_iff in Ha as [_ Ha], Ha' as [_ Ha'].
    destruct (IH r' Ha Ha' Hx Hx' E) as [-> ->]. auto.
Qed.

Lemma append_cancel_l (a x y : string) : a ++ x = a ++ y -> x = y.
Proof.
  induction a as [|c r IH]; simpl; intros E; [exact E|].
  injection E as E. auto.
Qed.

Lemma append_assoc (a b c : string) : (a ++ b) ++ c = a ++ (b ++ c).
Proof. induction a as [|d a IH]; simpl; [reflexivity | now rewrite IH]. Qed.

Lemma filename_inj (fieldname : string) (now now' random random' : N)
    (ext ext' : string) :
  no_leading_digit ext = true -> no_leading_digit ext' = true ->
  fileUrl (filename fieldname now random ext)
  = fileUrl (filename fieldname now' random' ext') ->
  now = now' /\ random = random' /\ ext = ext'.
Proof.
  intros Hx Hx' E.
  unfold fileUrl, filename in E.
  apply append_cancel_l, append_cancel_l, append_cancel_l in E.
  rewrite !append_assoc in E.
  apply digits_then_rest in E as [Et E];
    try apply decimal_all_digits; try reflexivity.
  apply (append_cancel_l "-") in E.
  apply digits_then_rest in E as [Er E];
    try apply decimal_all_digits; try assumption.
  apply decimal_inj in Et, Er. auto.
Qed.

(** X14.  Stored uploads do not overwrite each other unless everything
    that goes into the name coincides: two files received in the same
    form field at different milliseconds, or with different random
    numbers drawn, or with different extensions, get different stored
    names and different public urls.  (The extension is what
    [path.extname] returns: empty, or a dot and what follows.) *)
Theorem upload_names_differ :
  forall (fieldname : string) (now now' random random' : N) (ext ext' : string),
    no_leading_digit ext = true -> no_leading_digit ext' = true ->
    now <> now' \/ random <> random' \/ ext <> ext' ->
    filename fieldname now random ext <> filename fieldname now' random' ext'
    /\ fileUrl (filename fieldname now random ext)
       <> fileUrl (filename fieldname now' random' ext').
Proof.
  intros f t t' r r' x x' Hx Hx' Hne.
  assert (U : fileUrl (filename f t r x) <> fileUrl (filename f t' r' x')).
  { intros E. destruct (@filename_inj f t t' r r' x x' Hx Hx' E) as [H1 [H2 H3]].
    destruct Hne as [H | [H | H]]; contradiction. }
  split; [|exact U].
  intros E. apply U. now rewrite E.
Qed.

Lemma upload_names_differ_witness :
  filename upload_field 1700000000123 42 ".png" = "image-1700000000123-42.png"
  /\ fileUrl (filename upload_field 1700000000123 42 ".png")
     <> fileUrl (filename upload_field 1700000000123 421 ".png")
  /\ fileUrl (filename upload_field 17 42 "")
     <> fileUrl (filename upload_field 1 742 "").
Proof.
  split; [vm_compute; reflexivity | split].
  - apply (@upload_names_differ upload_field 1700000000123 1700000000123 42 421
             ".png" ".png"); [reflexivity | reflexivity |].
    right; left; discriminate.
  - apply (@upload_names_differ upload_field 17 1 42 742 "" "");
      [reflexivity | reflexivity |].
    left; discriminate.
Defined.

(** ** Ids that no photo has *)

(** X15.  In a store the application has reached, a photo id that no
    photo has carries nothing: its list of comments is answered 200
    with the empty list in both variants (in the Mongo variant the id
    is one an ObjectId can be made of), and the unlike of the
    relational variant, which does not look the photo up, is answered
    200 with [likesCount] 0 and leaves the store unchanged. *)
Theorem unknown_photo_has_no_comments_or_likes :
  (forall (ext : Externals Mongo.ObjectId) (cur : Mongo.Cursor) (mg : Mongo.Mongoose)
          (e : Mongo.Env) (id : string) (s : Mongo.Store),
     Mongo.reachable s -> Mongo.findById id s = JS.Returns None ->
     Mongo.listComments e id s = (Mongo.mkResponse 200 (Mongo.CommentList []), s))
  /\
  (forall (ext : Externals Z) (col : MySQL.Collation) (par : MySQL.Parameters)
          (e : MySQL.Env) (photoId userId : Z) (s : MySQL.Store),
     MySQL.reachable s -> MySQL.selectPhoto photoId s = [] ->
     MySQL.listComments e photoId s = (MySQL.mkResponse 200 (MySQL.CommentList []), s)
     /\ MySQL.unlikePhoto photoId userId s
        = (MySQL.mkResponse 200 (MySQL.Likes 0), s)).
Proof.
  split.
  - intros ext cur mg e id s Hr Hf.
    pose proof (reachable_comments_refer Hr) as Hc.
    unfold comments_refer in Hc; rewrite Forall_forall in Hc.
    unfold Mongo.listComments, Mongo.findById in *.
    destruct (Mongo.castObjectId id) as [_id|]; [|discriminate].
    injection Hf as Hf.
    assert (E : filter (fun c => String.eqb (Mongo.comment_photo c) _id) (Mongo.comments s)
                = []).
    { destruct (filter _ (Mongo.comments s)) as [|c r] eqn:E; [reflexivity|].
      assert (Hin : In c (filter (fun c => String.eqb (Mongo.comment_photo c) _id)
                                 (Mongo.comments s))) by (rewrite E; now left).
      apply filter_In in Hin as [Hin Hid]. apply String.eqb_eq in Hid.
      specialize (Hc c Hin). rewrite Hid in Hc.
      apply in_map_iff in Hc as [p [Hp Hpin]].
      unfold Mongo.photoOf in Hf.
      pose proof (find_none _ _ Hf p Hpin) as Hnone; simpl in Hnone.
      rewrite Hp, String.eqb_refl in Hnone. discriminate. }
    rewrite E. reflexivity.
  - intros ext col par e photoId userId s Hr Hp.
    destruct (reachable_rows_refer Hr) as [Hc Hl].
    rewrite Forall_forall in Hc, Hl.
    assert (Hnone : ~ In photoId (map MySQL.p_id (MySQL.photos s))).
    { intros Hin. apply in_map_iff in Hin as [p [Hid Hin]].
      assert (H : In p (MySQL.selectPhoto photoId s))
        by (apply filter_In; split; [exact Hin | now apply Z.eqb_eq]).
      rewrite Hp in H; contradiction. }
    split.
    + unfold MySQL.listComments.
      rewrite (filter_key_none MySQL.c_photo_id photoId (MySQL.comments s)).
      * reflexivity.
      * intros Hin. apply in_map_iff in Hin as [c [Hid Hin]].
        apply Hnone. rewrite <- Hid. now apply Hc.
    + assert (Hk : ~ In photoId (map MySQL.l_photo_id (MySQL.photo_likes s))).
      { intros Hin. apply in_map_iff in Hin as [l [Hid Hin]].
        apply Hnone. rewrite <- Hid. now apply Hl. }
      rewrite unlikePhoto_not_liked_sql.
      * unfold MySQL.countLikes.
        now rewrite (filter_key_none MySQL.l_photo_id photoId (MySQL.photo_likes s) Hk).
      * intros Hin. apply Hk.
        change photoId with (MySQL.l_photo_id (MySQL.mkLikeRow photoId userId)).
        now apply in_map.
Qed.

Lemma unknown_photo_has_no_comments_or_likes_witness :
  Mongo.listComments (mg := Sample.mongoose) (Sample.menv 9000 "" "")
    Sample.nowhere Sample.mongo_commented
  = (Mongo.mkResponse 200 (Mongo.CommentList []), Sample.mongo_commented)
  /\ MySQL.listComments (Sample.senv 9000 "") 99 Sample.sql_commented
     = (MySQL.mkResponse 200 (MySQL.CommentList []), Sample.sql_commented)
  /\ MySQL.unlikePhoto 99 1 Sample.sql_commented
     = (MySQL.mkResponse 200 (MySQL.Likes 0), Sample.sql_commented).
Proof.
  destruct unknown_photo_has_no_comments_or_likes as [HM HS].
  split.
  - apply (HM Sample.mongo_ext Sample.cursor Sample.mongoose (Sample.menv 9000 "" "")
              _ _ sample_mongo_commented_reachable).
    reflexivity.
  - apply (HS Sample.sql_ext Sample.binary Sample.parameters (Sample.senv 9000 "")
              99 1 _ sample_sql_commented_reachable).
    reflexivity.
Defined.
